(** * Resume Roaster: the rule-based analyzer, roaster and improver

    A shallow embedding of [server/lib/analyzer.ts], [server/lib/roaster.ts]
    and [server/lib/improver.ts], of the rate limiter
    [server/lib/rateLimit.ts] and the routes [server/routes.ts] that stand
    before them, and of the colour bands of the results page.

    - A JavaScript string is the list of its UTF-16 code units ([list Z]).
    - JavaScript numbers that stay integral are [Z]; the places where the
      source leaves the integers (the scoring rubric, the product inside the
      linear-congruential step) use binary64 primitive floats.
    - Regular expressions are terms of a small syntax interpreted by a
      backtracking matcher written with continuations, as ECMAScript
      specifies it.
    - What can go wrong lives in the [option] monad: a method call on
      [undefined], a read outside an array, a zero divisor. The idiom
      [xs[i] || fallback], which expects [undefined], is not a failure. *)

From Stdlib Require Import ZArith Uint63 Floats.PrimFloat Floats.FloatOps Floats.SpecFloat.
From stdpp Require Import gmap strings list.

Open Scope Z_scope.

(** ** Strings *)

Abbreviation jsstring := (list Z).

(** Code units of an ASCII literal. *)
Definition str (s : string) : jsstring :=
  (fun a => Z.of_nat (Ascii.nat_of_ascii a)) <$> String.list_ascii_of_string s.

(** The double quote, which the literals of this file never contain. *)
Definition dq : jsstring := [34].

(** ECMAScript WhiteSpace and LineTerminator code units: what [\s] matches and
    what [trim] strips. *)
Definition isSpace (c : Z) : bool :=
  ((9 <=? c) && (c <=? 13)) || (c =? 32) || (c =? 160) || (c =? 5760)
  || ((8192 <=? c) && (c <=? 8202)) || (c =? 8232) || (c =? 8233)
  || (c =? 8239) || (c =? 8287) || (c =? 12288) || (c =? 65279).

Definition isDigit (c : Z) : bool := (48 <=? c) && (c <=? 57).
Definition isUpper (c : Z) : bool := (65 <=? c) && (c <=? 90).
Definition isLower (c : Z) : bool := (97 <=? c) && (c <=? 122).

(** [\w] without the unicode flag. *)
Definition isWord (c : Z) : bool := isDigit c || isUpper c || isLower c || (c =? 95).

(** [.] without the dotAll flag: anything but a line terminator. *)
Definition isDot (c : Z) : bool :=
  negb ((c =? 10) || (c =? 13) || (c =? 8232) || (c =? 8233)).

(** Canonicalize of a non-unicode, ignore-case pattern: a code unit of 128 or
    more is never folded onto an ASCII one, so only ASCII letters fold. *)
Definition canon (c : Z) : Z := if isLower c then c - 32 else c.

Fixpoint dropSpaces (s : jsstring) : jsstring :=
  match s with
  | c :: t => if isSpace c then dropSpaces t else s
  | [] => []
  end.

Definition trimStart (s : jsstring) : jsstring := dropSpaces s.
Definition trimEnd (s : jsstring) : jsstring := reverse (trimStart (reverse s)).
Definition trim (s : jsstring) : jsstring := trimEnd (trimStart s).

(** [a.startsWith(b)] *)
Fixpoint startsWith (p s : jsstring) : bool :=
  match p, s with
  | [], _ => true
  | _ :: _, [] => false
  | x :: p', y :: s' => (x =? y) && startsWith p' s'
  end.

(** [s.includes(p)] *)
Fixpoint includes (s p : jsstring) : bool :=
  startsWith p s || match s with [] => false | _ :: t => includes t p end.

(** [parts.join(sep)] *)
Fixpoint join (sep : jsstring) (parts : list jsstring) : jsstring :=
  match parts with
  | [] => []
  | [p] => p
  | p :: rest => p ++ sep ++ join sep rest
  end.

(** [s.split("\n")], and any other split on a single code unit: the pieces
    between the separators, a lone empty piece for the empty string. *)
Fixpoint splitOn (sep : Z) (s : jsstring) : list jsstring :=
  match s with
  | [] => [[]]
  | c :: t =>
      if c =? sep then [] :: splitOn sep t
      else match splitOn sep t with
           | [] => [[c]]
           | p :: ps => (c :: p) :: ps
           end
  end.

(** [s.replace(p, r)] with a string pattern: the first occurrence only. *)
Fixpoint replaceStr (p r s : jsstring) : jsstring :=
  if startsWith p s then r ++ drop (length p) s
  else match s with
       | [] => []
       | c :: t => c :: replaceStr p r t
       end.

(** [String(n)] for an integer. *)
Fixpoint digitsOf (fuel : nat) (n : Z) (acc : jsstring) : jsstring :=
  match fuel with
  | O => acc
  | S f => if n <? 10 then (48 + n) :: acc
           else digitsOf f (n / 10) ((48 + n mod 10) :: acc)
  end.

Definition numToString (n : Z) : jsstring :=
  if n <? 0 then 45 :: digitsOf (Z.to_nat (Z.log2 (- n)) + 1) (- n) []
  else digitsOf (Z.to_nat (Z.log2 n) + 1) n [].

(** ** Regular expressions *)

Inductive regex : Type :=
  | Eps
  | Chr (c : Z)
  | Cls (p : Z -> bool)
  | Cat (a b : regex)
  | Alt (a b : regex)
  | Opt (a : regex)
  | Star (p : Z -> bool)
  | Cap (a : regex)
  | WordB
  | Bol
  | Eol.

(** The quantified atoms of the program's patterns are all character classes. *)
Definition Plus (p : Z -> bool) : regex := Cat (Cls p) (Star p).

Fixpoint lit (s : jsstring) : regex :=
  match s with
  | [] => Eps
  | [c] => Chr c
  | c :: t => Cat (Chr c) (lit t)
  end.

Fixpoint alts (rs : list regex) : regex :=
  match rs with
  | [] => Cls (fun _ => false)
  | [r] => r
  | r :: rest => Alt r (alts rest)
  end.

Definition words (ws : list string) : regex := alts ((fun w => lit (str w)) <$> ws).

Fixpoint rep (n : nat) (r : regex) : regex :=
  match n with
  | O => Eps
  | S O => r
  | S k => Cat r (rep k r)
  end.

Definition oneOf (cs : list Z) (c : Z) : bool := bool_decide (c ∈ cs).

(** The matcher state: the code unit before the current position (none at the
    start of the input), the input that remains, and capture group 1. *)
Record mstate := MState { prev : option Z; rest : jsstring; cap1 : option jsstring }.

Definition isWordO (o : option Z) : bool :=
  match o with Some c => isWord c | None => false end.

Definition advance (st : mstate) (c : Z) (t : jsstring) : mstate :=
  MState (Some c) t (cap1 st).

(** Greedy [p*]: take a code unit and go on, and only when that fails try the
    continuation here. *)
Fixpoint star (p : Z -> bool) (pv : option Z) (s : jsstring) (cp : option jsstring)
    (k : mstate -> option mstate) : option mstate :=
  match s with
  | c :: t =>
      if p c then
        match star p (Some c) t cp k with
        | Some r => Some r
        | None => k (MState pv s cp)
        end
      else k (MState pv s cp)
  | [] => k (MState pv s cp)
  end.

Fixpoint matcher (ic : bool) (r : regex) (st : mstate)
    (k : mstate -> option mstate) : option mstate :=
  match r with
  | Eps => k st
  | Chr c =>
      match rest st with
      | x :: t =>
          if (if ic then canon x =? canon c else x =? c) then k (advance st x t) else None
      | [] => None
      end
  | Cls p =>
      match rest st with
      | x :: t => if p x then k (advance st x t) else None
      | [] => None
      end
  | Cat a b => matcher ic a st (fun st' => matcher ic b st' k)
  | Alt a b =>
      match matcher ic a st k with
      | Some res => Some res
      | None => matcher ic b st k
      end
  | Opt a =>
      match matcher ic a st k with
      | Some res => Some res
      | None => k st
      end
  | Star p => star p (prev st) (rest st) (cap1 st) k
  | Cap a =>
      matcher ic a st (fun st' =>
        k (MState (prev st') (rest st')
             (Some (take (length (rest st) - length (rest st')) (rest st)))))
  | WordB =>
      if xorb (isWordO (prev st)) (isWordO (head (rest st))) then k st else None
  | Bol => match prev st with None => k st | Some _ => None end
  | Eol => match rest st with [] => k st | _ :: _ => None end
  end.

(** One match attempt at the current position: the number of code units
    matched and capture group 1. *)
Definition matchAt (ic : bool) (r : regex) (pv : option Z) (s : jsstring)
    : option (nat * option jsstring) :=
  match matcher ic r (MState pv s None) Some with
  | Some st => Some ((length s - length (rest st))%nat, cap1 st)
  | None => None
  end.

(** [re.exec(s)] without the global flag: the leftmost position where an
    attempt succeeds; the matched text and capture group 1. *)
Fixpoint execFrom (ic : bool) (r : regex) (pv : option Z) (s : jsstring)
    : option (jsstring * option jsstring) :=
  match matchAt ic r pv s with
  | Some (n, c) => Some (take n s, c)
  | None =>
      match s with
      | [] => None
      | x :: t => execFrom ic r (Some x) t
      end
  end.

Definition exec (ic : bool) (r : regex) (s : jsstring) := execFrom ic r None s.

(** [re.test(s)] *)
Definition test (ic : bool) (r : regex) (s : jsstring) : bool :=
  match exec ic r s with Some _ => true | None => false end.

(** The scanners below walk the input one code unit at a time; [skip] counts
    the units that still belong to the match found last. No pattern of the
    program matches the empty string, and an empty match is treated as no
    match. *)

(** [s.match(re)] with the global flag: every match, left to right,
    [None] for [null]. *)
Fixpoint matchesFrom (ic : bool) (r : regex) (pv : option Z) (s : jsstring) (skip : nat)
    : list jsstring :=
  match s with
  | [] => []
  | x :: t =>
      match skip with
      | S n => matchesFrom ic r (Some x) t n
      | O =>
          match matchAt ic r pv s with
          | Some (S n, _) => take (S n) s :: matchesFrom ic r (Some x) t n
          | _ => matchesFrom ic r (Some x) t O
          end
      end
  end.

Definition matchAll (ic : bool) (r : regex) (s : jsstring) : option (list jsstring) :=
  match matchesFrom ic r None s O with
  | [] => None
  | ms => Some ms
  end.

(** [s.replace(re, by)] with the global flag. *)
Fixpoint replaceFrom (ic : bool) (r : regex) (by_ : jsstring) (pv : option Z)
    (s : jsstring) (skip : nat) : jsstring :=
  match s with
  | [] => []
  | x :: t =>
      match skip with
      | S n => replaceFrom ic r by_ (Some x) t n
      | O =>
          match matchAt ic r pv s with
          | Some (S n, _) => by_ ++ replaceFrom ic r by_ (Some x) t n
          | _ => x :: replaceFrom ic r by_ (Some x) t O
          end
      end
  end.

Definition replaceAll (ic : bool) (r : regex) (by_ s : jsstring) : jsstring :=
  replaceFrom ic r by_ None s O.

(** [s.replace(re, by)] without the global flag: the leftmost match only. *)
Fixpoint replaceFirstFrom (ic : bool) (r : regex) (by_ : jsstring) (pv : option Z)
    (s : jsstring) : jsstring :=
  match matchAt ic r pv s with
  | Some (n, _) => by_ ++ drop n s
  | None =>
      match s with
      | [] => []
      | x :: t => x :: replaceFirstFrom ic r by_ (Some x) t
      end
  end.

Definition replaceFirst (ic : bool) (r : regex) (by_ s : jsstring) : jsstring :=
  replaceFirstFrom ic r by_ None s.

(** [s.split(re)]: [cur] holds, reversed, the piece being read. *)
Fixpoint splitFrom (ic : bool) (r : regex) (pv : option Z) (s : jsstring)
    (skip : nat) (cur : jsstring) : list jsstring :=
  match s with
  | [] => [reverse cur]
  | x :: t =>
      match skip with
      | S n => splitFrom ic r (Some x) t n cur
      | O =>
          match matchAt ic r pv s with
          | Some (S n, _) => reverse cur :: splitFrom ic r (Some x) t n []
          | _ => splitFrom ic r (Some x) t O (x :: cur)
          end
      end
  end.

Definition splitRe (ic : bool) (r : regex) (s : jsstring) : list jsstring :=
  splitFrom ic r None s O [].

(** [text.split(/\s+/).filter((w) => w.length > 0)] *)
Definition wordsOf (s : jsstring) : list jsstring :=
  filter (fun w => (0 < length w)%nat) (splitRe false (Plus isSpace) s).

(** ** Numbers *)

Set Warnings "-inexact-float".

(** An integer as a JavaScript number. *)
Definition ofZ (z : Z) : float :=
  if z <? 0 then (- of_uint63 (Uint63.of_Z (- z)))%float else of_uint63 (Uint63.of_Z z).

(** The integer part of [m * 2^e], rounded down. The scoring divides by no
    zero and so meets neither NaN nor an infinity; on those the functions
    below answer 0. *)
Definition sfFloor (f : spec_float) : Z :=
  match f with
  | S754_finite sg m e =>
      let v := if sg then Zneg m else Zpos m in
      match e with
      | Zneg p => v / 2 ^ Zpos p
      | _ => v * 2 ^ e
      end
  | _ => 0
  end.

(** [Math.round]: the nearest integer, ties upwards, computed exactly. *)
Definition sfRound (f : spec_float) : Z :=
  match f with
  | S754_finite sg m e =>
      let v := if sg then Zneg m else Zpos m in
      match e with
      | Zneg p => (2 * v + 2 ^ Zpos p) / (2 * 2 ^ Zpos p)
      | _ => v * 2 ^ e
      end
  | _ => 0
  end.

Definition mathFloor (x : float) : Z := sfFloor (Prim2SF x).
Definition mathCeil (x : float) : Z := - sfFloor (Prim2SF (- x)%float).
Definition mathRound (x : float) : Z := sfRound (Prim2SF x).
Definition mathTrunc (x : float) : Z := if (x <? 0)%float then mathCeil x else mathFloor x.

(** [Math.min] and [Math.max] of two numbers, NaN if either is. *)
Definition fmin (a b : float) : float :=
  if is_nan a || is_nan b then nan else if (b <? a)%float then b else a.
Definition fmax (a b : float) : float :=
  if is_nan a || is_nan b then nan else if (a <? b)%float then b else a.

(** [a % b] and [a / b] on integers. JavaScript answers NaN or an infinity
    for a zero divisor; the model fails there instead, so that a computation
    that returns a value has divided by no zero. *)
Definition jsRem (a b : Z) : option Z :=
  if b =? 0 then None else Some (Z.rem a b).
Definition jsDiv (a b : Z) : option float :=
  if b =? 0 then None else Some (ofZ a / ofZ b)%float.

(** ToInt32: wrap into [-2^31, 2^31). *)
Definition toInt32 (z : Z) : Z :=
  let m := z mod 4294967296 in
  if 2147483648 <=? m then m - 4294967296 else m.

(** ** The analyzer: dictionaries *)

Definition BUZZWORDS : list string := [
  "synergy"; "passionate"; "dynamic"; "self-starter"; "hardworking"; "team player";
  "results-driven"; "go-getter"; "proactive"; "detail-oriented"; "innovative";
  "guru"; "ninja"; "rockstar"; "visionary"; "thought leader"; "motivated";
  "dedicated"; "enthusiastic"; "strategic thinker"; "fast learner"; "people person";
  "outside the box"; "value-added"; "best of breed"; "paradigm"; "leverage";
  "synergize"; "holistic"; "bandwidth"; "deep dive"; "circle back"; "low-hanging fruit";
  "move the needle"; "game-changer"; "disruptive"; "bleeding edge"; "mission-critical";
  "action-oriented"; "bottom line"; "core competency"; "empower"; "stakeholder";
  "scalable"; "ecosystem"; "pivot"; "agile mindset"; "wear many hats"
]%string.

Definition TECH_DICTIONARY : list string := [
  "react"; "angular"; "vue"; "svelte"; "next.js"; "nuxt"; "gatsby";
  "node.js"; "express"; "fastify"; "django"; "flask"; "rails"; "spring";
  "typescript"; "javascript"; "python"; "java"; "c#"; "c++"; "go"; "rust"; "kotlin"; "swift";
  "aws"; "gcp"; "azure"; "docker"; "kubernetes"; "terraform"; "ansible";
  "postgresql"; "mysql"; "mongodb"; "redis"; "elasticsearch"; "dynamodb"; "cassandra";
  "kafka"; "rabbitmq"; "graphql"; "rest"; "grpc"; "websocket";
  "ci/cd"; "jenkins"; "github actions"; "gitlab ci"; "circleci";
  "react native"; "flutter"; "ionic"; ".net"; "laravel"; "symfony";
  "tailwind"; "sass"; "less"; "webpack"; "vite"; "rollup";
  "figma"; "sketch"; "photoshop"; "illustrator";
  "sql"; "nosql"; "linux"; "nginx"; "apache";
  "git"; "jira"; "confluence"; "slack";
  "machine learning"; "deep learning"; "tensorflow"; "pytorch"; "scikit-learn";
  "pandas"; "numpy"; "spark"; "hadoop"; "airflow"; "dbt";
  "tableau"; "power bi"; "looker"; "snowflake"; "bigquery"; "redshift";
  "oauth"; "jwt"; "saml"; "ldap"; "openid";
  "microservices"; "serverless"; "lambda"; "s3"; "ec2"; "cloudfront"
]%string.

Definition SCALE_WORDS : list string := [
  "million"; "billion"; "high-traffic"; "distributed"; "microservices";
  "latency"; "throughput"; "scalability"; "concurrent"; "petabyte";
  "terabyte"; "real-time"; "low-latency"; "fault-tolerant"; "load balancing";
  "horizontal scaling"; "vertical scaling"; "sharding"; "replication"
]%string.

Definition IMPACT_VERBS : list string := [
  "reduced"; "increased"; "improved"; "boosted"; "grew"; "saved";
  "generated"; "delivered"; "achieved"; "optimized"; "accelerated";
  "streamlined"; "automated"; "eliminated"; "decreased"; "doubled";
  "tripled"; "launched"; "shipped"; "deployed"; "migrated"; "designed";
  "architected"; "built"; "developed"; "implemented"; "created";
  "established"; "led"; "managed"; "mentored"; "coached"; "trained"
]%string.

Definition SHIPPING_VERBS : list string :=
  ["built"; "shipped"; "launched"; "deployed"; "released"; "published"; "created"; "developed"]%string.

Definition VAGUE_PHRASES : list string := [
  "responsible for"; "duties included"; "helped with"; "assisted in";
  "worked on"; "involved in"; "participated in"; "tasked with";
  "in charge of"; "various tasks"; "day-to-day"; "miscellaneous"
]%string.

Definition ROUTINE_ROLE_KEYWORDS : list string := [
  "data entry"; "receptionist"; "filing"; "administrative assistant";
  "cashier"; "clerk"; "customer service representative"; "operator"
]%string.

Definition OWNERSHIP_KEYWORDS : list string := [
  "led"; "owned"; "architected"; "designed"; "founded"; "co-founded";
  "principal"; "staff"; "senior"; "director"; "vp"; "head of";
  "chief"; "manager"; "tech lead"; "team lead"
]%string.

Definition ADAPTABILITY_KEYWORDS : list string := [
  "learned"; "migrated"; "adopted"; "transitioned"; "pivoted";
  "cross-functional"; "full-stack"; "multi-stack"; "polyglot";
  "led adoption"; "introduced"; "pioneered"
]%string.

(** ** The analyzer: text functions *)

Definition nl : jsstring := [10].

Definition cleanText (text : jsstring) : jsstring :=
  trim
    (replaceAll false (Cat (rep 4 (Chr 10)) (Star (Z.eqb 10))) (nl ++ nl ++ nl)
       (replaceAll false (Cat (rep 3 (Chr 32)) (Star (Z.eqb 32))) (str "  ")
          (replaceAll false (Chr 9) (str " ")
             (replaceAll false (lit [13; 10]) nl text)))).

(** [\b(w1|w2|...)\b] *)
Definition wordB (ws : list string) : regex := Cat WordB (Cat (words ws) WordB).

(** [new RegExp(`\\b${w}\\b`, "i")]; the dictionary entries that reach it bare
    hold no metacharacter, and [detectTechStack] escapes those of its own. *)
Definition wordRe (w : string) : regex := Cat WordB (Cat (lit (str w)) WordB).

Definition sectionHeaders : list (string * regex) := [
  ("experience", wordB ["experience"; "employment"; "work history"; "professional experience"; "career"]);
  ("projects", wordB ["projects"; "personal projects"; "side projects"; "portfolio"]);
  ("skills", wordB ["skills"; "technical skills"; "technologies"; "competencies"; "proficiencies"; "tech stack"]);
  ("education", wordB ["education"; "academic"; "degree"; "university"; "college"; "school"]);
  ("summary", wordB ["summary"; "objective"; "profile"; "about"; "about me"; "professional summary"; "career objective"]);
  ("certifications",
     Cat WordB (Cat (alts [Cat (lit (str "certification")) (Opt (Chr 115));
                           Cat (lit (str "license")) (Opt (Chr 115));
                           lit (str "credentials");
                           Cat (lit (str "accreditation")) (Opt (Chr 115))]) WordB))
]%string.

(** The loop state of [extractSections]. *)
Record segState := SegState {
  sections : gmap string jsstring;
  currentSection : string;
  currentContent : list jsstring
}.

(** The first header, in declaration order, whose pattern the trimmed line
    matches while being shorter than 60 code units. *)
Definition headingOf (trimmed : jsstring) : option string :=
  fst <$> List.find (fun h => test true (snd h) trimmed && (length trimmed <? 60)%nat)
            sectionHeaders.

(** [if (currentContent.length > 0) sections[currentSection] = ...] *)
Definition commit (st : segState) : gmap string jsstring :=
  if (0 <? length (currentContent st))%nat
  then <[currentSection st := trim (join nl (currentContent st))]> (sections st)
  else sections st.

Definition segStep (st : segState) (line : jsstring) : segState :=
  match headingOf (trim line) with
  | Some name => SegState (commit st) name []
  | None => SegState (sections st) (currentSection st) (currentContent st ++ [line])
  end.

Definition extractSectionsLines (lines : list jsstring) : gmap string jsstring :=
  commit (foldl segStep (SegState ∅ "preamble"%string []) lines).

Definition extractSections (text : jsstring) : gmap string jsstring :=
  extractSectionsLines (splitOn 10 text).

(** Bullet glyphs: - • * ► ▪ ▸ ◦ ‣ *)
Definition bulletGlyphs : list Z := [45; 8226; 42; 9658; 9642; 9656; 9702; 8227].

Definition bulletLine (trimmed : jsstring) : bool :=
  test false (Cat Bol (Cat (Cls (oneOf bulletGlyphs)) (Plus isSpace))) trimmed
  || test false (Cat Bol (Cat (Plus isDigit) (Cat (Cls (oneOf [46; 41])) (Plus isSpace)))) trimmed.

Definition stripMarker (trimmed : jsstring) : jsstring :=
  trim (replaceFirst false
          (Cat Bol (Plus (fun c => oneOf bulletGlyphs c || isDigit c || oneOf [46; 41] c || isSpace c)))
          [] trimmed).

Definition extractBullets (text : jsstring) : list jsstring :=
  foldl (fun bullets line =>
           let trimmed := trim line in
           if bulletLine trimmed then
             let cleaned := stripMarker trimmed in
             if (5 <? length cleaned)%nat then bullets ++ [cleaned] else bullets
           else bullets)
        [] (splitOn 10 text).

(** [matches ? matches.length : 0] *)
Definition matchCount (ic : bool) (r : regex) (s : jsstring) : Z :=
  match matchAll ic r s with
  | Some ms => Z.of_nat (length ms)
  | None => 0
  end.

(** [\d+%], [\$[\d,]+] and [\d+x\b] *)
Definition pctRe : regex := Cat (Plus isDigit) (Chr 37).
Definition dollarRe : regex := Cat (Chr 36) (Plus (fun c => isDigit c || (c =? 44))).
Definition timesRe : regex := Cat (Plus isDigit) (Cat (Chr 120) WordB).

(** [\d+(?:ms|s|sec|mins?|hours?|days?)\b] *)
Definition durationRe : regex :=
  Cat (Plus isDigit)
    (Cat (alts [lit (str "ms"); lit (str "s"); lit (str "sec");
                Cat (lit (str "min")) (Opt (Chr 115));
                Cat (lit (str "hour")) (Opt (Chr 115));
                Cat (lit (str "day")) (Opt (Chr 115))]) WordB).

(** [\d+(?:k|m|b)\b] *)
Definition magnitudeRe : regex :=
  Cat (Plus isDigit) (Cat (alts [Chr 107; Chr 109; Chr 98]) WordB).

(** [\d[\d,]*\+?\s*(?:users?|customers?|clients?|transactions?|requests?|downloads?)] *)
Definition entityRe : regex :=
  Cat (Cls isDigit)
    (Cat (Star (fun c => isDigit c || (c =? 44)))
       (Cat (Opt (Chr 43))
          (Cat (Star isSpace)
             (alts [Cat (lit (str "user")) (Opt (Chr 115));
                    Cat (lit (str "customer")) (Opt (Chr 115));
                    Cat (lit (str "client")) (Opt (Chr 115));
                    Cat (lit (str "transaction")) (Opt (Chr 115));
                    Cat (lit (str "request")) (Opt (Chr 115));
                    Cat (lit (str "download")) (Opt (Chr 115))])))).

(** The patterns of [countMetrics] with their ignore-case flag. *)
Definition metricPatternsFull : list (bool * regex) := [
  (false, pctRe);
  (false, dollarRe);
  (false, durationRe);
  (true, magnitudeRe);
  (true, timesRe);
  (true, entityRe)
].

Definition impactPattern : regex :=
  Cat (words ["reduced"; "increased"; "improved"; "boosted"; "grew"; "saved"; "generated"; "optimized"]%string)
    (Cat (Plus isSpace)
       (Cat (Plus isWord)
          (Cat (Plus isSpace)
             (Cat (Opt (Cat (lit (str "by")) (Plus isSpace))) (Cls isDigit))))).

Definition countMetrics (text : jsstring) : Z :=
  foldl (fun count p => count + matchCount (fst p) (snd p) text) 0 metricPatternsFull
  + matchCount true impactPattern text.

Definition urlPattern : regex :=
  Cat (lit (str "http"))
    (Cat (Opt (Chr 115))
       (Cat (lit (str "://")) (Plus (fun c => negb (isSpace c || (c =? 41)))))).

Definition countLinks (text : jsstring) : Z := matchCount true urlPattern text.

(** [[...new Set(found)]]: first occurrences, in order. *)
Fixpoint uniq (seen l : list string) : list string :=
  match l with
  | [] => []
  | x :: t => if bool_decide (x ∈ seen) then uniq seen t else x :: uniq (x :: seen) t
  end.

(** [simpleHash]: the loop body is [hash = ((hash << 5) - hash) + char; hash |= 0]. *)
Definition simpleHash (s : jsstring) : Z :=
  Z.abs (foldl (fun hash char => toInt32 ((toInt32 (hash * 32) - hash) + char)) 0 s).

(** JavaScript truthiness of a possibly missing string: [!!s], and [a || b]. *)
Definition truthy (o : option jsstring) : bool :=
  match o with Some (_ :: _) => true | _ => false end.

Definition orElse (a : option jsstring) (b : jsstring) : jsstring :=
  match a with Some (c :: t) => c :: t | _ => b end.

(** A possibly missing string spliced into a template literal. *)
Definition showStr (o : option jsstring) : jsstring :=
  match o with Some s => s | None => str "undefined" end.

(** [String.prototype.toLowerCase] restricted to ASCII input, on which it is
    the engine's function. *)
Definition asciiLower (s : jsstring) : jsstring :=
  (fun c => if isUpper c then c + 32 else c) <$> s.

Record BreakdownItem := mkBreakdown { b_name : jsstring; b_score : float; b_note : jsstring }.

Record ReportedItem := mkReported { r_name : jsstring; r_score : Z; r_note : jsstring }.

Record DetectedInfo := mkDetected {
  wordCount : Z; bulletCount : Z; metricCount : Z; linkCount : Z;
  hasProjects : bool; hasExperience : bool; hasSkills : bool; hasEducation : bool
}.

Record AnalyzeResponse := mkAnalyze {
  score : Z;
  label : jsstring;
  summary : jsstring;
  breakdown : list ReportedItem;
  strengths : list jsstring;
  redFlags : list jsstring;
  detected : DetectedInfo;
  disclaimers : list jsstring
}.

Definition clamp100 (x : float) : float := fmax 0 (fmin 100 x).

(** [if (c) xs.push(s)] *)
Definition pushIf (c : bool) (s : jsstring) (xs : list jsstring) : list jsstring :=
  if c then xs ++ [s] else xs.

Definition len {A} (l : list A) : Z := Z.of_nat (length l).

(** ** The roaster: context, templates and the seeded engine *)

Inductive RoastLevel := light | medium | spicy.

Definition LEVEL_ORDER (l : RoastLevel) : Z :=
  match l with light => 0 | medium => 1 | spicy => 2 end.

Record RoastContext := mkContext {
  ctx_text : jsstring;
  ctx_wordCount : Z;
  ctx_bulletCount : Z;
  ctx_metricCount : Z;
  ctx_linkCount : Z;
  ctx_buzzwordCount : Z;
  ctx_buzzwords : list string;
  ctx_vaguePhrases : list string;
  ctx_techStack : list string;
  ctx_hasProjects : bool;
  ctx_hasExperience : bool;
  ctx_hasSkills : bool;
  ctx_hasSummary : bool;
  ctx_hasEducation : bool
}.

Record RoastTemplate := mkTemplate {
  minLevel : RoastLevel;
  trigger : RoastContext -> bool;
  category : string;
  lines : list jsstring
}.

Record RoastResponse := mkRoast {
  title : jsstring;
  roastLines : list jsstring;
  bestLine : jsstring;
  redemption : list jsstring;
  boundaries : list jsstring
}.

Definition TEMPLATES : list RoastTemplate := [
  mkTemplate light (fun _ => true) "overall"%string
     [ str "I've seen better resumes on the back of napkins at a Denny's.";
       str "Your resume walked into the room and the ATS system literally threw up.";
       str "This resume has the energy of a participation trophy.";
       str "If resumes were movies, yours would go straight to DVD. In 2004.";
       str "Your resume reads like a Wikipedia article nobody bothered to cite.";
       str "This resume is the 'we have a candidate at home' of resumes." ];
  mkTemplate medium (fun _ => true) "overall"%string
     [ str "I've read tax forms more exciting than this resume. And I've read a LOT of tax forms.";
       str "Your resume is proof that spell check doesn't fix boring.";
       str "This resume needs less buzzwords and more 'I actually did something.'";
       str "If your resume were a meal, it'd be unseasoned chicken breast on a paper plate.";
       str "Your resume is like a horror movie - terrifying, but for all the wrong reasons.";
       str "I showed this resume to a recruiter and they asked for combat pay." ];
  mkTemplate spicy (fun _ => true) "overall"%string
     [ str "Holy hell, did you write this resume during a damn earthquake?";
       str "This resume is so bad, LinkedIn would reject it as spam. And LinkedIn accepts EVERYTHING.";
       str "Whoever told you this resume was good needs to be fired. Then rehired. Then fired again.";
       str "Your resume hits different. And by 'different' I mean 'like a truck full of red flags.'";
       str "This resume is the professional equivalent of showing up to a job interview in Crocs.";
       str "Jesus Christ, I've seen better-organized crime scenes than this resume." ];
  mkTemplate light (fun ctx => ctx_metricCount ctx =? 0) "no_metrics"%string
     [ str "Not a single number in sight. Did you think this was a poetry reading?";
       str "Your achievements section is just... vibes. Recruiters need numbers, not aura.";
       str "Zero metrics. You could have made some up and it would've been an improvement.";
       str "Show me the numbers! Where are the damn numbers?!" ];
  mkTemplate medium (fun ctx => ctx_metricCount ctx =? 0) "no_metrics"%string
     [ str "You managed to write an entire resume without a single measurable achievement. That's actually impressive in the worst way.";
       str "Not one percentage, not one dollar figure, not one 'increased by.' What the hell did you do all day?";
       str "The absence of metrics here is so complete, I'm almost in awe. It's like you're allergic to accountability." ];
  mkTemplate spicy (fun ctx => ctx_metricCount ctx =? 0) "no_metrics"%string
     [ str "Not a single goddamn metric. Did you just sit in a chair for three years and call it 'experience'?";
       str "Zero numbers. Your resume is basically a long-form excuse note from your career.";
       str "The sheer audacity of submitting a resume with zero metrics. I respect the delusion." ];
  mkTemplate light (fun ctx => 3 <? ctx_buzzwordCount ctx) "buzzwords"%string
     [ dq ++ str "{BW1}" ++ dq ++ str " and " ++ dq ++ str "{BW2}" ++ dq ++ str " in the same resume? Corporate bingo is not a skill.";
       str "Your resume reads like someone ate a LinkedIn post and threw up on a Word doc.";
       str "If I had a dollar for every buzzword, I could afford to stop reading this." ];
  mkTemplate medium (fun ctx => 3 <? ctx_buzzwordCount ctx) "buzzwords"%string
     [ str "You crammed so many buzzwords in here, I thought this was a Fortune 500 press release.";
       str "Somewhere, a recruiter just rolled their eyes so hard they saw their own brain.";
       str "Your buzzword-to-substance ratio is genuinely concerning." ];
  mkTemplate spicy (fun ctx => 3 <? ctx_buzzwordCount ctx) "buzzwords"%string
     [ str "The buzzword density here could power a goddamn LinkedIn influencer for a month.";
       str "I swear you just fed a thesaurus into a blender and hit 'resume mode.'";
       str "Calling yourself a 'dynamic synergy-driven thought leader' isn't a personality. It's a cry for help." ];
  mkTemplate light (fun ctx => 0 <? len (ctx_vaguePhrases ctx)) "vague"%string
     [ dq ++ str "Responsible for" ++ dq ++ str " what, exactly? Existing? Showing up?";
       str "Your bullet points have all the specificity of a horoscope.";
       str "'Assisted in various tasks' - please, tell me less." ];
  mkTemplate medium (fun ctx => 0 <? len (ctx_vaguePhrases ctx)) "vague"%string
     [ str "'Responsible for' is doing a lot of heavy lifting here. Unfortunately, your resume isn't.";
       str "These bullets are so vague, a psychic couldn't tell what you actually did.";
       str "Your 'experience' section reads like a really boring mystery novel with no resolution." ];
  mkTemplate spicy (fun ctx => 0 <? len (ctx_vaguePhrases ctx)) "vague"%string
     [ str "'Responsible for various tasks.' That's literally the most useless sentence in the English language.";
       str "Your bullets are so vague, they'd fail a background check on THEMSELVES.";
       str "I've seen fortune cookies with more detail than your work history." ];
  mkTemplate light (fun ctx => ctx_bulletCount ctx <? 5) "weak_bullets"%string
     [ str "You have fewer bullet points than a grocery list for a college student.";
       str "Your resume is lighter than a rice cake and twice as bland." ];
  mkTemplate medium (fun ctx => ctx_bulletCount ctx <? 5) "weak_bullets"%string
     [ str "This resume has fewer bullet points than my morning to-do list, and mine just says 'coffee.'";
       str "Did you run out of things to say or did you just give up?" ];
  mkTemplate light (fun ctx => negb (ctx_hasProjects ctx)) "no_projects"%string
     [ str "No projects section? Do you even build things?";
       str "Where are your side projects? Your experiments? Your 'look what I made'?" ];
  mkTemplate medium (fun ctx => negb (ctx_hasProjects ctx)) "no_projects"%string
     [ str "No projects section at all. What do you do outside of work, just stare at the ceiling?";
       str "The absence of a projects section is deafening. It screams 'I only code when someone pays me.'" ];
  mkTemplate spicy (fun ctx => negb (ctx_hasProjects ctx)) "no_projects"%string
     [ str "No projects? No GitHub? No portfolio? What the hell have you been doing with your life?";
       str "Not a single side project. Your passion for this career could be measured with a damn microscope." ];
  mkTemplate light (fun ctx => len (ctx_techStack ctx) <? 3) "generic_skills"%string
     [ str "Your skills section is so generic, it could belong to literally anyone.";
       str "Listing 'Microsoft Office' as a skill in 2024 is certainly a choice." ];
  mkTemplate medium (fun ctx => len (ctx_techStack ctx) <? 3) "generic_skills"%string
     [ str "Your skill list reads like the default settings on a new laptop.";
       str "I've seen more specialized skill sets on a Swiss Army knife." ];
  mkTemplate light (fun ctx => negb (ctx_hasSummary ctx) && (200 <? ctx_wordCount ctx)) "no_summary"%string
     [ str "No summary? You just threw us in without even a 'hello'? Bold.";
       str "Starting a resume without a summary is like starting a conversation mid-sentence." ];
  mkTemplate medium (fun ctx => negb (ctx_hasSummary ctx) && (200 <? ctx_wordCount ctx)) "no_summary"%string
     [ str "You skipped the summary section like it was leg day at the gym.";
       str "No profile summary. The recruiter has to just... guess who you are? Cool cool cool." ];
  mkTemplate light (fun ctx => ctx_linkCount ctx =? 0) "no_links"%string
     [ str "Not a single link? No GitHub, no LinkedIn, no portfolio. Mystery candidate.";
       str "Zero URLs. In 2024. Are you in witness protection?" ];
  mkTemplate medium (fun ctx => ctx_linkCount ctx =? 0) "no_links"%string
     [ str "No links at all? Your online presence is as invisible as your resume is bland.";
       str "Zero links. Either you don't have an internet presence or you're actively hiding from it." ];
  mkTemplate light (fun ctx => 1000 <? ctx_wordCount ctx) "too_long"%string
     [ str "This is a resume, not a novel. Brevity is the soul of getting hired.";
       str "You wrote a small book. Recruiters spend 6 seconds. SIX. SECONDS." ];
  mkTemplate medium (fun ctx => 1000 <? ctx_wordCount ctx) "too_long"%string
     [ str "Your resume is so long, it needs a table of contents and an index.";
       str "I started reading this resume yesterday and I'm still not done." ];
  mkTemplate light (fun ctx => (ctx_wordCount ctx <? 150) && (30 <? ctx_wordCount ctx)) "too_short"%string
     [ str "This resume is shorter than a tweet thread. Actually, that's an insult to tweets.";
       str "Is this your resume or your Tinder bio? Either way, swipe left." ];
  mkTemplate light (fun _ => true) "finisher"%string
     [ str "Look, I'm roasting because I care. Now go fix this thing.";
       str "On the bright side, the only direction from here is up. WAY up.";
       str "Your resume has potential. It's just buried under a mountain of mediocrity.";
       str "The good news? You can fix all of this. The bad news? You need to fix all of this." ];
  mkTemplate medium (fun _ => true) "finisher"%string
     [ str "I've seen worse resumes. But I had to really think about it.";
       str "This resume is fixable. But we're talking renovations, not a fresh coat of paint.";
       str "Take this roast, learn from it, and come back stronger. Your resume sure as hell can't come back weaker." ];
  mkTemplate spicy (fun _ => true) "finisher"%string
     [ str "Holy hell, what a ride. Go rewrite this entire damn thing and come back when you're serious.";
       str "If your career was a stock, your resume just triggered a sell-off. Time to rally.";
       str "I'm done. My eyes need therapy. Go fix this abomination." ]
].

(** [(s * 1103515245 + 12345) & 0x7fffffff]: the product and the sum are
    binary64 operations, [&] takes ToInt32 of the result. *)
Definition lcg (s : Z) : Z :=
  Z.land (toInt32 (mathTrunc (ofZ s * 1103515245 + 12345)%float)) 2147483647.

(** [[result[i], result[j]] = [result[j], result[i]]]; an index outside the
    array is a failure of the model. *)
Definition swap {T} (result : list T) (i j : nat) : option (list T) :=
  a ← result !! i;
  b ← result !! j;
  Some (<[j := a]> (<[i := b]> result)).

(** The body of the [for (let i = result.length - 1; i > 0; i--)] loop, entered
    with [i]. *)
Fixpoint shuffleLoop {T} (i : nat) (s : Z) (result : list T) : option (list T) :=
  match i with
  | O => Some result
  | S i' =>
      let s' := lcg s in
      j ← jsRem s' (Z.of_nat i + 1);
      result ← swap result i (Z.to_nat j);
      shuffleLoop i' s' result
  end.

(** [const result = [...arr]]: the loop works on a copy, [arr] is only read. *)
Definition seededShuffle {T} (arr : list T) (seed : Z) : option (list T) :=
  shuffleLoop (length arr - 1) seed arr.

(** [arr[lcg(seed) % arr.length]] *)
Definition seededPick {T} (arr : list T) (seed : Z) : option T :=
  j ← jsRem (lcg seed) (len arr);
  arr !! Z.to_nat j.

Definition titles (l : RoastLevel) : list jsstring :=
  match l with
  | light => [str "A Gentle Flame"; str "Lightly Toasted"; str "The Warm-Up Act"]
  | medium => [str "Medium Rare Reality Check"; str "The Heat Is On"; str "No Mercy, Some Restraint"]
  | spicy => [str "Absolute Inferno"; str "Career Cremation"; str "The Full Scorched Earth"]
  end.

Definition allRedemptions : list jsstring := [
  str "Add 3-5 quantified metrics to your strongest bullet points";
  str "Create a projects section with links to actual work you've shipped";
  str "Replace every 'responsible for' with a strong action verb + measurable result";
  str "Add your GitHub/portfolio link - show, don't just tell";
  str "Cut the buzzwords and replace with specific technologies and outcomes";
  str "Trim your resume to one page with only your strongest achievements";
  str "Write a 2-3 sentence summary that positions you clearly for your target role";
  str "Rewrite your weakest bullets using the format: Verb + What + Tech + Result"
].

Definition roastBoundaries : list jsstring := [
  str "This roast targets your resume's writing and content, not you as a person.";
  str "Strong language is used for comedic effect only.";
  str "No personal attacks, slurs, or discriminatory content."
].

(** [replacePlaceholders]; its [seed] argument is unused in the source. *)
Definition replacePlaceholders (line : jsstring) (ctx : RoastContext) (seed : Z) : jsstring :=
  match ctx_buzzwords ctx with
  | bw1 :: bw2 :: _ =>
      replaceStr (str "{BW2}") (str bw2) (replaceStr (str "{BW1}") (str bw1) line)
  | [bw1] =>
      replaceStr (str "{BW2}") (str "synergy") (replaceStr (str "{BW1}") (str bw1) line)
  | [] =>
      replaceStr (str "{BW2}") (str "synergy") (replaceStr (str "{BW1}") (str "dynamic") line)
  end.

(** The roaster's and the improver's own metric count: three patterns. *)
Definition metricPatterns : list (bool * regex) :=
  [(false, pctRe); (false, dollarRe); (true, timesRe)].

Definition metricCount3 (text : jsstring) : Z :=
  foldl (fun count p => count + matchCount (fst p) (snd p) text) 0 metricPatterns.

(** Phase 1 and phase 4 share their shape: up to two templates from a
    shuffled list, one picked line each. *)
Fixpoint overallLoop (ctx : RoastContext) (seed : Z) (shuffled : list RoastTemplate)
    (i : nat) (n : nat) (roastLines : list jsstring) : option (list jsstring) :=
  match n with
  | O => Some roastLines
  | S n' =>
      template ← shuffled !! i;
      line ← seededPick (lines template) (seed + Z.of_nat i * 7);
      overallLoop ctx seed shuffled (S i) n'
        (roastLines ++ [replacePlaceholders line ctx (seed + Z.of_nat i)])
  end.

(** Phase 2: [for (const template of shuffledTriggered)]. *)
Fixpoint triggeredLoop (ctx : RoastContext) (seed : Z) (ts : list RoastTemplate)
    (usedCategories : gset string) (roastLines : list jsstring) : option (list jsstring) :=
  match ts with
  | [] => Some roastLines
  | template :: ts' =>
      if 12 <=? len roastLines then Some roastLines
      else if bool_decide (category template ∈ usedCategories)
      then triggeredLoop ctx seed ts' usedCategories roastLines
      else
        line ← seededPick (lines template) (seed + len roastLines * 13);
        triggeredLoop ctx seed ts' ({[category template]} ∪ usedCategories)
          (roastLines ++ [replacePlaceholders line ctx (seed + len roastLines)])
  end.

(** Phase 3: [while (roastLines.length < 10 && triggeredTemplates.length > 0)].
    Every turn either pushes a line or leaves the loop, so [n] turns are
    enough whenever [10 - roastLines.length <= n]. *)
Fixpoint fillLoop (ctx : RoastContext) (seed : Z) (triggeredTemplates : list RoastTemplate)
    (n : nat) (roastLines : list jsstring) : option (list jsstring) :=
  match n with
  | O => Some roastLines
  | S n' =>
      if (len roastLines <? 10) && (0 <? len triggeredTemplates) then
        template ← seededPick triggeredTemplates (seed + len roastLines * 19);
        line ← seededPick (lines template) (seed + len roastLines * 23);
        let replaced := replacePlaceholders line ctx (seed + len roastLines) in
        if bool_decide (replaced ∈ roastLines) then Some roastLines
        else fillLoop ctx seed triggeredTemplates n' (roastLines ++ [replaced])
      else Some roastLines
  end.

(** Phase 4. *)
Fixpoint finisherLoop (ctx : RoastContext) (seed : Z) (shuffled : list RoastTemplate)
    (i : nat) (n : nat) (roastLines : list jsstring) : option (list jsstring) :=
  match n with
  | O => Some roastLines
  | S n' =>
      if 14 <=? len roastLines then Some roastLines
      else
        template ← shuffled !! i;
        line ← seededPick (lines template) (seed + 300 + Z.of_nat i);
        finisherLoop ctx seed shuffled (S i) n'
          (roastLines ++ [replacePlaceholders line ctx (seed + 300 + Z.of_nat i)])
  end.

(** Everything of [generateRoast] after [buildContext]. [templates] is the
    content of the module-level [TEMPLATES] array when the call starts; the
    second component is its content when the call returns. *)
Definition roastWith (templates : list RoastTemplate) (ctx : RoastContext)
    (text : jsstring) (roastLevel : RoastLevel)
    : option RoastResponse * list RoastTemplate :=
  let seed := simpleHash text in
  let levelNum := LEVEL_ORDER roastLevel in
  let eligible :=
    List.filter (fun t => (LEVEL_ORDER (minLevel t) <=? levelNum) && trigger t ctx) templates in
  let overallTemplates :=
    List.filter (fun t => bool_decide (category t = "overall"%string)) eligible in
  let triggeredTemplates :=
    List.filter (fun t => bool_decide (category t ≠ "overall"%string)
                          && bool_decide (category t ≠ "finisher"%string)) eligible in
  let finisherTemplates :=
    List.filter (fun t => bool_decide (category t = "finisher"%string)) eligible in
  (shuffledOverall ← seededShuffle overallTemplates seed;
   roastLines ← overallLoop ctx seed shuffledOverall 0 (Nat.min 2 (length shuffledOverall)) [];
   shuffledTriggered ← seededShuffle triggeredTemplates (seed + 100);
   roastLines ← triggeredLoop ctx seed shuffledTriggered ∅ roastLines;
   roastLines ← fillLoop ctx seed triggeredTemplates 10 roastLines;
   shuffledFinishers ← seededShuffle finisherTemplates (seed + 200);
   roastLines ← finisherLoop ctx seed shuffledFinishers 0 (Nat.min 2 (length shuffledFinishers)) roastLines;
   m ← jsRem seed (Z.max 1 (Z.min (len roastLines - 2) 8));
   let bestIdx := m + 1 in
   let bestLine :=
     orElse (roastLines !! Z.to_nat bestIdx)
       (orElse (roastLines !! 0%nat) (str "Your resume needs work.")) in
   title ← seededPick (titles roastLevel) seed;
   shuffledRedemptions ← seededShuffle allRedemptions (seed + 500);
   Some {| title := title;
           roastLines := roastLines;
           bestLine := bestLine;
           redemption := take 3 shuffledRedemptions;
           boundaries := roastBoundaries |},
   templates).

Section Engine.

(** [String.prototype.toLowerCase], the engine's full Unicode mapping. The
    properties stated for every [lc] hold whatever mapping is put here;
    [asciiLower] agrees with the engine's on ASCII text. *)
Variable toLowerCase : jsstring -> jsstring.

Definition detectBuzzwords (text : jsstring) : list string :=
  let lower := toLowerCase text in
  List.filter (fun bw => includes lower (str bw)) BUZZWORDS.

Definition detectTechStack (text : jsstring) : list string :=
  let lower := toLowerCase text in
  uniq [] (List.filter (fun tech => test true (wordRe tech) lower) TECH_DICTIONARY).

Definition detectScaleWords (text : jsstring) : list string :=
  let lower := toLowerCase text in
  List.filter (fun w => includes lower (str w)) SCALE_WORDS.

Definition detectVaguePhrases (text : jsstring) : list string :=
  let lower := toLowerCase text in
  List.filter (fun p => includes lower (str p)) VAGUE_PHRASES.

Definition detectImpactVerbs (text : jsstring) : list string :=
  let lower := toLowerCase text in
  List.filter (fun v => test true (wordRe v) lower) IMPACT_VERBS.

Definition wordsIn (b : jsstring) : nat := length (splitRe false (Plus isSpace) b).

(** The six category scores, before rounding and inversion, from the
    extracted features. *)
Record Features := mkFeatures {
  f_bullets : list jsstring;
  f_wordCount : Z;
  f_metricCount : Z;
  f_linkCount : Z;
  f_buzz : list string;
  f_tech : list string;
  f_scale : list string;
  f_vague : list string;
  f_impact : list string;
  f_hasExperience : bool; f_hasProjects : bool; f_hasSkills : bool;
  f_hasEducation : bool; f_hasSummary : bool; f_hasCertifications : bool;
  f_hasShippingVerbs : bool; f_hasGitHubLink : bool; f_hasWebsiteLink : bool;
  f_hasRoutineRoleSignals : bool; f_hasOwnershipSignals : bool;
  f_hasAdaptabilitySignals : bool
}.

Definition extractFeatures (text : jsstring) : Features :=
  let cleaned := cleanText text in
  let sections := extractSections cleaned in
  let lower := toLowerCase cleaned in
  {| f_bullets := extractBullets cleaned;
     f_wordCount := Z.of_nat (length (wordsOf cleaned));
     f_metricCount := countMetrics cleaned;
     f_linkCount := countLinks cleaned;
     f_buzz := detectBuzzwords cleaned;
     f_tech := detectTechStack cleaned;
     f_scale := detectScaleWords cleaned;
     f_vague := detectVaguePhrases cleaned;
     f_impact := detectImpactVerbs cleaned;
     f_hasExperience := truthy (sections !! "experience"%string);
     f_hasProjects := truthy (sections !! "projects"%string);
     f_hasSkills := truthy (sections !! "skills"%string);
     f_hasEducation := truthy (sections !! "education"%string);
     f_hasSummary := truthy (sections !! "summary"%string);
     f_hasCertifications := truthy (sections !! "certifications"%string);
     f_hasShippingVerbs := existsb (fun v => test true (wordRe v) cleaned) SHIPPING_VERBS;
     f_hasGitHubLink := test true (lit (str "github.com")) cleaned;
     f_hasWebsiteLink :=
       test true (alts [lit (str "portfolio"); lit (str ".dev"); lit (str ".io");
                        lit (str ".com/~");
                        Cat (lit (str "personal")) (Cat (Star isSpace) (lit (str "website")))])
         cleaned;
     f_hasRoutineRoleSignals := existsb (fun k => includes lower (str k)) ROUTINE_ROLE_KEYWORDS;
     f_hasOwnershipSignals := existsb (fun k => test true (wordRe k) lower) OWNERSHIP_KEYWORDS;
     f_hasAdaptabilitySignals := existsb (fun k => test true (wordRe k) lower) ADAPTABILITY_KEYWORDS |}.

Definition longBullets (f : Features) : list jsstring :=
  List.filter (fun b => (35 <? wordsIn b)%nat) (f_bullets f).
Definition shortBullets (f : Features) : list jsstring :=
  List.filter (fun b => (wordsIn b <? 6)%nat) (f_bullets f).
Definition presentSections (f : Features) : Z :=
  len (List.filter id [f_hasExperience f; f_hasSkills f; f_hasEducation f; f_hasSummary f]).
Definition buzzwordDensity (f : Features) : option float :=
  if 0 <? f_wordCount f then jsDiv (len (f_buzz f)) (f_wordCount f) else Some 0%float.

Definition addIf (c : bool) (d : float) (x : float) : float := if c then (x + d)%float else x.
Definition subIf (c : bool) (d : float) (x : float) : float := if c then (x - d)%float else x.

Definition roleSusceptibility (f : Features) : float :=
  let s := 50%float in
  let s := addIf (f_hasRoutineRoleSignals f) 20 s in
  let s := subIf (f_hasOwnershipSignals f) 15 s in
  let s := addIf (3 <? len (f_vague f)) 10 s in
  let s := subIf (5 <? len (f_impact f)) 10 s in
  clamp100 s.

Definition proofOfImpact (f : Features) : option float :=
  let s := 20%float in
  s ← (if 0 <? len (f_bullets f)
       then metricRatio ← jsDiv (f_metricCount f) (len (f_bullets f));
            Some (s + fmin 40 (metricRatio * 50))%float
       else Some s);
  let s := addIf (3 <? len (f_impact f)) 15 s in
  let s := addIf (7 <? len (f_impact f)) 10 s in
  let s := addIf (5 <? f_metricCount f) 10 s in
  Some (clamp100 s).

Definition differentiation (f : Features) : float :=
  let s := 15%float in
  let s := (s + fmin 35 (ofZ (len (f_tech f) * 3)))%float in
  let s := addIf (0 <? len (f_scale f)) 15 s in
  let s := addIf (3 <? len (f_scale f)) 10 s in
  let s := addIf (10 <? len (f_tech f)) 10 s in
  let s := addIf (f_hasCertifications f) 5 s in
  clamp100 s.

Definition portfolioSignals (f : Features) : float :=
  let s := 10%float in
  let s := addIf (f_hasGitHubLink f) 20 s in
  let s := addIf (f_hasWebsiteLink f) 15 s in
  let s := addIf (f_hasProjects f) 20 s in
  let s := addIf (f_hasShippingVerbs f) 15 s in
  let s := addIf (2 <? f_linkCount f) 10 s in
  clamp100 s.

Definition clarity (f : Features) : option float :=
  let s := 40%float in
  let s := (s + ofZ (presentSections f * 8))%float in
  buzzwordDensity ← buzzwordDensity f;
  let s := subIf (0.02 <? buzzwordDensity)%float 15 s in
  let s := subIf (0.04 <? buzzwordDensity)%float 10 s in
  let s := subIf (3 <? len (longBullets f)) 10 s in
  let s := subIf ((ofZ (len (f_bullets f)) * 0.5 <? ofZ (len (shortBullets f)))%float
                  && (3 <? len (f_bullets f))) 10 s in
  let s := subIf (2 <? len (f_vague f)) 10 s in
  let s := addIf ((len (f_vague f) =? 0) && (3 <? len (f_bullets f))) 10 s in
  Some (clamp100 s).

Definition adaptability (f : Features) : float :=
  let s := 20%float in
  let s := addIf (f_hasAdaptabilitySignals f) 25 s in
  let s := addIf (5 <? len (f_tech f)) 20 s in
  let s := addIf (10 <? len (f_tech f)) 10 s in
  let s := addIf (0 <? len (f_scale f)) 10 s in
  clamp100 s.

(** [c1 ? a : c2 ? b : c] *)
Definition note3 (c1 c2 : bool) (a b c : jsstring) : jsstring :=
  if c1 then a else if c2 then b else c.

Definition breakdownOf (f : Features) : option (list BreakdownItem) :=
  let roleSusceptibility := roleSusceptibility f in
  proofOfImpact ← proofOfImpact f;
  let differentiation := differentiation f in
  let portfolioSignals := portfolioSignals f in
  clarity ← clarity f;
  let adaptability := adaptability f in
  let techN := numToString (len (f_tech f)) in
  Some
  [ mkBreakdown (str "Role Susceptibility") roleSusceptibility
      (note3 (60 <? roleSusceptibility)%float (40 <? roleSusceptibility)%float
         (str "Your role description suggests tasks that could be automated")
         (str "Mixed signals - some unique ownership, some routine tasks")
         (str "Strong ownership and leadership signals detected"));
    mkBreakdown (str "Proof of Impact") proofOfImpact
      (note3 (proofOfImpact <? 30)%float (proofOfImpact <? 60)%float
         (str "Very few quantified achievements - add numbers!")
         (str "Some metrics found, but more data-backed results would help")
         (str "Good use of quantified impact and action verbs"));
    mkBreakdown (str "Differentiation") differentiation
      (note3 (differentiation <? 30)%float (differentiation <? 60)%float
         (str "Generic skill set - needs more specialized or advanced tech")
         (techN ++ str " technologies detected - consider highlighting advanced skills")
         (str "Strong tech depth with " ++ techN ++ str " technologies and scale indicators"));
    mkBreakdown (str "Portfolio & Shipping Signals") portfolioSignals
      (note3 (portfolioSignals <? 30)%float (portfolioSignals <? 60)%float
         (str "No links, projects, or evidence of shipping found")
         (str "Some signals but missing GitHub/portfolio links or projects section")
         (str "Good evidence of building and shipping real work"));
    mkBreakdown (str "Clarity & Structure") clarity
      (note3 (clarity <? 40)%float (clarity <? 70)%float
         (str "Missing key sections, high buzzword density, or unclear formatting")
         (str "Decent structure with room for improvement in conciseness")
         (str "Well-organized with clear, readable sections"));
    mkBreakdown (str "Adaptability Signals") adaptability
      (note3 (adaptability <? 30)%float (adaptability <? 60)%float
         (str "No signals of learning new tech or cross-functional work")
         (str "Some adaptability signals detected")
         (str "Strong signals of continuous learning and adaptation")) ].

Definition weights : list float := [0.2; 0.25; 0.15; 0.15; 0.15; 0.1]%float.

(** [scores.reduce((sum, s, i) => sum + s * weights[i], 0)] *)
Definition weightedAvg (scores : list float) : option float :=
  foldl (fun acc si => sum ← acc; w ← weights !! fst si; Some (sum + snd si * w)%float)
    (Some 0%float) (imap pair scores).

(** [Math.max(1, Math.min(10, Math.ceil(weightedAvg / 10)))] *)
Definition riskScore (weightedAvg : float) : Z :=
  Z.max 1 (Z.min 10 (mathCeil (weightedAvg / 10)%float)).

Definition labelOf (invertedRisk : Z) : jsstring :=
  if invertedRisk <=? 3 then str "High Risk"
  else if invertedRisk <=? 6 then str "Medium Risk"
  else str "Low Risk".

Definition strengthsOf (f : Features) : list jsstring :=
  let s := [] in
  let s := pushIf (3 <? f_metricCount f) (str "Quantified achievements with specific metrics") s in
  let s := pushIf (8 <? len (f_tech f))
             (str "Diverse tech stack (" ++ numToString (len (f_tech f)) ++ str " technologies)") s in
  let s := pushIf (f_hasProjects f) (str "Dedicated projects section showing initiative") s in
  let s := pushIf (f_hasGitHubLink f || f_hasWebsiteLink f) (str "Links to portfolio or code samples") s in
  let s := pushIf (5 <? len (f_impact f)) (str "Strong action verbs throughout") s in
  let s := pushIf (f_hasOwnershipSignals f) (str "Evidence of leadership and ownership") s in
  let s := pushIf (f_hasAdaptabilitySignals f) (str "Signals of adaptability and growth") s in
  let s := pushIf (4 <=? presentSections f) (str "Complete resume structure with all key sections") s in
  let s := pushIf (f_hasCertifications f) (str "Professional certifications listed") s in
  let s := pushIf (0 <? len (f_scale f)) (str "Experience at scale mentioned") s in
  pushIf (len s =? 0) (str "Resume text was provided for analysis") s.

Definition redFlagsOf (f : Features) : option (list jsstring) :=
  let r := [] in
  let r := pushIf (f_metricCount f =? 0)
             (str "Zero quantified metrics - every bullet should have numbers") r in
  let r := pushIf (negb (f_hasProjects f) && negb (f_hasGitHubLink f))
             (str "No projects or code portfolio visible") r in
  let r := pushIf (3 <? len (f_buzz f))
             (str "High buzzword density (" ++ join (str ", ") (str <$> take 3 (f_buzz f)) ++ str "...)") r in
  r ← (if 0 <? len (f_vague f)
       then v ← f_vague f !! 0%nat;
            Some (r ++ [str "Vague phrases detected: " ++ dq ++ str v ++ dq])
       else Some r);
  let r := pushIf (negb (f_hasExperience f)) (str "No experience section found") r in
  let r := pushIf (negb (f_hasSkills f)) (str "No dedicated skills section") r in
  let r := pushIf (negb (f_hasSummary f)) (str "Missing summary/profile section") r in
  let r := pushIf (2 <? len (longBullets f)) (str "Several overly long bullet points") r in
  let r := pushIf (3 <? len (shortBullets f)) (str "Too many short, unsubstantial bullet points") r in
  let r := pushIf (f_linkCount f =? 0) (str "No URLs or links found anywhere") r in
  let r := pushIf (f_wordCount f <? 150) (str "Resume seems very short - too few details") r in
  Some (pushIf (1200 <? f_wordCount f) (str "Resume may be too long - consider trimming") r).

(** [xs[i].toLowerCase()]: a TypeError when [xs[i]] is undefined. *)
Definition lowerAt (xs : list jsstring) (i : nat) : option jsstring :=
  toLowerCase <$> xs !! i.

Definition summaryOf (strengths redFlags : list jsstring) : option jsstring :=
  let strengthA := orElse (strengths !! 0%nat) (str "some content") in
  let weakness := orElse (redFlags !! 0%nat) (str "minor formatting issues") in
  topFix ←
    (if (0 <? length redFlags)%nat
     then low ← lowerAt redFlags 0;
          Some (replaceFirst false (Cat Bol (Cat (lit (str "missing")) (Plus isSpace))) (str "adding a ")
                  (replaceFirst false (Cat Bol (Cat (lit (str "zero")) (Plus isSpace))) (str "adding ")
                     (replaceFirst false (Cat Bol (Cat (lit (str "no")) (Plus isSpace))) (str "adding ") low)))
     else Some (str "minor polishing"));
  second ←
    (if (1 <? length strengths)%nat
     then low ← lowerAt strengths 1; Some (str " and " ++ low)
     else Some []);
  Some (str "Your resume shows " ++ toLowerCase strengthA ++ second
        ++ str ", but it's held back by " ++ toLowerCase weakness
        ++ str ". Fixing " ++ topFix ++ str " will immediately improve your score.").

Definition analyzeDisclaimers : list jsstring := [
  str "This analysis is rule-based and does not use any AI/LLM.";
  str "Scores are computed from heuristic pattern matching and may not capture all nuances.";
  str "A high risk score does not mean you'll be replaced - it highlights areas to strengthen."
].

(** The breakdown as returned: [score: Math.round(100 - b.score)]. *)
Definition reported (b : BreakdownItem) : ReportedItem :=
  mkReported (b_name b) (mathRound (100 - b_score b)%float) (b_note b).

Definition analyzeResume (text : jsstring) : option AnalyzeResponse :=
  let f := extractFeatures text in
  breakdown ← breakdownOf f;
  weightedAvg ← weightedAvg (b_score <$> breakdown);
  let invertedRisk := 11 - riskScore weightedAvg in
  let strengths := strengthsOf f in
  redFlags ← redFlagsOf f;
  summary ← summaryOf strengths redFlags;
  Some {| score := invertedRisk;
          label := labelOf invertedRisk;
          summary := summary;
          breakdown := reported <$> breakdown;
          strengths := strengths;
          redFlags := redFlags;
          detected := {| wordCount := f_wordCount f;
                         bulletCount := len (f_bullets f);
                         metricCount := f_metricCount f;
                         linkCount := f_linkCount f;
                         hasProjects := f_hasProjects f;
                         hasExperience := f_hasExperience f;
                         hasSkills := f_hasSkills f;
                         hasEducation := f_hasEducation f |};
          disclaimers := analyzeDisclaimers |}.


(** ** The roaster *)

Definition buildContext (text : jsstring) : RoastContext :=
  let buzzResult := detectBuzzwords text in
  {| ctx_text := text;
     ctx_wordCount := len (wordsOf text);
     ctx_bulletCount := len (extractBullets text);
     ctx_metricCount := metricCount3 text;
     ctx_linkCount := countLinks text;
     ctx_buzzwordCount := len buzzResult;
     ctx_buzzwords := buzzResult;
     ctx_vaguePhrases := detectVaguePhrases text;
     ctx_techStack := detectTechStack text;
     ctx_hasProjects :=
       test true (wordB ["projects"; "personal projects"; "side projects"; "portfolio"]%string) text;
     ctx_hasExperience :=
       test true (wordB ["experience"; "employment"; "work history"]%string) text;
     ctx_hasSkills :=
       test true (wordB ["skills"; "technical skills"; "technologies"]%string) text;
     ctx_hasSummary :=
       test true (wordB ["summary"; "objective"; "profile"; "about"]%string) text;
     ctx_hasEducation :=
       test true (wordB ["education"; "academic"; "degree"; "university"]%string) text |}.

(** [generateRoast] started with the module-level array holding [templates]. *)
Definition generateRoastIn (templates : list RoastTemplate) (text : jsstring)
    (roastLevel : RoastLevel) : option RoastResponse * list RoastTemplate :=
  roastWith templates (buildContext text) text roastLevel.

Definition generateRoast (text : jsstring) (roastLevel : RoastLevel) : option RoastResponse :=
  fst (generateRoastIn TEMPLATES text roastLevel).

(** ** The improver *)

Record ImproveResponse := mkImprove {
  priorityFixes : list jsstring;
  rewrittenBullets : list (jsstring * jsstring);
  improvedSummary : jsstring;
  atsTips : list jsstring
}.

Definition vaguePatterns : list regex := [
  lit (str "responsible for"); lit (str "helped with"); lit (str "assisted in");
  lit (str "worked on"); lit (str "involved in"); lit (str "participated in");
  lit (str "tasked with"); lit (str "various"); lit (str "miscellaneous")
].

Definition rewriteVerbs : list jsstring := [
  str "Spearheaded"; str "Engineered"; str "Delivered"; str "Optimized";
  str "Streamlined"; str "Architected"
].

Definition stripVaguePrefix : regex :=
  Cat Bol
    (Cat (words ["responsible for"; "helped with"; "assisted in"; "worked on";
                 "involved in"; "participated in"; "tasked with"]%string)
       (Star isSpace)).

Definition stripVerbPrefix : regex :=
  Cat Bol
    (Cat (words ["built"; "created"; "developed"; "designed"; "implemented"; "managed";
                 "led"; "established"; "launched"; "deployed"; "maintained"; "wrote";
                 "authored"; "handled"; "conducted"; "performed"; "executed";
                 "coordinated"; "organized"; "facilitated"; "supported";
                 "contributed to"]%string)
       (Plus isSpace)).

Definition rewriteBullet (tech : list string) (i : nat) (before : jsstring)
    : option (jsstring * jsstring) :=
  j ← jsRem (Z.of_nat i) (len rewriteVerbs);
  verb ← rewriteVerbs !! Z.to_nat j;
  let core :=
    trim (replaceFirst false (Cat (Chr 46) Eol) []
            (replaceFirst true stripVerbPrefix []
               (replaceFirst true stripVaguePrefix [] before))) in
  let core := if (100 <? length core)%nat then take 97 core ++ str "..." else core in
  let newTech :=
    List.filter (fun t => negb (includes (toLowerCase before) (toLowerCase (str t)))) tech in
  let techMention :=
    if (0 <? length newTech)%nat
    then str " leveraging " ++ join (str " and ") (str <$> take 2 newTech)
    else [] in
  Some (before,
        verb ++ str " " ++ toLowerCase (take 1 core) ++ drop 1 core ++ techMention
        ++ str ", resulting in (~X%) improvement in [key metric]").

Definition generateBulletRewrites (bullets : list jsstring) (tech : list string)
    : option (list (jsstring * jsstring)) :=
  let candidates :=
    List.filter (fun b =>
                   let isVague := existsb (fun p => test true p b) vaguePatterns in
                   let hasNoMetric := negb (test true (alts [pctRe; dollarRe; timesRe]) b) in
                   isVague || hasNoMetric) bullets in
  let toRewrite := take 3 candidates in
  let toRewrite :=
    if (length toRewrite =? 0)%nat && (0 <? length bullets)%nat
    then toRewrite ++ take (Nat.min 3 (length bullets)) bullets
    else toRewrite in
  mapM id (imap (rewriteBullet tech) toRewrite).

Definition rolePatterns : list (regex * string) :=
  let stack := alts [lit (str "software"); lit (str "frontend"); lit (str "backend");
                     Cat (lit (str "full")) (Cat (Opt (Cls isDot)) (lit (str "stack")))] in
  let engdev := words ["engineer"; "developer"]%string in
  [ (Cat WordB (Cat (alts [lit (str "senior"); Cat (lit (str "sr")) (Opt (Chr 46))])
       (Cat (Star isSpace) (Cat stack (Cat (Star isSpace) (Cat engdev WordB))))),
     "Senior Software Engineer");
    (Cat WordB (Cat stack (Cat (Star isSpace) (Cat engdev WordB))),
     "Software Engineer");
    (Cat WordB (Cat (lit (str "data")) (Cat (Star isSpace)
       (Cat (words ["scientist"; "analyst"; "engineer"]%string) WordB))),
     "Data Professional");
    (Cat WordB (Cat (words ["product"; "program"; "project"]%string)
       (Cat (Star isSpace) (Cat (lit (str "manager")) WordB))),
     "Product/Program Manager");
    (Cat WordB (Cat (words ["devops"; "sre"; "site reliability"; "platform"]%string)
       (Cat (Star isSpace) (Cat (Opt (lit (str "engineer"))) WordB))),
     "DevOps/Platform Engineer");
    (wordB ["designer"; "ux"; "ui"]%string, "Designer");
    (Cat WordB (Cat (words ["marketing"; "growth"; "content"]%string)
       (Cat (Star isSpace)
          (Cat (Opt (words ["manager"; "specialist"; "lead"]%string)) WordB))),
     "Marketing Professional") ]%string.

Definition yearsRe : regex :=
  Cat (Cap (Plus isDigit))
    (Cat (Opt (Chr 43))
       (Cat (Star isSpace)
          (Cat (lit (str "year"))
             (Cat (Opt (Chr 115))
                (Cat (Star isSpace)
                   (Cat (Opt (Cat (lit (str "of")) (Star isSpace)))
                      (words ["experience"; "exp"]%string))))))).

Definition generateSummary (text : jsstring) (tech : list string) : jsstring :=
  let lower := toLowerCase text in
  let role :=
    match List.find (fun p => test true (fst p) lower) rolePatterns with
    | Some p => str (snd p)
    | None => str "software professional"
    end in
  let topTech := join (str ", ") (str <$> take 4 tech) in
  let techPhrase :=
    match topTech with
    | [] => []
    | _ => str " specializing in " ++ topTech
    end in
  let yearsPhrase :=
    match exec true yearsRe text with
    | Some yearsMatch => str " with " ++ showStr (snd yearsMatch) ++ str "+ years of experience"
    | None => []
    end in
  str "Results-driven " ++ role ++ yearsPhrase ++ techPhrase
  ++ str ". Proven track record of delivering scalable solutions and driving measurable business impact. Seeking to leverage technical expertise and leadership skills to [target goal/company mission].".

Definition fixMetricsZero : jsstring :=
  str "Add quantified metrics to every bullet point. Use numbers like percentages, dollar amounts, time saved, users impacted. Even estimates with (~X%) are better than nothing.".

Definition fixSummary : jsstring :=
  str "Add a professional summary section (2-3 sentences) at the top that positions you for your target role and highlights your strongest differentiators.".

Definition fixProjects : jsstring :=
  str "Add a Projects section showcasing 2-3 things you've built, with tech stack, what you did, and a link if possible. This proves you ship.".

Definition fixGeneric : jsstring :=
  str "Review each bullet for the pattern: [Action Verb] + [What You Did] + [Technology Used] + [Measurable Result]. Rewrite any that don't match.".

(** [while (priorityFixes.length < 3) priorityFixes.push(...)]: at most three
    turns. *)
Fixpoint padFixes (n : nat) (fixes : list jsstring) : list jsstring :=
  match n with
  | O => fixes
  | S n' => if (length fixes <? 3)%nat then padFixes n' (fixes ++ [fixGeneric]) else fixes
  end.

Definition monthRe : regex :=
  Cat WordB
    (Cat (words ["jan"; "feb"; "mar"; "apr"; "may"; "jun"; "jul"; "aug"; "sep"; "oct";
                 "nov"; "dec"; "january"; "february"; "march"; "april"; "june"; "july";
                 "august"; "september"; "october"; "november"; "december"]%string)
       (Cat WordB (Cat (Star isSpace) (rep 4 (Cls isDigit))))).

(** The class of the source is [[-â€“]]: the hyphen and the three code units
    226, 8364 and 8220; under the ignore-case flag 194, the capital of 226,
    is matched as well. *)
Definition dashRe : regex :=
  Cat (rep 4 (Cls isDigit))
    (Cat (Star isSpace)
       (Cat (Cls (oneOf [45; 226; 194; 8364; 8220]))
          (Cat (Star isSpace)
             (alts [rep 4 (Cls isDigit); lit (str "present"); lit (str "current")])))).

Definition priorityFixesOf (text : jsstring) : option (list jsstring) :=
  let buzzResult := detectBuzzwords text in
  let vague := detectVaguePhrases text in
  let tech := detectTechStack text in
  let wordCount := len (wordsOf text) in
  let metricCount := metricCount3 text in
  let linkCount := countLinks text in
  let hasSummary := test true (wordB ["summary"; "objective"; "profile"; "about"]%string) text in
  let hasProjects :=
    test true (wordB ["projects"; "personal projects"; "side projects"; "portfolio"]%string) text in
  let hasSkills := test true (wordB ["skills"; "technical skills"; "technologies"]%string) text in
  let p := [] in
  let p :=
    if metricCount =? 0 then p ++ [fixMetricsZero]
    else if metricCount <? 3
    then p ++ [str "You have a few metrics, but aim for at least one quantified result per role. Replace vague claims with specific numbers."]
    else p in
  p ← (if 0 <? len vague
       then v ← vague !! 0%nat;
            Some (p ++ [str "Replace vague phrases like " ++ dq ++ str v ++ dq
                        ++ str " with specific action verbs followed by measurable outcomes. Use verbs like "
                        ++ dq ++ str "Engineered," ++ dq ++ str " " ++ dq ++ str "Delivered," ++ dq
                        ++ str " or " ++ dq ++ str "Optimized." ++ dq])
       else Some p);
  let p := pushIf (negb hasSummary) fixSummary p in
  let p := pushIf (negb hasProjects) fixProjects p in
  let p := pushIf (linkCount =? 0)
             (str "Add links to your GitHub, portfolio, or LinkedIn profile. Recruiters want to see evidence of your work online.") p in
  let p := pushIf (3 <? len buzzResult)
             (str "Cut the buzzwords (" ++ join (str ", ") (str <$> take 3 buzzResult)
              ++ str "). Replace each with a concrete example of what you actually did.") p in
  let p := pushIf (1000 <? wordCount)
             (str "Your resume is too long. Cut it to one page by removing the weakest bullets and keeping only your top achievements per role.") p in
  let p := pushIf (negb hasSkills)
             (str "Add a dedicated Skills/Technologies section grouped by category (Languages, Frameworks, Tools, Cloud, etc.).") p in
  let p := pushIf (len tech <? 3)
             (str "Name specific technologies throughout your bullets instead of being vague. 'Built a REST API' becomes 'Built a REST API using Node.js, Express, and PostgreSQL.'") p in
  Some (padFixes 3 p).

Definition atsTipsOf (text : jsstring) : list jsstring :=
  let wordCount := len (wordsOf text) in
  let t := [
    str "Use a single-column layout to ensure ATS can parse your resume correctly.";
    str "Avoid tables, text boxes, headers/footers, and multi-column formats.";
    str "Use standard section headings: Experience, Education, Skills, Projects.";
    str "Save as PDF to preserve formatting across devices."
  ] in
  let t := pushIf (wordCount <? 200)
             (str "Your resume seems very sparse - expand with more detail and achievements.") t in
  let datePatterns := matchAll true monthRe text in
  let dashDates := matchAll true dashRe text in
  pushIf (negb (bool_decide (is_Some datePatterns)) && negb (bool_decide (is_Some dashDates)))
    (str "Use consistent date formats throughout (e.g., 'Jan 2022 - Present' or '2022 - Present').") t.

Definition generateImprovements (text : jsstring) : option ImproveResponse :=
  let bullets := extractBullets text in
  let tech := detectTechStack text in
  priorityFixes ← priorityFixesOf text;
  rewrittenBullets ← generateBulletRewrites bullets tech;
  Some {| priorityFixes := take 7 priorityFixes;
          rewrittenBullets := rewrittenBullets;
          improvedSummary := generateSummary text tech;
          atsTips := atsTipsOf text |}.

End Engine.

(** ** The rate limiter *)

(** [{ count: number; resetAt: number }] *)
Record Entry := mkEntry { count : Z; resetAt : Z }.

Definition WINDOW_MS : Z := 60 * 60 * 1000.
Definition MAX_REQUESTS : Z := 20.

(** What the middleware reads of the request: [req.ip],
    [req.socket.remoteAddress] and [req.path]. *)
Record Request := mkRequest {
  req_ip : option jsstring;
  req_remoteAddress : option jsstring;
  req_path : jsstring
}.

(** [next()], or the 429 answer with its [retryAfter]. *)
Inductive Verdict := Next | TooMany (retryAfter : Z).

(** [entry.count++] on a binary64 number: exact below 2^53, where it sticks. *)
Definition incr (n : Z) : Z := if n <? 9007199254740992 then n + 1 else n.

(** [`${ip}:${req.path}`] *)
Definition keyOf (req : Request) : jsstring :=
  let ip := orElse (req_ip req) (orElse (req_remoteAddress req) (str "unknown")) in
  ip ++ str ":" ++ req_path req.

(** [rateLimit], with the module-level [store] and the reading of [Date.now()]
    passed in and the store handed back. [Date.now()] is an integer below
    2^53 in magnitude, and so is [now + WINDOW_MS]. The entry is an object
    shared with the map: [entry.count++] updates the stored entry, in the
    fresh case and in the other. *)
Definition rateLimit (store : gmap jsstring Entry) (req : Request) (now : Z)
    : gmap jsstring Entry * Verdict :=
  let key := keyOf req in
  let entry :=
    match store !! key with
    | Some entry => if resetAt entry <? now then mkEntry 0 (now + WINDOW_MS) else entry
    | None => mkEntry 0 (now + WINDOW_MS)
    end in
  let entry := mkEntry (incr (count entry)) (resetAt entry) in
  (<[key := entry]> store,
   if MAX_REQUESTS <? count entry
   then TooMany (mathCeil ((ofZ (resetAt entry) - ofZ now) / 1000)%float)
   else Next).

(** ** The routes *)

(** A field of a JSON body, as far as the schemas look at it: absent, a
    string, or a value of another type. *)
Inductive jsval := VUndefined | VString (s : jsstring) | VOther.

(** [req.body] when it is an object: the fields the schemas name (a schema
    drops every other key). *)
Record Body := mkBody {
  body_text : jsval;
  body_sourceType : jsval;
  body_roastLevel : jsval
}.

(** [z.string().min(1).max(20000)]: the bounds are on [length], in code units. *)
Definition zText (v : jsval) : option jsstring :=
  match v with
  | VString s => if (1 <=? len s) && (len s <=? 20000) then Some s else None
  | _ => None
  end.

(** [.optional()]: an absent field parses to [undefined]. *)
Definition zOptional {A} (schema : jsval -> option A) (v : jsval) : option (option A) :=
  match v with
  | VUndefined => Some None
  | _ => Some <$> schema v
  end.

(** [z.enum([...])] *)
Definition zEnum {A} (values : list (string * A)) (v : jsval) : option A :=
  match v with
  | VString s => snd <$> List.find (fun e => bool_decide (str (fst e) = s)) values
  | _ => None
  end.

(** [schema.safeParse(req.body)]: [None] when [parsed.success] is false. A
    body that is no object never parses. *)
Definition analyzeInputSchema (body : option Body) : option (option jsstring * string) :=
  b ← body;
  text ← zOptional zText (body_text b);
  sourceType ← zEnum [("paste", "paste"); ("pdf", "pdf")]%string (body_sourceType b);
  Some (text, sourceType).

Definition roastInputSchema (body : option Body) : option (jsstring * RoastLevel) :=
  b ← body;
  text ← zText (body_text b);
  roastLevel ← zEnum [("light", light); ("medium", medium); ("spicy", spicy)]%string
                 (body_roastLevel b);
  Some (text, roastLevel).

Definition improveInputSchema (body : option Body) : option jsstring :=
  b ← body;
  zText (body_text b).

(** What [res.json] is given; the [details] of an invalid input are the
    schema library's issue list and are left out. *)
Inductive Payload :=
  | InvalidInput
  | ErrorMessage (error : jsstring)
  | Analysis (result : AnalyzeResponse)
  | Roast (result : RoastResponse)
  | Improvements (result : ImproveResponse)
  | Extracted (text preview : jsstring) (totalLength : Z)
  | TooLittleText (error : jsstring) (extractedLength : Z)
  | RateLimited (error : jsstring) (retryAfter : Z).

Record Response := mkResponse { status : Z; payload : Payload }.

(** What [multer] and [pdf-parse] hand to the extract route: an upload error
    with its [code] and [message], or the request with or without a file and,
    for a file, the text [pdfParse] finds or its exception. *)
Inductive PdfOutcome := PdfThrows | PdfData (text : option jsstring).

Inductive Upload :=
  | UploadError (code : option jsstring) (message : option jsstring)
  | Uploaded (file : option PdfOutcome).

Definition extractHandler (upload : Upload) : Response :=
  match upload with
  | UploadError code message =>
      if bool_decide (code = Some (str "LIMIT_FILE_SIZE"))
      then mkResponse 400 (ErrorMessage (str "File too large. Maximum size is 10MB."))
      else mkResponse 400 (ErrorMessage (orElse message (str "Invalid file upload.")))
  | Uploaded None => mkResponse 400 (ErrorMessage (str "No PDF file uploaded"))
  | Uploaded (Some PdfThrows) =>
      mkResponse 500
        (ErrorMessage (str "Failed to extract text from PDF. Please try pasting your resume text instead."))
  | Uploaded (Some (PdfData data_text)) =>
      let text := orElse data_text [] in
      if len text <? 100
      then mkResponse 422
             (TooLittleText
                (str "PDF appears to be image-based or contains very little text. Please paste your resume text instead.")
                (len text))
      else mkResponse 200 (Extracted (take (Z.to_nat 20000) text) (take 800 text) (len text))
  end.

Section Routes.

Variable toLowerCase : jsstring -> jsstring.

(** The handlers behind the limiter. A [None] of the core is an exception
    caught by the handler's [try]. *)
Definition analyzeHandler (body : option Body) : Response :=
  match analyzeInputSchema body with
  | None => mkResponse 400 InvalidInput
  | Some (text, _) =>
      match text with
      | Some text =>
          if negb (truthy (Some text)) || (len (trim text) <? 50)
          then mkResponse 400
                 (ErrorMessage (str "Resume text is too short. Please provide at least 50 characters."))
          else match analyzeResume toLowerCase text with
               | Some result => mkResponse 200 (Analysis result)
               | None => mkResponse 500 (ErrorMessage (str "Analysis failed. Please try again."))
               end
      | None =>
          mkResponse 400
            (ErrorMessage (str "Resume text is too short. Please provide at least 50 characters."))
      end
  end.

Definition roastHandler (body : option Body) : Response :=
  match roastInputSchema body with
  | None => mkResponse 400 InvalidInput
  | Some (text, roastLevel) =>
      if len (trim text) <? 50
      then mkResponse 400 (ErrorMessage (str "Resume text is too short to roast."))
      else match generateRoast toLowerCase text roastLevel with
           | Some result => mkResponse 200 (Roast result)
           | None => mkResponse 500 (ErrorMessage (str "Roast generation failed. Please try again."))
           end
  end.

Definition improveHandler (body : option Body) : Response :=
  match improveInputSchema body with
  | None => mkResponse 400 InvalidInput
  | Some text =>
      if len (trim text) <? 50
      then mkResponse 400 (ErrorMessage (str "Resume text is too short to improve."))
      else match generateImprovements toLowerCase text with
           | Some result => mkResponse 200 (Improvements result)
           | None => mkResponse 500 (ErrorMessage (str "Improvement generation failed. Please try again."))
           end
  end.

End Routes.


(** ** The client's colour bands *)

(** [getScoreColor] and [getBarColor] of the results page. *)
Definition getScoreColor (score : Z) : string :=
  if score <=? 3 then "text-red-400"
  else if score <=? 6 then "text-amber-400"
  else "text-emerald-400".

Definition getBarColor (score : Z) : string :=
  if 70 <=? score then "bg-emerald-500"
  else if 40 <=? score then "bg-amber-500"
  else "bg-red-500".

(** * Vocabulary of the statements *)

(** A roast line drawn from one of the templates [ts]. *)
Definition drawn (ctx : RoastContext) (ts : list RoastTemplate) (line : jsstring) : Prop :=
  exists t l sd, t ∈ ts /\ l ∈ lines t /\ line = replacePlaceholders l ctx sd.

Definition stocked (ts : list RoastTemplate) : Prop :=
  Forall (fun t => lines t <> []) ts.

Definition eligibleOf (templates : list RoastTemplate) (ctx : RoastContext)
    (level : RoastLevel) : list RoastTemplate :=
  List.filter (fun t => (LEVEL_ORDER (minLevel t) <=? LEVEL_ORDER level) && trigger t ctx)
    templates.

Definition overallOf (ts : list RoastTemplate) : list RoastTemplate :=
  List.filter (fun t => bool_decide (category t = "overall"%string)) ts.

Definition triggeredOf (ts : list RoastTemplate) : list RoastTemplate :=
  List.filter (fun t => bool_decide (category t ≠ "overall"%string)
                        && bool_decide (category t ≠ "finisher"%string)) ts.

Definition finisherOf (ts : list RoastTemplate) : list RoastTemplate :=
  List.filter (fun t => bool_decide (category t = "finisher"%string)) ts.

(** [roastLines[bestIdx] || roastLines[0] || "Your resume needs work."] *)
Definition bestOf (roastLines : list jsstring) (m : Z) : jsstring :=
  orElse (roastLines !! Z.to_nat (m + 1))
    (orElse (roastLines !! 0%nat) (str "Your resume needs work.")).

Ltac ostep := cbn [mbind option_bind].
Ltac ostep_in H := cbn [mbind option_bind] in H.

(** No line of the table is empty or starts with a brace. *)
Definition lineOk (l : jsstring) : bool :=
  match l with c :: _ => negb (c =? 123) | [] => false end.

(** The three templates that every level and (for the middle one) every
    metric-free context make eligible. *)
Definition overallLight : RoastTemplate := default (mkTemplate light (fun _ => true) "" []) (TEMPLATES !! 0%nat).
Definition noMetricsLight : RoastTemplate := default (mkTemplate light (fun _ => true) "" []) (TEMPLATES !! 3%nat).
Definition finisherLight : RoastTemplate := default (mkTemplate light (fun _ => true) "" []) (TEMPLATES !! 26%nat).

(** The categories of the templates that are neither overall nor finisher. *)
Definition triggeredCategories : list string := [
  "no_metrics"; "buzzwords"; "vague"; "weak_bullets"; "no_projects";
  "generic_skills"; "no_summary"; "no_links"; "too_long"; "too_short"
]%string.

(** A line of [ls] comes from a template of [ts] of category [cat]. *)
Definition hasLineOf (ctx : RoastContext) (ts : list RoastTemplate) (cat : string)
    (ls : list jsstring) : Prop :=
  exists t l sd, t ∈ ts /\ category t = cat /\ l ∈ lines t
                 /\ replacePlaceholders l ctx sd ∈ ls.

(** The lines after a heading, up to the next heading. *)
Fixpoint bodyOf (lines : list jsstring) : list jsstring :=
  match lines with
  | [] => []
  | line :: rest =>
      match headingOf (trim line) with
      | None => line :: bodyOf rest
      | Some _ => []
      end
  end.

(** The content accumulated after the last heading of [name]: the lines that
    follow that heading, up to the next heading of any section. [None] when no
    line is a heading of [name]. *)
Fixpoint contentAfterLast (name : string) (lines : list jsstring) : option (list jsstring) :=
  match lines with
  | [] => None
  | line :: rest =>
      match contentAfterLast name rest with
      | Some c => Some c
      | None =>
          if bool_decide (headingOf (trim line) = Some name) then Some (bodyOf rest) else None
      end
  end.

(** The content the segmenter keeps for [name]: the lines that follow the
    last heading of [name] that has a line of content after it, up to the next
    heading of any section. A heading of [name] with no line of content after
    it is passed over. [None] when no heading of [name] has content. *)
Fixpoint committedAfter (name : string) (lines : list jsstring) : option (list jsstring) :=
  match lines with
  | [] => None
  | line :: rest =>
      match committedAfter name rest with
      | Some c => Some c
      | None =>
          if bool_decide (headingOf (trim line) = Some name)
          then match bodyOf rest with [] => None | c => Some c end
          else None
      end
  end.

(** Every CR LF pair becomes LF. *)
Fixpoint crlfToLf (s : jsstring) : jsstring :=
  match s with
  | [] => []
  | c :: t =>
      match t with
      | d :: t' => if (c =? 13) && (d =? 10) then 10 :: crlfToLf t' else c :: crlfToLf t
      | [] => [c]
      end
  end.

(** Every tab becomes [by_]. *)
Definition tabsTo (by_ : jsstring) (s : jsstring) : jsstring :=
  s ≫= (fun c => if c =? 9 then by_ else [c]).

(** Every run of more than [k] consecutive [c] is cut down to [k]; [seen]
    counts the [c] just passed. *)
Fixpoint capRun (c : Z) (k seen : nat) (s : jsstring) : jsstring :=
  match s with
  | [] => []
  | x :: t =>
      if x =? c
      then if (seen <? k)%nat then x :: capRun c k (S seen) t else capRun c k seen t
      else x :: capRun c k 0 t
  end.

Definition capRuns (c : Z) (k : nat) (s : jsstring) : jsstring := capRun c k 0 s.

(** The normalizer as the specification words it: tabs become two spaces. *)
Definition specCleanText (text : jsstring) : jsstring :=
  trim (capRuns 10 3 (capRuns 32 2 (tabsTo (str "  ") (crlfToLf text)))).

(** The number of leading [c]. *)
Fixpoint lead (c : Z) (s : jsstring) : nat :=
  match s with
  | x :: t => if x =? c then S (lead c t) else O
  | [] => O
  end.

Definition riskLabels : list jsstring := [str "High Risk"; str "Medium Risk"; str "Low Risk"].

Definition blank (s : jsstring) : Prop := Forall (fun c => isSpace c = true) s.

(** The end-to-end scenario of the specification. *)
Definition scenarioText : jsstring :=
  str "Experience" ++ nl ++ str "Responsible for various tasks." ++ nl
  ++ str "Education" ++ nl ++ str "State University".

(** A well-formed bullet with a quantified result. *)
Definition metricBullet : jsstring := str "- increased revenue by 20%".

(** The score reported for Proof of Impact, the second breakdown entry. *)
Definition reportedImpact (a : AnalyzeResponse) : option Z :=
  r_score <$> breakdown a !! 1%nat.

(** A strong, short resume: nothing but the overall and the finisher
    templates is eligible for it. *)
Definition strongText : jsstring :=
  str "projects" ++ nl ++ str "- react aws go 5%" ++ nl ++ str "- aaaaaa" ++ nl
  ++ str "- bbbbbb" ++ nl ++ str "- cccccc" ++ nl ++ str "- dddddd" ++ nl
  ++ str "http://a.b".

(** A resume whose only metric is a duration. *)
Definition durationText : jsstring := str "Reduced latency to 200ms".


(** The same label twice, the second heading with nothing after it. *)
Definition twiceText : jsstring :=
  str "Experience" ++ nl ++ str "foo" ++ nl ++ str "Experience".

(** The same label twice, each heading with its content. *)
Definition twiceFullText : jsstring :=
  str "Experience" ++ nl ++ str "foo" ++ nl ++ str "Experience" ++ nl ++ str "bar"
  ++ nl ++ str "Skills" ++ nl ++ str "x".

(** A heading of two labels: the line names the experience pattern and the
    skills pattern, and is a heading of the first in declaration order. *)
Definition mixedHeadingText : jsstring :=
  str "Skills" ++ nl ++ str "foo" ++ nl ++ str "Experience and Skills" ++ nl ++ str "bar".

(** The dollar pattern as the specification words it, a dollar sign and a
    number: [\$\d+]. *)
Definition specDollarRe : regex := Cat (Chr 36) (Plus isDigit).

(** A text without a digit, in which a dollar sign stands before a comma. *)
Definition salaryText : jsstring :=
  str "Salary: $, negotiable. Responsible for various tasks in the office every day.".




(** [n] times the word [w], one space between two of them. *)
Definition filler (w : string) (n : nat) : jsstring := join (str " ") (replicate n (str w)).

(** A resume that raises no red flag: the four sections, a metric, a link,
    166 words, no bullet, no buzzword and no vague phrase. *)
Definition tidyText : jsstring :=
  str "Summary" ++ nl ++ filler "alpha" 40 ++ nl
  ++ str "Experience" ++ nl ++ filler "beta" 40 ++ str " 20%" ++ nl
  ++ str "Skills" ++ nl ++ filler "gamma" 40 ++ nl
  ++ str "Projects" ++ nl ++ filler "delta" 40 ++ str " http://a.b".

(** No line of [ls] is a line of a template of category [cat]. *)
Definition noLineOf (cat : string) (ls : list jsstring) : bool :=
  forallb (fun t => negb (bool_decide (category t = cat))
                    || forallb (fun l => negb (bool_decide (l ∈ ls))) (lines t))
    TEMPLATES.

(** ** Runs of the rate limiter *)

(** The middleware called for each request of [reqs] in turn, each with the
    clock reading at its arrival: the store left behind and the verdicts,
    oldest first. *)
Fixpoint serveAll (store : gmap jsstring Entry) (reqs : list (Request * Z))
    : gmap jsstring Entry * list Verdict :=
  match reqs with
  | [] => (store, [])
  | (req, now) :: rest =>
      let '(store, v) := rateLimit store req now in
      let '(store, vs) := serveAll store rest in
      (store, v :: vs)
  end.

(** The requests of [reqs] made under [key], and the verdicts given to them. *)
Definition under (key : jsstring) (reqs : list (Request * Z)) : list (Request * Z) :=
  List.filter (fun r => bool_decide (keyOf (fst r) = key)) reqs.

Definition verdictsUnder (key : jsstring) (reqs : list (Request * Z)) (vs : list Verdict)
    : list Verdict :=
  snd <$> List.filter (fun rv => bool_decide (keyOf (fst (fst rv)) = key)) (zip reqs vs).

Definition passes (v : Verdict) : bool :=
  match v with Next => true | TooMany _ => false end.

(** The window is open at [now]: the key has no entry, or its window is over. *)
Definition windowOpen (store : gmap jsstring Entry) (key : jsstring) (now : Z) : Prop :=
  match store !! key with Some e => resetAt e < now | None => True end.

(** ** Calls of a route *)



(** A text the three JSON routes let through to the core. *)
Definition accepted (text : jsstring) : Prop :=
  len text <= 20000 /\ 50 <= len (trim text).

(** ** The seed *)

(** The polynomial hash in base 31, over the integers. *)
Definition polyHash (s : jsstring) : Z := foldl (fun h c => h * 31 + c) 0 s.

(** ** The make-up of a roast *)

(** No placeholder is left in a line. *)
Definition filled (line : jsstring) : bool :=
  negb (includes line (str "{BW1}")) && negb (includes line (str "{BW2}")).

(** A line of the table stays or becomes [filled] whichever two buzzwords go
    into it. *)
Definition fillable (l : jsstring) : bool :=
  if filled l then true
  else forallb (fun bw1 =>
         forallb (fun bw2 =>
           filled (replaceStr (str "{BW2}") (str bw2) (replaceStr (str "{BW1}") (str bw1) l)))
           BUZZWORDS) BUZZWORDS.

(** ** Inputs of the witnesses *)

Definition officeRequest : Request :=
  mkRequest (Some (str "10.0.0.1")) None (str "/api/analyze").

(** A hundred letters. *)
Definition hundredChars : jsstring := replicate 100 120.

Ltac by_computation := refine (bool_decide_unpack _ _); vm_compute; exact I.

(** * Properties *)

(** ** The seeded engine *)

Lemma lcg_range (s : Z) : 0 <= lcg s < 2147483648.
Proof.
  unfold lcg. change 2147483647 with (Z.ones 31).
  rewrite Z.land_ones by lia. apply Z.mod_pos_bound. lia.
Qed.

Lemma jsRem_pos (a b : Z) :
  0 <= a -> 0 < b -> exists m, jsRem a b = Some m /\ 0 <= m < b.
Proof.
  intros Ha Hb. unfold jsRem. destruct (Z.eqb_spec b 0) as [->|_]; [lia|].
  eexists; split; [reflexivity|]. apply Z.rem_bound_pos; lia.
Qed.

Lemma swap_perm {T} (l : list T) (i j : nat) :
  (i < length l)%nat -> (j < length l)%nat ->
  exists l', swap l i j = Some l' /\ l' ≡ₚ l.
Proof.
  intros Hi Hj. unfold swap.
  destruct (lookup_lt_is_Some_2 l i Hi) as [a Ha].
  destruct (lookup_lt_is_Some_2 l j Hj) as [b Hb].
  rewrite Ha, Hb. simpl. eexists; split; [reflexivity|].
  destruct (decide (i = j)) as [->|Hne].
  - assert (a = b) by congruence. subst b.
    rewrite list_insert_insert_eq, list_insert_id; done.
  - apply Permutation_inj. split.
    + by rewrite !length_insert.
    + exists (fun k => if decide (k = i) then j else if decide (k = j) then i else k).
      split.
      * intros x y Hxy. repeat case_decide; congruence.
      * intros k. repeat case_decide; subst.
        -- rewrite list_lookup_insert_ne by done.
           rewrite list_lookup_insert_eq by done. done.
        -- rewrite list_lookup_insert_eq by (rewrite length_insert; done). done.
        -- rewrite !list_lookup_insert_ne by done. done.
Qed.

Lemma shuffleLoop_perm {T} (i : nat) (s : Z) (l : list T) :
  (i < length l)%nat \/ (i = 0)%nat ->
  exists l', shuffleLoop i s l = Some l' /\ l' ≡ₚ l.
Proof.
  revert s l. induction i as [|i IH]; intros s l Hi.
  - exists l. done.
  - destruct Hi as [Hi|Hi]; [|lia]. cbn [shuffleLoop].
    destruct (jsRem_pos (lcg s) (Z.of_nat (S i) + 1)) as (m & -> & Hm);
      [apply lcg_range | lia |].
    simpl.
    destruct (swap_perm l (S i) (Z.to_nat m)) as (l1 & -> & Hp); [done | lia |].
    simpl.
    destruct (IH (lcg s) l1) as (l2 & -> & Hp2).
    { left. rewrite Hp. lia. }
    exists l2. split; [done|]. by rewrite Hp2.
Qed.

Lemma seededShuffle_perm {T} (arr : list T) (seed : Z) :
  exists l', seededShuffle arr seed = Some l' /\ l' ≡ₚ arr.
Proof.
  unfold seededShuffle. apply shuffleLoop_perm.
  destruct arr; simpl; [right|left]; lia.
Qed.

Lemma seededPick_elem {T} (arr : list T) (seed : Z) :
  arr <> [] -> exists x, seededPick arr seed = Some x /\ x ∈ arr.
Proof.
  intros Hne. unfold seededPick.
  destruct (jsRem_pos (lcg seed) (len arr)) as (m & -> & Hm).
  - apply lcg_range.
  - unfold len. destruct arr; [done | simpl; lia].
  - simpl. unfold len in Hm.
    destruct (lookup_lt_is_Some_2 arr (Z.to_nat m)) as [x Hx]; [lia|].
    exists x. split; [done|]. by eapply list_elem_of_lookup_2.
Qed.

(** ** The roast loops *)

Lemma drawn_mono ctx ts ts' line :
  ts ⊆ ts' -> drawn ctx ts line -> drawn ctx ts' line.
Proof. intros Hs (t & l & sd & Ht & Hl & ->). exists t, l, sd. auto. Qed.

Lemma pick_line ctx ts t sd sd' :
  stocked ts -> t ∈ ts ->
  exists line, seededPick (lines t) sd = Some line
               /\ drawn ctx ts (replacePlaceholders line ctx sd').
Proof.
  intros Hst Ht.
  destruct (seededPick_elem (lines t) sd) as (l & Hl & Hin).
  { eapply (proj1 (Forall_forall _ _) Hst). done. }
  exists l. split; [done|]. exists t, l, sd'. done.
Qed.

Lemma overallLoop_spec ctx seed shuffled n : forall i ls,
  stocked shuffled -> (i + n <= length shuffled)%nat ->
  exists ls', overallLoop ctx seed shuffled i n ls = Some (ls ++ ls')
              /\ length ls' = n /\ Forall (drawn ctx shuffled) ls'.
Proof.
  induction n as [|n IH]; intros i ls Hst Hlen.
  - exists []. by rewrite app_nil_r.
  - cbn [overallLoop].
    destruct (lookup_lt_is_Some_2 shuffled i) as [t Ht]; [lia|].
    rewrite Ht. simpl.
    destruct (pick_line ctx shuffled t (seed + Z.of_nat i * 7) (seed + Z.of_nat i))
      as (line & -> & Hd); [done | by eapply list_elem_of_lookup_2 |].
    simpl.
    destruct (IH (S i) (ls ++ [replacePlaceholders line ctx (seed + Z.of_nat i)]))
      as (ls' & -> & Hl & Hall); [done | lia |].
    exists (replacePlaceholders line ctx (seed + Z.of_nat i) :: ls').
    split; [by rewrite <- app_assoc|]. split; [simpl; lia|]. by constructor.
Qed.

Lemma triggeredLoop_spec ctx seed all : forall ts used ls,
  stocked all -> ts ⊆ all ->
  exists ls', triggeredLoop ctx seed ts used ls = Some (ls ++ ls')
              /\ Forall (drawn ctx all) ls'.
Proof.
  induction ts as [|t ts IH]; intros used ls Hst Hsub.
  - exists []. by rewrite app_nil_r.
  - cbn [triggeredLoop].
    assert (ts ⊆ all) as Hsub' by set_solver.
    destruct (12 <=? len ls); [exists []; by rewrite app_nil_r|].
    case_bool_decide.
    + by apply IH.
    + destruct (pick_line ctx all t (seed + len ls * 13) (seed + len ls))
        as (line & -> & Hd); [done | set_solver |].
      simpl.
      destruct (IH ({[category t]} ∪ used) (ls ++ [replacePlaceholders line ctx (seed + len ls)]))
        as (ls' & -> & Hall); [done | done |].
      exists (replacePlaceholders line ctx (seed + len ls) :: ls').
      split; [by rewrite <- app_assoc|]. by constructor.
Qed.

Lemma fillLoop_spec ctx seed ts n : forall ls,
  stocked ts ->
  exists ls', fillLoop ctx seed ts n ls = Some (ls ++ ls')
              /\ Forall (drawn ctx ts) ls'.
Proof.
  induction n as [|n IH]; intros ls Hst.
  - exists []. by rewrite app_nil_r.
  - cbn [fillLoop].
    destruct (len ls <? 10); simpl; [|exists []; by rewrite app_nil_r].
    destruct (Z.ltb_spec 0 (len ts)) as [Hpos|_]; [|exists []; by rewrite app_nil_r].
    destruct (seededPick_elem ts (seed + len ls * 19)) as (t & -> & Ht).
    { intros ->. unfold len in Hpos. simpl in Hpos. lia. }
    simpl.
    destruct (pick_line ctx ts t (seed + len ls * 23) (seed + len ls))
      as (line & -> & Hd); [done | done |].
    simpl. case_bool_decide; [exists []; by rewrite app_nil_r|].
    destruct (IH (ls ++ [replacePlaceholders line ctx (seed + len ls)]))
      as (ls' & -> & Hall); [done|].
    exists (replacePlaceholders line ctx (seed + len ls) :: ls').
    split; [by rewrite <- app_assoc|]. by constructor.
Qed.

Lemma finisherLoop_spec ctx seed shuffled n : forall i ls,
  stocked shuffled -> (i + n <= length shuffled)%nat ->
  exists ls', finisherLoop ctx seed shuffled i n ls = Some (ls ++ ls')
              /\ Forall (drawn ctx shuffled) ls'
              /\ ((0 < n)%nat -> len ls < 14 -> ls' <> []).
Proof.
  induction n as [|n IH]; intros i ls Hst Hlen.
  - exists []. rewrite app_nil_r. repeat split; [done|lia].
  - cbn [finisherLoop].
    destruct (Z.leb_spec 14 (len ls)) as [Hge|Hlt].
    { exists []. rewrite app_nil_r. repeat split; [done|lia]. }
    destruct (lookup_lt_is_Some_2 shuffled i) as [t Ht]; [lia|].
    rewrite Ht. simpl.
    destruct (pick_line ctx shuffled t (seed + 300 + Z.of_nat i) (seed + 300 + Z.of_nat i))
      as (line & -> & Hd); [done | by eapply list_elem_of_lookup_2 |].
    simpl.
    destruct (IH (S i) (ls ++ [replacePlaceholders line ctx (seed + 300 + Z.of_nat i)]))
      as (ls' & -> & Hall & _); [done | lia |].
    exists (replacePlaceholders line ctx (seed + 300 + Z.of_nat i) :: ls').
    split; [by rewrite <- app_assoc|]. split; [by constructor|done].
Qed.

(** ** The shape of a roast *)

Lemma filter_sub {A} (f : A -> bool) (l : list A) : List.filter f l ⊆ l.
Proof.
  intros x Hx. apply list_elem_of_In in Hx. apply filter_In in Hx.
  apply list_elem_of_In. tauto.
Qed.

Lemma filter_elem {A} (f : A -> bool) (l : list A) (x : A) :
  x ∈ l -> f x = true -> x ∈ List.filter f l.
Proof.
  intros Hx Hf. apply list_elem_of_In. apply filter_In. split; [|done].
  by apply list_elem_of_In.
Qed.

Lemma stocked_sub (ts ts' : list RoastTemplate) : ts ⊆ ts' -> stocked ts' -> stocked ts.
Proof.
  unfold stocked. rewrite !Forall_forall. intros Hs H t Ht. apply H, Hs, Ht.
Qed.

Lemma simpleHash_nonneg (s : jsstring) : 0 <= simpleHash s.
Proof. unfold simpleHash. lia. Qed.

(** A call of the roaster on a stocked template array in which an overall and
    a finisher template are eligible: every step returns, and the array is
    handed back as it was found. *)
Lemma roastWith_run (templates : list RoastTemplate) (ctx : RoastContext)
    (text : jsstring) (level : RoastLevel) :
  stocked templates ->
  overallOf (eligibleOf templates ctx level) <> [] ->
  exists sht lines1 lines2 lines3 lines4 m ttl red,
    let seed := simpleHash text in
    let triggered := triggeredOf (eligibleOf templates ctx level) in
    let all := lines1 ++ lines2 ++ lines3 ++ lines4 in
    seededShuffle triggered (seed + 100) = Some sht
    /\ sht ≡ₚ triggered
    /\ triggeredLoop ctx seed sht ∅ lines1 = Some (lines1 ++ lines2)
    /\ fillLoop ctx seed triggered 10 (lines1 ++ lines2) = Some ((lines1 ++ lines2) ++ lines3)
    /\ (1 <= length lines1 <= 2)%nat
    /\ Forall (drawn ctx (overallOf (eligibleOf templates ctx level))) lines1
    /\ Forall (drawn ctx triggered) (lines2 ++ lines3)
    /\ Forall (drawn ctx (finisherOf (eligibleOf templates ctx level))) lines4
    /\ (finisherOf (eligibleOf templates ctx level) <> [] -> len (lines1 ++ lines2 ++ lines3) < 14 ->
        lines4 <> [])
    /\ jsRem seed (Z.max 1 (Z.min (len all - 2) 8)) = Some m
    /\ 0 <= m < Z.max 1 (Z.min (len all - 2) 8)
    /\ ttl ∈ titles level
    /\ red ≡ₚ allRedemptions
    /\ roastWith templates ctx text level =
         (Some {| title := ttl; roastLines := all; bestLine := bestOf all m;
                  redemption := take 3 red; boundaries := roastBoundaries |},
          templates).
Proof.
  intros Hst Hov. unfold roastWith. cbv zeta.
  fold (eligibleOf templates ctx level).
  fold (overallOf (eligibleOf templates ctx level)).
  fold (triggeredOf (eligibleOf templates ctx level)).
  fold (finisherOf (eligibleOf templates ctx level)).
  set (el := eligibleOf templates ctx level) in *.
  set (seed := simpleHash text).
  assert (el ⊆ templates) as Hel by apply filter_sub.
  assert (stocked (overallOf el)) as Hso.
  { eapply stocked_sub; [|exact Hst]. etrans; [apply filter_sub|done]. }
  assert (stocked (triggeredOf el)) as Hstr.
  { eapply stocked_sub; [|exact Hst]. etrans; [apply filter_sub|done]. }
  assert (stocked (finisherOf el)) as Hsf.
  { eapply stocked_sub; [|exact Hst]. etrans; [apply filter_sub|done]. }
  destruct (seededShuffle_perm (overallOf el) seed) as (sho & -> & Hpo). ostep.
  assert (stocked sho) as Hsho.
  { eapply stocked_sub; [|exact Hso]. intros x. by rewrite Hpo. }
  destruct (overallLoop_spec ctx seed sho (Nat.min 2 (length sho)) 0 [] Hsho)
    as (lines1 & -> & Hl1 & Hd1); [lia|]. ostep. rewrite (app_nil_l lines1).
  destruct (seededShuffle_perm (triggeredOf el) (seed + 100)) as (sht & Hsht & Hpt).
  rewrite Hsht. ostep.
  destruct (triggeredLoop_spec ctx seed (triggeredOf el) sht ∅ lines1 Hstr)
    as (lines2 & Htl & Hd2).
  { intros x. by rewrite Hpt. }
  rewrite Htl. ostep.
  destruct (fillLoop_spec ctx seed (triggeredOf el) 10 (lines1 ++ lines2) Hstr)
    as (lines3 & Hfl & Hd3). rewrite Hfl. ostep.
  destruct (seededShuffle_perm (finisherOf el) (seed + 200)) as (shf & -> & Hpf). ostep.
  assert (stocked shf) as Hshf.
  { eapply stocked_sub; [|exact Hsf]. intros x. by rewrite Hpf. }
  destruct (finisherLoop_spec ctx seed shf (Nat.min 2 (length shf)) 0
              ((lines1 ++ lines2) ++ lines3) Hshf)
    as (lines4 & -> & Hd4 & Hne4); [lia|]. ostep.
  rewrite <- !app_assoc.
  set (all := lines1 ++ lines2 ++ lines3 ++ lines4).
  destruct (jsRem_pos seed (Z.max 1 (Z.min (len all - 2) 8))) as (m & Hm & Hmr);
    [apply simpleHash_nonneg | lia |].
  rewrite Hm. ostep.
  destruct (seededPick_elem (titles level) seed) as (ttl & -> & Httl).
  { by destruct level. }
  ostep.
  destruct (seededShuffle_perm allRedemptions (seed + 500)) as (red & -> & Hpr). ostep.
  exists sht, lines1, lines2, lines3, lines4, m, ttl, red.
  cbv zeta. fold all.
  split; [done|]. split; [done|]. split; [done|]. split; [done|].
  split.
  { rewrite Hl1. assert (length sho <> 0)%nat; [|lia].
    rewrite Hpo. destruct (overallOf el); simpl; [done|lia]. }
  split.
  { eapply Forall_impl; [exact Hd1|]. intros l. apply drawn_mono. intros x. by rewrite Hpo. }
  split; [by apply Forall_app|].
  split.
  { eapply Forall_impl; [exact Hd4|]. intros l. apply drawn_mono. intros x. by rewrite Hpf. }
  split.
  { intros Hfin Hlt. apply Hne4.
    - assert (length shf <> 0)%nat; [|lia].
      rewrite Hpf. destruct (finisherOf el); simpl; [done|lia].
    - by rewrite <- app_assoc. }
  done.
Qed.

(** ** The template table *)

Lemma forallb_elem {A} (f : A -> bool) (l : list A) (x : A) :
  forallb f l = true -> x ∈ l -> f x = true.
Proof.
  intros H Hx. apply (proj1 (forallb_forall f l) H). by apply list_elem_of_In.
Qed.

Lemma TEMPLATES_stocked : stocked TEMPLATES.
Proof.
  apply Forall_forall. intros t Ht.
  assert (forallb (fun t => match lines t with [] => false | _ => true end) TEMPLATES = true)
    as H by (vm_compute; reflexivity).
  pose proof (forallb_elem _ _ _ H Ht) as Hl. simpl in Hl.
  by destruct (lines t).
Qed.

Lemma TEMPLATES_lines_ok t l : t ∈ TEMPLATES -> l ∈ lines t -> lineOk l = true.
Proof.
  intros Ht Hl.
  assert (forallb (fun t => forallb lineOk (lines t)) TEMPLATES = true)
    as H by (vm_compute; reflexivity).
  pose proof (forallb_elem _ _ _ H Ht) as H'. simpl in H'.
  exact (forallb_elem _ _ _ H' Hl).
Qed.

Lemma startsWith_cons_ne (p s : jsstring) (c d : Z) :
  c <> d -> startsWith (c :: p) (d :: s) = false.
Proof. intros Hne. simpl. destruct (Z.eqb_spec c d); [done|reflexivity]. Qed.

Lemma replacePlaceholders_head (c : Z) (l : jsstring) ctx sd :
  c <> 123 -> exists l', replacePlaceholders (c :: l) ctx sd = c :: l'.
Proof.
  intros Hc. unfold replacePlaceholders.
  assert (forall p r s, exists s', replaceStr (123 :: p) r (c :: s) = c :: s') as H.
  { intros p r s. cbn [replaceStr]. rewrite startsWith_cons_ne by done. eauto. }
  destruct (ctx_buzzwords ctx) as [|bw1 [|bw2 ?]].
  - destruct (H (str "BW1}") (str "dynamic") l) as [s1 Hs1].
    change (str "{BW1}") with (123 :: str "BW1}"). rewrite Hs1.
    change (str "{BW2}") with (123 :: str "BW2}"). apply H.
  - destruct (H (str "BW1}") (str bw1) l) as [s1 Hs1].
    change (str "{BW1}") with (123 :: str "BW1}"). rewrite Hs1.
    change (str "{BW2}") with (123 :: str "BW2}"). apply H.
  - destruct (H (str "BW1}") (str bw1) l) as [s1 Hs1].
    change (str "{BW1}") with (123 :: str "BW1}"). rewrite Hs1.
    change (str "{BW2}") with (123 :: str "BW2}"). apply H.
Qed.

(** Every roast line is a non-empty string. *)
Lemma drawn_nonempty ctx ts line :
  ts ⊆ TEMPLATES -> drawn ctx ts line -> line <> [].
Proof.
  intros Hs (t & l & sd & Ht & Hl & ->).
  pose proof (TEMPLATES_lines_ok t l (Hs _ Ht) Hl) as Hok.
  destruct l as [|c l]; [done|]. simpl in Hok.
  destruct (replacePlaceholders_head c l ctx sd) as [l' ->]; [|done].
  destruct (Z.eqb_spec c 123); [done|done].
Qed.

Lemma replaceStr_absent (p r s : jsstring) :
  includes s p = false -> replaceStr p r s = s.
Proof.
  induction s as [|c s IH]; intros H.
  - cbn in *. destruct (startsWith p []); [done|reflexivity].
  - cbn [includes] in H. apply orb_false_iff in H as [H1 H2].
    cbn [replaceStr]. rewrite H1. by rewrite IH.
Qed.

Lemma replacePlaceholders_absent (l : jsstring) ctx sd :
  includes l (str "{BW1}") = false -> includes l (str "{BW2}") = false ->
  replacePlaceholders l ctx sd = l.
Proof.
  intros H1 H2. unfold replacePlaceholders.
  destruct (ctx_buzzwords ctx) as [|bw1 [|bw2 ?]];
    rewrite (replaceStr_absent (str "{BW1}")) by done;
    by rewrite (replaceStr_absent (str "{BW2}")).
Qed.

Lemma no_metrics_lines_plain t l ctx sd :
  t ∈ TEMPLATES -> category t = "no_metrics"%string -> l ∈ lines t ->
  replacePlaceholders l ctx sd = l.
Proof.
  intros Ht Hc Hl.
  assert (forallb (fun t => negb (bool_decide (category t = "no_metrics"%string))
                            || forallb (fun l => negb (includes l (str "{BW1}"))
                                                 && negb (includes l (str "{BW2}"))) (lines t))
            TEMPLATES = true) as H by (vm_compute; reflexivity).
  pose proof (forallb_elem _ _ _ H Ht) as H'. simpl in H'.
  rewrite bool_decide_eq_true_2 in H' by done. simpl in H'.
  pose proof (forallb_elem _ _ _ H' Hl) as H''. simpl in H''.
  apply andb_true_iff in H'' as [H1 H2].
  apply replacePlaceholders_absent; by apply negb_true_iff.
Qed.

Lemma eligible_light (t : RoastTemplate) ctx level :
  t ∈ TEMPLATES -> minLevel t = light -> trigger t ctx = true ->
  t ∈ eligibleOf TEMPLATES ctx level.
Proof.
  intros Ht Hm Htr. apply filter_elem; [done|]. rewrite Hm, Htr. by destruct level.
Qed.

Lemma overall_eligible ctx level : overallOf (eligibleOf TEMPLATES ctx level) <> [].
Proof.
  assert (overallLight ∈ overallOf (eligibleOf TEMPLATES ctx level)) as H.
  { apply filter_elem; [|reflexivity].
    apply eligible_light; [|reflexivity|reflexivity].
    apply (list_elem_of_lookup_2 _ 0%nat). reflexivity. }
  intros Heq. rewrite Heq in H. by apply elem_of_nil in H.
Qed.

Lemma finisher_eligible ctx level : finisherOf (eligibleOf TEMPLATES ctx level) <> [].
Proof.
  assert (finisherLight ∈ finisherOf (eligibleOf TEMPLATES ctx level)) as H.
  { apply filter_elem; [|reflexivity].
    apply eligible_light; [|reflexivity|reflexivity].
    apply (list_elem_of_lookup_2 _ 26%nat). reflexivity. }
  intros Heq. rewrite Heq in H. by apply elem_of_nil in H.
Qed.

Lemma no_metrics_eligible ctx level :
  ctx_metricCount ctx = 0 ->
  noMetricsLight ∈ triggeredOf (eligibleOf TEMPLATES ctx level).
Proof.
  intros Hm. apply filter_elem; [|reflexivity].
  apply eligible_light; [|reflexivity|].
  - apply (list_elem_of_lookup_2 _ 3%nat). reflexivity.
  - change (trigger noMetricsLight ctx) with (ctx_metricCount ctx =? 0). by rewrite Hm.
Qed.

(** ** Phase 2 reaches every triggered category *)

Lemma triggered_category t :
  t ∈ triggeredOf TEMPLATES -> category t ∈ triggeredCategories.
Proof.
  intros Ht.
  assert (forallb (fun t => bool_decide (category t ∈ triggeredCategories))
            (triggeredOf TEMPLATES) = true) as H by (vm_compute; reflexivity).
  pose proof (forallb_elem _ _ _ H Ht) as H'. simpl in H'.
  by apply bool_decide_eq_true in H'.
Qed.

Lemma filter_mono_sub {A} (f : A -> bool) (l l' : list A) :
  l ⊆ l' -> List.filter f l ⊆ List.filter f l'.
Proof.
  intros Hs x Hx. apply list_elem_of_In, filter_In in Hx as [Hx Hf].
  apply filter_elem; [|done]. apply Hs. by apply list_elem_of_In.
Qed.

Lemma triggeredOf_eligible_sub ctx level :
  triggeredOf (eligibleOf TEMPLATES ctx level) ⊆ triggeredOf TEMPLATES.
Proof. apply filter_mono_sub, filter_sub. Qed.

Lemma seededPick_Some_elem {T} (arr : list T) (sd : Z) (x : T) :
  seededPick arr sd = Some x -> x ∈ arr.
Proof.
  unfold seededPick. destruct (jsRem (lcg sd) (len arr)) as [j|]; [|done].
  ostep. apply list_elem_of_lookup_2.
Qed.

Lemma hasLineOf_app ctx ts cat ls ls' :
  hasLineOf ctx ts cat ls -> hasLineOf ctx ts cat (ls ++ ls').
Proof.
  intros (t & l & sd & ? & ? & ? & ?). exists t, l, sd.
  repeat split; try done. apply elem_of_app. by left.
Qed.

Lemma triggeredCategories_size :
  size (list_to_set triggeredCategories : gset string) = 10%nat.
Proof.
  rewrite size_list_to_set; [reflexivity|].
  refine (bool_decide_unpack _ _). vm_compute. exact I.
Qed.

Section Coverage.

Variables (ctx : RoastContext) (seed : Z) (cat : string) (all : list RoastTemplate).
Hypothesis all_categories : forall t, t ∈ all -> category t ∈ triggeredCategories.
Hypothesis cat_triggered : cat ∈ triggeredCategories.

(** The loop leaves at twelve lines; with at most two overall lines before it
    and one line per category, all ten categories are then used. *)
Lemma triggeredLoop_covers ts : forall (used : gset string) ls ls',
  ts ⊆ all ->
  used ⊆ list_to_set triggeredCategories ->
  len ls <= 2 + Z.of_nat (size used) ->
  (cat ∈ used -> hasLineOf ctx all cat ls) ->
  (exists t, t ∈ ts /\ category t = cat) \/ cat ∈ used ->
  triggeredLoop ctx seed ts used ls = Some ls' ->
  hasLineOf ctx all cat ls'.
Proof.
  induction ts as [|t ts IH]; intros used ls ls' Hsub Hused Hlen Hinv Hex Hrun.
  - cbn in Hrun. injection Hrun as <-. apply Hinv.
    destruct Hex as [(t & Ht & _)|]; [|done]. by apply elem_of_nil in Ht.
  - cbn [triggeredLoop] in Hrun.
    assert (t ∈ all) as Ht by (apply Hsub; left).
    assert (ts ⊆ all) as Hsub' by (intros x Hx; apply Hsub; by right).
    destruct (Z.leb_spec 12 (len ls)) as [Hge|Hlt].
    + injection Hrun as <-. apply Hinv.
      assert (used = list_to_set triggeredCategories) as ->.
      { apply set_subseteq_size_eq; [done|].
        rewrite triggeredCategories_size. unfold len in *. lia. }
      by apply elem_of_list_to_set.
    + case_bool_decide as Hin.
      * eapply (IH used ls); try done.
        destruct Hex as [(t' & Ht' & Hc)|]; [|by right].
        apply elem_of_cons in Ht' as [->|Ht']; [right; by rewrite <- Hc|].
        left. by exists t'.
      * destruct (seededPick (lines t) (seed + len ls * 13)) as [line|] eqn:Hpick; [|done].
        ostep_in Hrun.
        eapply (IH _ _ _ Hsub' _ _ _ _ Hrun).
        Unshelve.
        -- apply union_subseteq. split; [|done].
           apply singleton_subseteq_l, elem_of_list_to_set. by apply all_categories.
        -- rewrite size_union by (apply disjoint_singleton_l; done).
           rewrite size_singleton.
           unfold len in *. rewrite length_app. simpl. lia.
        -- intros Hc. apply elem_of_union in Hc as [Hc|Hc].
           ++ apply elem_of_singleton in Hc.
              exists t, line, (seed + len ls).
              split; [done|]. split; [done|].
              split; [by eapply seededPick_Some_elem|].
              apply elem_of_app. right. by left.
           ++ by apply hasLineOf_app, Hinv.
        -- destruct Hex as [(t' & Ht' & Hc)|Hu].
           ++ apply elem_of_cons in Ht' as [->|Ht'].
              ** right. apply elem_of_union. left. by apply elem_of_singleton.
              ** left. by exists t'.
           ++ right. apply elem_of_union. by right.
Qed.

End Coverage.

(** ** Line counts *)

Lemma triggeredLoop_len ctx seed ts : forall used ls ls',
  triggeredLoop ctx seed ts used ls = Some ls' -> len ls' <= Z.max (len ls) 12.
Proof.
  induction ts as [|t ts IH]; intros used ls ls' Hrun.
  - cbn in Hrun. injection Hrun as <-. lia.
  - cbn [triggeredLoop] in Hrun.
    destruct (Z.leb_spec 12 (len ls)) as [Hge|Hlt]; [injection Hrun as <-; lia|].
    case_bool_decide.
    + by eapply IH.
    + destruct (seededPick (lines t) (seed + len ls * 13)) as [line|]; [|done].
      ostep_in Hrun. apply IH in Hrun. unfold len in *.
      rewrite length_app in Hrun. simpl in Hrun. lia.
Qed.

Lemma fillLoop_len ctx seed ts n : forall ls ls',
  fillLoop ctx seed ts n ls = Some ls' -> len ls' <= Z.max (len ls) 10.
Proof.
  induction n as [|n IH]; intros ls ls' Hrun.
  - cbn in Hrun. injection Hrun as <-. lia.
  - cbn [fillLoop] in Hrun.
    destruct (Z.ltb_spec (len ls) 10) as [Hlt|Hge]; cbn [andb] in Hrun;
      [|injection Hrun as <-; lia].
    destruct (0 <? len ts); [|injection Hrun as <-; lia].
    destruct (seededPick ts (seed + len ls * 19)) as [t|]; [|done]. ostep_in Hrun.
    destruct (seededPick (lines t) (seed + len ls * 23)) as [line|]; [|done].
    ostep_in Hrun. case_bool_decide; [injection Hrun as <-; lia|].
    apply IH in Hrun. unfold len in *. rewrite length_app in Hrun. simpl in Hrun. lia.
Qed.

(** Ten turns of phase 3 are enough: more fuel changes nothing. *)
Lemma fillLoop_fuel ctx seed ts n : forall ls,
  (10 - length ls <= n)%nat ->
  fillLoop ctx seed ts (S n) ls = fillLoop ctx seed ts n ls.
Proof.
  induction n as [|n IH]; intros ls Hn.
  - cbn [fillLoop]. destruct (Z.ltb_spec (len ls) 10) as [Hlt|Hge]; [|done].
    unfold len in Hlt. lia.
  - change (fillLoop ctx seed ts (S (S n)) ls) with
      (if (len ls <? 10) && (0 <? len ts) then
         template ← seededPick ts (seed + len ls * 19);
         line ← seededPick (lines template) (seed + len ls * 23);
         let replaced := replacePlaceholders line ctx (seed + len ls) in
         if bool_decide (replaced ∈ ls) then Some ls
         else fillLoop ctx seed ts (S n) (ls ++ [replaced])
       else Some ls).
    cbn [fillLoop].
    destruct ((len ls <? 10) && (0 <? len ts)); [|done].
    destruct (seededPick ts (seed + len ls * 19)) as [t|]; [|done]. ostep.
    destruct (seededPick (lines t) (seed + len ls * 23)) as [line|]; [|done]. ostep.
    case_bool_decide; [done|].
    rewrite <- IH; [done|]. rewrite length_app. simpl. lia.
Qed.

(** ** A roast on the real table *)

(** Everything a call of [generateRoast] settles, for any text, any level
    and any lowercasing function. *)
Lemma generateRoast_run lc text level :
  exists sht lines1 lines2 lines3 lines4 m ttl red,
    let ctx := buildContext lc text in
    let seed := simpleHash text in
    let triggered := triggeredOf (eligibleOf TEMPLATES ctx level) in
    let all := lines1 ++ lines2 ++ lines3 ++ lines4 in
    sht ≡ₚ triggered
    /\ triggeredLoop ctx seed sht ∅ lines1 = Some (lines1 ++ lines2)
    /\ (1 <= length lines1 <= 2)%nat
    /\ lines4 <> []
    /\ Forall (drawn ctx TEMPLATES) all
    /\ jsRem seed (Z.max 1 (Z.min (len all - 2) 8)) = Some m
    /\ 0 <= m < Z.max 1 (Z.min (len all - 2) 8)
    /\ ttl ∈ titles level
    /\ red ≡ₚ allRedemptions
    /\ generateRoastIn lc TEMPLATES text level =
         (Some {| title := ttl; roastLines := all; bestLine := bestOf all m;
                  redemption := take 3 red; boundaries := roastBoundaries |},
          TEMPLATES).
Proof.
  destruct (roastWith_run TEMPLATES (buildContext lc text) text level
              TEMPLATES_stocked (overall_eligible _ _))
    as (sht & lines1 & lines2 & lines3 & lines4 & m & ttl & red & H).
  cbv zeta in H.
  destruct H as (Hsht & Hp & Htl & Hfl & Hl1 & Hd1 & Hd23 & Hd4 & Hne4 & Hm & Hmr
                 & Httl & Hred & Hrun).
  exists sht, lines1, lines2, lines3, lines4, m, ttl, red. cbv zeta.
  split; [done|]. split; [done|]. split; [done|].
  split.
  { apply Hne4; [apply finisher_eligible|].
    pose proof (triggeredLoop_len _ _ _ _ _ _ Htl) as Hb2.
    pose proof (fillLoop_len _ _ _ _ _ _ Hfl) as Hb3.
    rewrite app_assoc. unfold len in *. lia. }
  split.
  { assert (forall X l,
               Forall (drawn (buildContext lc text)
                         (X (eligibleOf TEMPLATES (buildContext lc text) level))) l ->
               (forall ts, X ts ⊆ ts) ->
               Forall (drawn (buildContext lc text) TEMPLATES) l) as Hup.
    { intros X l Hl HX. eapply Forall_impl; [exact Hl|]. intros x. apply drawn_mono.
      etrans; [apply HX|apply filter_sub]. }
    apply Forall_app. split; [apply (Hup overallOf); [done|intros; apply filter_sub]|].
    rewrite app_assoc. apply Forall_app.
    split; [apply (Hup triggeredOf); [done|intros; apply filter_sub]|].
    apply (Hup finisherOf); [done|intros; apply filter_sub]. }
  unfold generateRoastIn.
  exact (conj Hm (conj Hmr (conj Httl (conj Hred Hrun)))).
Qed.

(** ** The roaster: claims *)

Lemma metricCount3_zero (text : jsstring) :
  matchCount false pctRe text = 0 ->
  matchCount false dollarRe text = 0 ->
  matchCount true timesRe text = 0 ->
  metricCount3 text = 0.
Proof.
  intros Hp Hd Ht. unfold metricCount3, metricPatterns. cbn [foldl fst snd].
  rewrite Hp, Hd, Ht. reflexivity.
Qed.

Lemma triggeredOf_sub (ts : list RoastTemplate) : triggeredOf ts ⊆ ts.
Proof. apply filter_sub. Qed.

Lemma no_metrics_covered ctx seed sht lines1 ls level :
  ctx_metricCount ctx = 0 ->
  sht ≡ₚ triggeredOf (eligibleOf TEMPLATES ctx level) ->
  (length lines1 <= 2)%nat ->
  triggeredLoop ctx seed sht ∅ lines1 = Some ls ->
  exists t l, t ∈ TEMPLATES /\ category t = "no_metrics"%string /\ l ∈ lines t /\ l ∈ ls.
Proof.
  intros Hmc Hperm Hl1 Htl.
  assert (hasLineOf ctx (triggeredOf TEMPLATES) "no_metrics" ls) as Hcov.
  { eapply (triggeredLoop_covers ctx seed "no_metrics" (triggeredOf TEMPLATES)
              triggered_category) with (ts := sht) (used := ∅) (ls := lines1).
    - left.
    - intros t. rewrite Hperm. apply triggeredOf_eligible_sub.
    - apply empty_subseteq.
    - rewrite size_empty. unfold len. lia.
    - intros Hin. apply elem_of_empty in Hin. destruct Hin.
    - left. exists noMetricsLight. split; [|reflexivity].
      rewrite Hperm. apply no_metrics_eligible. exact Hmc.
    - exact Htl. }
  destruct Hcov as (t & l & sd & Ht' & Hc & Hl & Hin).
  pose proof (triggeredOf_sub TEMPLATES t Ht') as HtT.
  rewrite (no_metrics_lines_plain t l ctx sd HtT Hc Hl) in Hin.
  exists t, l. auto.
Qed.

(** C2. Two calls of [generateRoast] on the same text and level, the second
    started in the state the first one leaves, return the same title, the same
    lines in the same order, the same best line, the same redemption list and
    the same boundaries. *)
Theorem generateRoast_deterministic lc (text : jsstring) (level : RoastLevel) :
  let first := generateRoastIn lc TEMPLATES text level in
  let second := generateRoastIn lc (snd first) text level in
  exists r1 r2,
    fst first = Some r1 /\ fst second = Some r2
    /\ title r1 = title r2 /\ roastLines r1 = roastLines r2
    /\ bestLine r1 = bestLine r2 /\ redemption r1 = redemption r2
    /\ boundaries r1 = boundaries r2.
Proof.
  destruct (generateRoast_run lc text level)
    as (sht & lines1 & lines2 & lines3 & lines4 & m & ttl & red & H).
  cbv zeta in H. destruct H as (_ & _ & _ & _ & _ & _ & _ & _ & _ & Hrun).
  cbv zeta. rewrite Hrun. change (snd (?a, TEMPLATES)) with TEMPLATES. rewrite Hrun.
  eexists _, _. repeat split; reflexivity.
Qed.

(** C6, as the code has it. The best line is the line at index [m + 1], where
    [m] is the seed modulo [max 1 (min (n - 2) 8)] and [n] counts the lines;
    it is a member of the lines and never the first one; it is an interior
    line when there are three lines or more, and the last line when there are
    two. *)
Theorem bestLine_is_indexed lc (text : jsstring) (level : RoastLevel) :
  exists r m,
    generateRoast lc text level = Some r
    /\ jsRem (simpleHash text) (Z.max 1 (Z.min (len (roastLines r) - 2) 8)) = Some m
    /\ roastLines r !! Z.to_nat (m + 1) = Some (bestLine r)
    /\ bestLine r ∈ roastLines r
    /\ 2 <= len (roastLines r)
    /\ 1 <= m + 1 <= len (roastLines r) - 1
    /\ (3 <= len (roastLines r) -> m + 1 <= len (roastLines r) - 2)
    /\ (len (roastLines r) = 2 -> last (roastLines r) = Some (bestLine r)).
Proof.
  destruct (generateRoast_run lc text level)
    as (sht & lines1 & lines2 & lines3 & lines4 & m & ttl & red & H).
  cbv zeta in H.
  destruct H as (_ & _ & Hl1 & Hne4 & Hd & Hm & Hmr & _ & _ & Hrun).
  set (all := lines1 ++ lines2 ++ lines3 ++ lines4) in *.
  assert (2 <= len all) as Hn.
  { unfold len, all. rewrite !length_app.
    destruct lines4; [exfalso; apply Hne4; reflexivity|]. simpl. lia. }
  assert (Z.to_nat (m + 1) < length all)%nat as Hidx.
  { clear -Hn Hmr. unfold len in *. lia. }
  destruct (lookup_lt_is_Some_2 all _ Hidx) as [best Hbest].
  assert (bestOf all m = best) as Hb.
  { unfold bestOf. rewrite Hbest.
    assert (best <> []) as Hne.
    { eapply drawn_nonempty; [reflexivity|].
      eapply (proj1 (Forall_forall _ _) Hd). eapply list_elem_of_lookup_2. exact Hbest. }
    destruct best; [exfalso; apply Hne; reflexivity|reflexivity]. }
  exists (mkRoast ttl all (bestOf all m) (take 3 red) roastBoundaries), m.
  split; [exact (f_equal fst Hrun)|].
  change (jsRem (simpleHash text) (Z.max 1 (Z.min (len all - 2) 8)) = Some m
          /\ all !! Z.to_nat (m + 1) = Some (bestOf all m)
          /\ bestOf all m ∈ all
          /\ 2 <= len all
          /\ 1 <= m + 1 <= len all - 1
          /\ (3 <= len all -> m + 1 <= len all - 2)
          /\ (len all = 2 -> last all = Some (bestOf all m))).
  rewrite Hb.
  split; [exact Hm|]. split; [exact Hbest|].
  split; [eapply list_elem_of_lookup_2; exact Hbest|]. split; [exact Hn|].
  clear -Hn Hmr Hbest. fold all.
  split; [lia|]. split; [lia|].
  intros Hlen. rewrite last_lookup. rewrite <- Hbest. f_equal.
  unfold len in *. lia.
Qed.

(** ** The section segmenter *)

Lemma contentAfterLast_None name lines :
  contentAfterLast name lines = None ->
  forall l, l ∈ lines -> headingOf (trim l) <> Some name.
Proof.
  induction lines as [|line rest IH]; intros H l Hl.
  - by apply elem_of_nil in Hl.
  - cbn [contentAfterLast] in H.
    destruct (contentAfterLast name rest) as [c|] eqn:Hc; [done|].
    case_bool_decide as Hh; [done|].
    apply elem_of_cons in Hl as [->|Hl]; [done|]. by apply IH.
Qed.

Lemma commit_other (st : segState) (name : string) :
  currentSection st <> name -> commit st !! name = sections st !! name.
Proof.
  intros Hne. unfold commit.
  destruct (0 <? length (currentContent st))%nat; [|done].
  by rewrite lookup_insert_ne.
Qed.

(** Once the current section is another one and no heading of [name] is left,
    the binding of [name] stays as it is. *)
Lemma segment_keeps (name : string) (lines : list jsstring) : forall st,
  currentSection st <> name ->
  (forall l, l ∈ lines -> headingOf (trim l) <> Some name) ->
  commit (foldl segStep st lines) !! name = sections st !! name.
Proof.
  induction lines as [|line rest IH]; intros st Hcur Hno.
  - by apply commit_other.
  - cbn [foldl]. unfold segStep at 2.
    assert (forall l, l ∈ rest -> headingOf (trim l) <> Some name) as Hno'.
    { intros l Hl. apply Hno. by right. }
    destruct (headingOf (trim line)) as [h|] eqn:Hh.
    + rewrite IH; [|cbn; intros ->; by apply (Hno line); [left|]|done].
      cbn. by apply commit_other.
    + by rewrite IH.
Qed.

(** Lines that are no headings only grow the current content. *)
Lemma segment_body (lines : list jsstring) : forall st,
  foldl segStep st lines =
    foldl segStep
      (SegState (sections st) (currentSection st) (currentContent st ++ bodyOf lines))
      (drop (length (bodyOf lines)) lines).
Proof.
  induction lines as [|line rest IH]; intros st.
  - cbn. rewrite app_nil_r. by destruct st.
  - cbn [bodyOf]. destruct (headingOf (trim line)) as [h|] eqn:Hh.
    + cbn [length drop]. rewrite app_nil_r. by destruct st.
    + cbn [length drop foldl]. unfold segStep at 2. rewrite Hh.
      rewrite IH. cbn [sections currentSection currentContent].
      by rewrite <- app_assoc.
Qed.

Lemma bodyOf_rest (lines : list jsstring) :
  match drop (length (bodyOf lines)) lines with
  | [] => True
  | l :: _ => is_Some (headingOf (trim l))
  end.
Proof.
  induction lines as [|line rest IH]; [done|].
  cbn [bodyOf]. destruct (headingOf (trim line)) as [h|] eqn:Hh.
  - cbn [length drop]. rewrite Hh. by eexists.
  - cbn [length drop]. exact IH.
Qed.

Lemma segment_last (name : string) (lines : list jsstring) : forall st c,
  contentAfterLast name lines = Some c -> c <> [] ->
  commit (foldl segStep st lines) !! name = Some (trim (join nl c)).
Proof.
  induction lines as [|line rest IH]; intros st c Hc Hne; [done|].
  cbn [contentAfterLast] in Hc. cbn [foldl].
  destruct (contentAfterLast name rest) as [c'|] eqn:Hrest.
  { injection Hc as ->. by apply IH. }
  case_bool_decide as Hh; [|done]. injection Hc as <-.
  pose proof (contentAfterLast_None _ _ Hrest) as Hno.
  unfold segStep at 2. rewrite Hh.
  rewrite segment_body. cbn [sections currentSection currentContent app].
  pose proof (bodyOf_rest rest) as Hnext.
  assert (forall l, l ∈ drop (length (bodyOf rest)) rest -> headingOf (trim l) <> Some name)
    as Hno'.
  { intros l Hl. apply Hno. by eapply subseteq_drop. }
  assert (commit (SegState (commit st) name (bodyOf rest)) !! name
          = Some (trim (join nl (bodyOf rest)))) as Hbind.
  { unfold commit at 1. cbn [currentContent currentSection sections].
    destruct (bodyOf rest); [done|]. cbn [length Nat.ltb Nat.leb].
    by rewrite lookup_insert_eq. }
  destruct (drop (length (bodyOf rest)) rest) as [|h tail] eqn:Hdrop.
  - cbn [foldl]. exact Hbind.
  - cbn [foldl]. unfold segStep at 2. destruct Hnext as [hn Hhn]. rewrite Hhn.
    rewrite segment_keeps.
    + cbn [sections]. exact Hbind.
    + cbn [currentSection]. intros ->. apply (Hno' h); [by left|done].
    + intros l Hl. apply Hno'. by right.
Qed.

Lemma headingOf_label (t : jsstring) (name : string) :
  headingOf t = Some name -> name <> "preamble"%string.
Proof.
  unfold headingOf. destruct (List.find _ sectionHeaders) as [h|] eqn:Hf; [|done].
  intros [= <-]. apply find_some in Hf as [Hin _].
  assert (forallb (fun h => negb (bool_decide (fst h = "preamble"%string))) sectionHeaders = true)
    as H by (vm_compute; reflexivity).
  pose proof (proj1 (forallb_forall _ _) H h Hin) as Hh. cbn beta in Hh.
  apply negb_true_iff, bool_decide_eq_false_1 in Hh. exact Hh.
Qed.

Lemma committedAfter_preamble (lines : list jsstring) :
  committedAfter "preamble" lines = None.
Proof.
  induction lines as [|line rest IH]; [done|].
  cbn [committedAfter]. rewrite IH.
  case_bool_decide as Hh; [|done]. by apply headingOf_label in Hh.
Qed.

Lemma commit_state (m : gmap string jsstring) (name : string) (c : list jsstring) :
  commit (SegState m name c) =
    match c with [] => m | _ => <[name := trim (join nl c)]> m end.
Proof. by destruct c. Qed.

Lemma commit_extend (st : segState) :
  commit (SegState (sections st) (currentSection st) (currentContent st ++ [])) = commit st.
Proof. rewrite app_nil_r. by destruct st. Qed.

(** The binding of [name] after the lines: what the last heading of [name]
    with content commits, and without one what the state had before. *)
Lemma segment_spec (name : string) (lines : list jsstring) : forall st,
  commit (foldl segStep st lines) !! name =
    match committedAfter name lines with
    | Some c => Some (trim (join nl c))
    | None =>
        commit (SegState (sections st) (currentSection st)
                  (currentContent st ++ bodyOf lines)) !! name
    end.
Proof.
  induction lines as [|line rest IH]; intros st.
  - cbn [foldl committedAfter bodyOf]. by rewrite commit_extend.
  - cbn [foldl committedAfter bodyOf]. rewrite IH.
    destruct (headingOf (trim line)) as [h|] eqn:Hh.
    + assert (segStep st line = SegState (commit st) h []) as ->
        by (unfold segStep; by rewrite Hh).
      cbn [sections currentSection currentContent app].
      destruct (committedAfter name rest) as [c|]; [done|].
      rewrite commit_extend.
      case_bool_decide as Hn.
      * injection Hn as ->. rewrite (commit_state (commit st)).
        destruct (bodyOf rest) as [|l ls]; [done|]. by rewrite lookup_insert_eq.
      * apply commit_other. cbn [currentSection]. intros ->. by apply Hn.
    + assert (segStep st line
              = SegState (sections st) (currentSection st) (currentContent st ++ [line])) as ->
        by (unfold segStep; by rewrite Hh).
      cbn [sections currentSection currentContent].
      rewrite <- app_assoc. cbn [app].
      destruct (committedAfter name rest) as [c|]; [done|].
      by rewrite bool_decide_eq_false_2.
Qed.

Lemma contentAfterLast_committed (name : string) (lines : list jsstring) (c : list jsstring) :
  contentAfterLast name lines = Some c -> c <> [] -> committedAfter name lines = Some c.
Proof.
  induction lines as [|line rest IH]; intros Hc Hne; [done|].
  cbn [contentAfterLast committedAfter] in *.
  destruct (contentAfterLast name rest) as [c'|] eqn:Hrest.
  - injection Hc as ->. by rewrite IH.
  - case_bool_decide as Hh; [|done]. injection Hc as <-.
    assert (committedAfter name rest = None) as ->.
    { clear -Hrest. induction rest as [|l rest IH]; [done|].
      cbn [contentAfterLast committedAfter] in *.
      destruct (contentAfterLast name rest); [done|].
      rewrite IH by done. by case_bool_decide. }
    by destruct (bodyOf rest).
Qed.

(** A heading with no line of content after it can be struck out. *)
Lemma segment_empty_heading (pre post : list jsstring) (h : jsstring) :
  is_Some (headingOf (trim h)) -> bodyOf post = [] ->
  extractSectionsLines (pre ++ h :: post) = extractSectionsLines (pre ++ post).
Proof.
  intros [name Hh] Hpost. unfold extractSectionsLines.
  rewrite !foldl_app. cbn [foldl]. generalize (foldl segStep (SegState ∅ "preamble" []) pre).
  intros st. unfold segStep at 2. rewrite Hh.
  destruct post as [|l post]; [done|].
  cbn [bodyOf] in Hpost. cbn [foldl]. unfold segStep at 2 4.
  destruct (headingOf (trim l)) as [name'|]; [|done].
  reflexivity.
Qed.

(** C7, as the code has it. A line is a heading of a label when, trimmed, it
    is shorter than 60 code units and the label is the first header, in
    declaration order, whose pattern it matches. A label is bound to the
    content that follows the last heading of that label which has a line of
    content after it, before the next heading: earlier contents are
    overwritten, not concatenated. A heading with no line of content after it
    commits nothing: it can be struck out of the text, so that an earlier
    binding of its label stays, and a label none of whose headings has content
    is not bound. The lines before the first heading are bound to the
    preamble. *)
Theorem extractSections_last_wins (text : jsstring) :
  (forall name c,
     contentAfterLast name (splitOn 10 text) = Some c -> c <> [] ->
     extractSections text !! name = Some (trim (join nl c)))
  /\ (forall name,
        name <> "preamble"%string ->
        extractSections text !! name =
          (fun c => trim (join nl c)) <$> committedAfter name (splitOn 10 text))
  /\ (forall pre h post,
        splitOn 10 text = pre ++ h :: post ->
        is_Some (headingOf (trim h)) -> bodyOf post = [] ->
        extractSections text = extractSectionsLines (pre ++ post))
  /\ extractSections text !! "preamble"%string =
       match bodyOf (splitOn 10 text) with
       | [] => None
       | c => Some (trim (join nl c))
       end.
Proof.
  unfold extractSections, extractSectionsLines.
  split; [intros name c Hc Hne; by apply segment_last|].
  split.
  { intros name Hname. rewrite segment_spec.
    destruct (committedAfter name (splitOn 10 text)) as [c|]; [done|].
    cbn [fmap option_fmap option_map sections currentSection currentContent app].
    rewrite commit_other by (cbn [currentSection]; congruence). done. }
  split.
  { intros pre h post -> Hh Hpost. by apply segment_empty_heading. }
  rewrite segment_spec, committedAfter_preamble.
  cbn [sections currentSection currentContent app]. rewrite commit_state.
  destruct (bodyOf (splitOn 10 text)) as [|l ls]; [done|]. by rewrite lookup_insert_eq.
Qed.

(** ** The text normalizer *)

(** The stages of the normalizer written out on the code units. *)

Lemma replaceFrom_skip ic r by_ : forall n s pv,
  exists pv', replaceFrom ic r by_ pv s n = replaceFrom ic r by_ pv' (drop n s) 0.
Proof.
  induction n as [|n IH]; intros s pv.
  - exists pv. by rewrite drop_0.
  - destruct s as [|x t]; [by exists pv|].
    cbn [replaceFrom drop]. apply IH.
Qed.

Lemma replace_tabs by_ : forall s pv,
  (0 < length by_)%nat ->
  replaceFrom false (Chr 9) by_ pv s 0 = tabsTo by_ s.
Proof.
  intros s pv Hb. revert pv. induction s as [|x t IH]; intros pv; [done|].
  cbn [replaceFrom]. unfold matchAt. cbn [matcher rest]. unfold advance. cbn [rest prev cap1].
  unfold tabsTo. cbn [mbind list_bind]. fold (tabsTo by_ t).
  destruct (x =? 9).
  - cbn [length rest]. replace (S (length t) - length t)%nat with 1%nat by lia.
    by rewrite IH.
  - cbn. by rewrite IH.
Qed.

Lemma matchAt_crlf pv s :
  matchAt false (lit [13; 10]) pv s =
    match s with
    | x :: y :: _ => if (x =? 13) && (y =? 10) then Some (2%nat, None) else None
    | _ => None
    end.
Proof.
  unfold matchAt. cbn [lit matcher rest]. unfold advance. cbn [matcher rest prev cap1].
  destruct s as [|x [|y t]].
  - done.
  - by destruct (x =? 13).
  - destruct (x =? 13); [|done]. destruct (y =? 10); [|done].
    cbn [andb rest length]. do 2 f_equal. lia.
Qed.

Lemma replace_crlf : forall s pv,
  replaceFrom false (lit [13; 10]) nl pv s 0 = crlfToLf s.
Proof.
  intros s. remember (length s) as n eqn:Hn. revert s Hn.
  induction n as [n IH] using lt_wf_ind. intros s Hn pv.
  destruct s as [|x t]; [done|].
  change (replaceFrom false (lit [13; 10]) nl pv (x :: t) 0) with
    (match matchAt false (lit [13; 10]) pv (x :: t) with
     | Some (S n, _) => nl ++ replaceFrom false (lit [13; 10]) nl (Some x) t n
     | _ => x :: replaceFrom false (lit [13; 10]) nl (Some x) t 0
     end).
  rewrite matchAt_crlf.
  destruct t as [|y t'].
  - done.
  - cbn [crlfToLf]. destruct ((x =? 13) && (y =? 10)).
    + change (replaceFrom false (lit [13; 10]) nl (Some x) (y :: t') 1) with
        (replaceFrom false (lit [13; 10]) nl (Some y) t' 0).
      unfold nl at 1. cbn [app]. f_equal.
      apply (IH (length t')); [subst; simpl; lia | done].
    + f_equal. apply (IH (length (y :: t'))); [subst; simpl; lia | done].
Qed.

Lemma star_greedy (c : Z) cp : forall s pv,
  exists pv', star (Z.eqb c) pv s cp Some = Some (MState pv' (drop (lead c s) s) cp).
Proof.
  induction s as [|x t IH]; intros pv.
  - by exists pv.
  - cbn [star lead]. rewrite (Z.eqb_sym c x). destruct (x =? c).
    + destruct (IH (Some x)) as [pv' ->]. by exists pv'.
    + by exists pv.
Qed.

Lemma lead_length c s : (lead c s <= length s)%nat.
Proof.
  induction s as [|x t IH]; [done|]. cbn. destruct (x =? c); simpl; lia.
Qed.

Lemma length_drop_lead c (s : jsstring) :
  (length s - length (drop (lead c s) s) = lead c s)%nat.
Proof. rewrite length_drop. pose proof (lead_length c s). lia. Qed.

(** [c{3,}] and [c{4,}] match the whole run of [c] at the position, when it is
    long enough. *)
Lemma matchAt_run3 (c : Z) pv s :
  matchAt false (Cat (rep 3 (Chr c)) (Star (Z.eqb c))) pv s =
    if (2 <? lead c s)%nat then Some (lead c s, None) else None.
Proof.
  unfold matchAt. cbn [rep matcher rest]. unfold advance. cbn [matcher rest prev cap1].
  destruct s as [|x1 [|x2 [|x3 t]]]; cbn [lead].
  - done.
  - by destruct (x1 =? c).
  - destruct (x1 =? c); [|done]. by destruct (x2 =? c).
  - destruct (x1 =? c); [|done]. destruct (x2 =? c); [|done].
    destruct (x3 =? c); [|done].
    destruct (star_greedy c None t (Some x3)) as [pv' ->]. cbn [rest cap1].
    replace (2 <? S (S (S (lead c t))))%nat with true
      by (symmetry; apply Nat.ltb_lt; lia).
    do 2 f_equal. pose proof (length_drop_lead c t) as Hl.
    pose proof (length_drop t (lead c t)) as Hd. cbn [length]. lia.
Qed.

Lemma matchAt_run4 (c : Z) pv s :
  matchAt false (Cat (rep 4 (Chr c)) (Star (Z.eqb c))) pv s =
    if (3 <? lead c s)%nat then Some (lead c s, None) else None.
Proof.
  unfold matchAt. cbn [rep matcher rest]. unfold advance. cbn [matcher rest prev cap1].
  destruct s as [|x1 [|x2 [|x3 [|x4 t]]]]; cbn [lead].
  - done.
  - by destruct (x1 =? c).
  - destruct (x1 =? c); [|done]. by destruct (x2 =? c).
  - destruct (x1 =? c); [|done]. destruct (x2 =? c); [|done]. by destruct (x3 =? c).
  - destruct (x1 =? c); [|done]. destruct (x2 =? c); [|done].
    destruct (x3 =? c); [|done]. destruct (x4 =? c); [|done].
    destruct (star_greedy c None t (Some x4)) as [pv' ->]. cbn [rest cap1].
    replace (3 <? S (S (S (S (lead c t)))))%nat with true
      by (symmetry; apply Nat.ltb_lt; lia).
    do 2 f_equal. pose proof (length_drop_lead c t) as Hl.
    pose proof (length_drop t (lead c t)) as Hd. cbn [length]. lia.
Qed.

Lemma capRun_lead (c : Z) (k : nat) : forall s seen,
  capRun c k seen s =
    replicate (Nat.min (lead c s) (k - seen)) c ++ capRun c k 0 (drop (lead c s) s).
Proof.
  induction s as [|x t IH]; intros seen.
  - done.
  - cbn [capRun lead]. destruct (Z.eqb_spec x c) as [->|Hne].
    + cbn [drop]. destruct (Nat.ltb_spec seen k) as [Hlt|Hge].
      * rewrite IH. replace (k - seen)%nat with (S (k - S seen)) by lia.
        rewrite <- Nat.succ_min_distr. done.
      * rewrite IH. replace (k - seen)%nat with 0%nat by lia.
        replace (k - S seen)%nat with 0%nat by lia.
        by rewrite !Nat.min_0_r.
    + cbn [drop Nat.min replicate app capRun].
      destruct (Z.eqb_spec x c); [done|]. done.
Qed.

(** A global replace of the runs longer than [k] by [k] copies cuts the runs
    down to [k]. *)
Lemma collapse_runs (c : Z) (k : nat) (r : regex) :
  (forall pv s, matchAt false r pv s =
                  if (k <? lead c s)%nat then Some (lead c s, None) else None) ->
  forall s pv, replaceFrom false r (replicate k c) pv s 0 = capRuns c k s.
Proof.
  intros Hr s. unfold capRuns. remember (length s) as n eqn:Hn. revert s Hn.
  induction n as [n IH] using lt_wf_ind. intros s Hn pv.
  destruct s as [|x t]; [done|].
  cbn [replaceFrom]. rewrite Hr.
  destruct (Nat.ltb_spec k (lead c (x :: t))) as [Hlong|Hshort].
  - destruct (lead c (x :: t)) as [|m] eqn:Hlead; [lia|].
    destruct (replaceFrom_skip false r (replicate k c) m t (Some x)) as [pv' ->].
    rewrite (capRun_lead c k (x :: t) 0). rewrite Hlead.
    replace (Nat.min (S m) (k - 0)) with k by lia. f_equal.
    cbn [drop]. apply (IH (length (drop m t))); [|done].
    rewrite length_drop. subst n. simpl. lia.
  - destruct (lead c (x :: t)) as [|m] eqn:Hlead.
    + cbn [capRun]. cbn [lead] in Hlead. destruct (x =? c); [done|].
      f_equal. apply (IH (length t)); [subst; simpl; lia | done].
    + cbn [lead] in Hlead. cbn [capRun]. destruct (x =? c); [|done].
      injection Hlead as Hlead.
      replace (0 <? k)%nat with true by (symmetry; apply Nat.ltb_lt; lia).
      f_equal. rewrite (IH (length t)) with (s := t); [|subst; simpl; lia | done].
      rewrite (capRun_lead c k t 0), (capRun_lead c k t 1).
      do 2 f_equal. lia.
Qed.

(** C3, as the code has it. For every input the normalizer turns every CR LF
    pair into LF, then every tab into one space, then cuts every run of three
    or more spaces down to two and every run of four or more newlines down to
    three, and trims white space at both ends; it returns for every string. *)
Theorem cleanText_stages (text : jsstring) :
  cleanText text =
    trim (capRuns 10 3 (capRuns 32 2 (tabsTo (str " ") (crlfToLf text)))).
Proof.
  unfold cleanText, replaceAll.
  rewrite replace_crlf.
  rewrite replace_tabs by (simpl; lia).
  rewrite (collapse_runs 32 2 _ (matchAt_run3 32)).
  rewrite (collapse_runs 10 3 _ (matchAt_run4 10)).
  reflexivity.
Qed.

(** C3 fails as stated: a tab between two letters becomes one space, where the
    specification has two. *)
Lemma cleanText_tab_counterexample :
  cleanText (str "a" ++ [9] ++ str "b") = str "a b"
  /\ specCleanText (str "a" ++ [9] ++ str "b") = str "a  b"
  /\ cleanText (str "a" ++ [9] ++ str "b") <> specCleanText (str "a" ++ [9] ++ str "b").
Proof. split; [|split]; vm_compute; congruence. Qed.

(** ** Totality of the analyzer *)

Lemma jsDiv_nonzero (a b : Z) : b <> 0 -> exists q, jsDiv a b = Some q.
Proof.
  intros Hb. unfold jsDiv. destruct (Z.eqb_spec b 0); [done|]. by eexists.
Qed.

Lemma proofOfImpact_total (f : Features) : exists s, proofOfImpact f = Some s.
Proof.
  unfold proofOfImpact. cbv zeta.
  destruct (Z.ltb_spec 0 (len (f_bullets f))) as [Hpos|_].
  - destruct (jsDiv_nonzero (f_metricCount f) (len (f_bullets f))) as [q ->]; [lia|].
    ostep. by eexists.
  - ostep. by eexists.
Qed.

Lemma clarity_total (f : Features) : exists s, clarity f = Some s.
Proof.
  unfold clarity, buzzwordDensity. cbv zeta.
  destruct (Z.ltb_spec 0 (f_wordCount f)) as [Hpos|_].
  - destruct (jsDiv_nonzero (len (f_buzz f)) (f_wordCount f)) as [q ->]; [lia|].
    ostep. by eexists.
  - ostep. by eexists.
Qed.

Lemma breakdownOf_total (f : Features) :
  exists b, breakdownOf f = Some b /\ length b = 6%nat.
Proof.
  unfold breakdownOf. cbv zeta.
  destruct (proofOfImpact_total f) as [p ->]. ostep.
  destruct (clarity_total f) as [c ->]. ostep.
  eexists. split; reflexivity.
Qed.

Lemma weightedAvg_total (scores : list float) :
  length scores = 6%nat -> exists w, weightedAvg scores = Some w.
Proof.
  intros Hlen.
  destruct scores as [|s1 [|s2 [|s3 [|s4 [|s5 [|s6 [|]]]]]]]; try discriminate Hlen.
  eexists. reflexivity.
Qed.

Lemma redFlagsOf_total (f : Features) : exists flags, redFlagsOf f = Some flags.
Proof.
  unfold redFlagsOf. cbv zeta.
  destruct (Z.ltb_spec 0 (len (f_vague f))) as [Hpos|_].
  - destruct (lookup_lt_is_Some_2 (f_vague f) 0%nat) as [v ->]; [unfold len in Hpos; lia|].
    ostep. by eexists.
  - ostep. by eexists.
Qed.

Lemma pushIf_length c s xs : (length xs <= length (pushIf c s xs))%nat.
Proof. unfold pushIf. destruct c; [rewrite length_app; simpl|]; lia. Qed.

Lemma strengthsOf_nonempty (f : Features) : strengthsOf f <> [].
Proof.
  unfold strengthsOf. cbv zeta.
  match goal with |- pushIf (len ?s =? 0) _ _ <> [] => generalize s end.
  intros s. destruct s as [|x s]; [done|].
  unfold pushIf. destruct (len (x :: s) =? 0); [|done].
  by destruct s.
Qed.

Lemma summaryOf_total lc (strengths redFlags : list jsstring) :
  exists s, summaryOf lc strengths redFlags = Some s.
Proof.
  unfold summaryOf, lowerAt. cbv zeta.
  destruct (Nat.ltb_spec 0 (length redFlags)) as [Hr|_].
  - destruct (lookup_lt_is_Some_2 redFlags 0%nat Hr) as [r0 ->].
    cbn [fmap option_fmap option_map]. ostep.
    destruct (Nat.ltb_spec 1 (length strengths)) as [Hs|_].
    + destruct (lookup_lt_is_Some_2 strengths 1%nat Hs) as [s1 ->].
      cbn [fmap option_fmap option_map]. ostep. by eexists.
    + ostep. by eexists.
  - ostep.
    destruct (Nat.ltb_spec 1 (length strengths)) as [Hs|_].
    + destruct (lookup_lt_is_Some_2 strengths 1%nat Hs) as [s1 ->].
      cbn [fmap option_fmap option_map]. ostep. by eexists.
    + ostep. by eexists.
Qed.

(** [analyzeResume] returns for every text, with every field in place. *)
Lemma analyzeResume_total lc (text : jsstring) :
  exists a,
    analyzeResume lc text = Some a
    /\ 1 <= score a <= 10
    /\ label a ∈ riskLabels
    /\ length (breakdown a) = 6%nat
    /\ strengths a <> []
    /\ length (disclaimers a) = 3%nat
    /\ detected a =
         let f := extractFeatures lc text in
         mkDetected (f_wordCount f) (len (f_bullets f)) (f_metricCount f) (f_linkCount f)
           (f_hasProjects f) (f_hasExperience f) (f_hasSkills f) (f_hasEducation f).
Proof.
  unfold analyzeResume. cbv zeta.
  generalize (extractFeatures lc text). intros f.
  destruct (breakdownOf_total f) as (b & -> & Hb). ostep.
  destruct (weightedAvg_total (b_score <$> b)) as [w ->]; [by rewrite length_fmap|]. ostep.
  destruct (redFlagsOf_total f) as [flags ->]. ostep.
  destruct (summaryOf_total lc (strengthsOf f) flags) as [s ->]. ostep.
  eexists. split; [reflexivity|].
  cbn [score label breakdown strengths disclaimers detected].
  split; [unfold riskScore; lia|].
  split.
  { unfold labelOf, riskLabels.
    destruct (11 - riskScore w <=? 3); [by left|].
    destruct (11 - riskScore w <=? 6); [right; by left|right; right; by left]. }
  split; [by rewrite length_fmap|].
  split; [apply strengthsOf_nonempty|].
  split; reflexivity.
Qed.

(** ** White space only *)

Lemma dropSpaces_blank (s : jsstring) : blank s -> dropSpaces s = [].
Proof.
  induction 1 as [|c s Hc Hs IH]; [done|]. cbn [dropSpaces]. by rewrite Hc.
Qed.

Lemma trim_blank (s : jsstring) : blank s -> trim s = [].
Proof.
  intros H. unfold trim, trimStart, trimEnd. by rewrite (dropSpaces_blank s H).
Qed.

Lemma replaceFrom_blank ic r by_ : forall s pv skip,
  blank by_ -> blank s -> blank (replaceFrom ic r by_ pv s skip).
Proof.
  induction s as [|x t IH]; intros pv skip Hby Hs; [constructor|].
  apply Forall_cons in Hs as [Hx Ht]. cbn [replaceFrom].
  destruct skip as [|n]; [|by apply IH].
  destruct (matchAt ic r pv (x :: t)) as [[[|n] c]|].
  - constructor; [done|by apply IH].
  - apply Forall_app. split; [done|by apply IH].
  - constructor; [done|by apply IH].
Qed.

Lemma cleanText_blank (text : jsstring) : blank text -> cleanText text = [].
Proof.
  intros H. unfold cleanText, replaceAll. apply trim_blank.
  repeat (apply replaceFrom_blank; [by repeat constructor|]). done.
Qed.

Lemma analyzeResume_blank lc (text : jsstring) :
  blank text ->
  exists a, analyzeResume lc text = Some a
            /\ detected a = mkDetected 0 0 0 0 false false false false.
Proof.
  intros Hb. destruct (analyzeResume_total lc text) as (a & Ha & _ & _ & _ & _ & _ & Hd).
  exists a. split; [done|]. rewrite Hd. cbv zeta.
  unfold extractFeatures. rewrite (cleanText_blank text Hb). reflexivity.
Qed.

(** ** Totality of the improver *)

Lemma rewriteBullet_total lc tech (i : nat) (before : jsstring) :
  is_Some (rewriteBullet lc tech i before).
Proof.
  unfold rewriteBullet.
  destruct (jsRem_pos (Z.of_nat i) (len rewriteVerbs)) as (j & -> & Hj); [lia|done|].
  ostep.
  destruct (lookup_lt_is_Some_2 rewriteVerbs (Z.to_nat j)) as [v ->].
  { change (len rewriteVerbs) with 6 in Hj. change (length rewriteVerbs) with 6%nat. lia. }
  ostep. by eexists.
Qed.

Lemma generateBulletRewrites_total lc (bullets : list jsstring) (tech : list string) :
  exists rs, generateBulletRewrites lc bullets tech = Some rs /\ (length rs <= 3)%nat.
Proof.
  unfold generateBulletRewrites. cbv zeta.
  match goal with |- context [imap _ ?l] => set (toRewrite := l) end.
  assert (length toRewrite <= 3)%nat as Hlen.
  { subst toRewrite.
    match goal with |- context [take 3 ?c] => generalize c end. intros cands.
    pose proof (length_take_le cands 3) as H1.
    destruct ((length (take 3 cands) =? 0)%nat && (0 <? length bullets)%nat) eqn:Hc.
    - apply andb_true_iff in Hc as [Hc _]. apply Nat.eqb_eq in Hc.
      rewrite length_app, Hc, length_take. lia.
    - rewrite length_take. lia. }
  clearbody toRewrite.
  assert (is_Some (mapM id (imap (rewriteBullet lc tech) toRewrite))) as [rs Hrs].
  { apply mapM_is_Some. apply Forall_forall. intros o Ho.
    apply elem_of_lookup_imap in Ho as (i & b & -> & _). apply rewriteBullet_total. }
  exists rs. split; [done|].
  apply length_mapM in Hrs. rewrite length_imap in Hrs. lia.
Qed.

Lemma padFixes_length (n : nat) : forall fixes,
  (Nat.min 3 (length fixes + n) <= length (padFixes n fixes))%nat.
Proof.
  induction n as [|n IH]; intros fixes; cbn [padFixes]; [lia|].
  destruct (Nat.ltb_spec (length fixes) 3); [|lia].
  etrans; [|apply IH]. rewrite length_app. cbn [length]. lia.
Qed.

Lemma priorityFixesOf_total lc (text : jsstring) :
  exists fixes, priorityFixesOf lc text = Some fixes /\ (3 <= length fixes)%nat.
Proof.
  unfold priorityFixesOf. cbv zeta.
  set (vague := detectVaguePhrases lc text).
  assert (forall p : list jsstring, (3 <= length (padFixes 3 p))%nat) as Hpad.
  { intros p. pose proof (padFixes_length 3 p). lia. }
  destruct (Z.ltb_spec 0 (len vague)) as [Hpos|_].
  - destruct (lookup_lt_is_Some_2 vague 0%nat) as [v ->]; [unfold len in Hpos; lia|].
    ostep. eexists. split; [reflexivity|apply Hpad].
  - ostep. eexists. split; [reflexivity|apply Hpad].
Qed.

Lemma atsTipsOf_length (text : jsstring) : (4 <= length (atsTipsOf text))%nat.
Proof.
  unfold atsTipsOf. cbv zeta.
  etrans; [|apply pushIf_length]. etrans; [|apply pushIf_length]. simpl. lia.
Qed.

Lemma generateImprovements_total lc (text : jsstring) :
  exists i,
    generateImprovements lc text = Some i
    /\ (3 <= length (priorityFixes i) <= 7)%nat
    /\ (length (rewrittenBullets i) <= 3)%nat
    /\ (4 <= length (atsTips i))%nat.
Proof.
  unfold generateImprovements. cbv zeta.
  destruct (priorityFixesOf_total lc text) as (fixes & -> & Hfixes). ostep.
  destruct (generateBulletRewrites_total lc (extractBullets text) (detectTechStack lc text))
    as (rs & -> & Hrs).
  ostep. eexists. split; [reflexivity|].
  cbn [priorityFixes rewrittenBullets atsTips].
  split.
  { rewrite length_take. lia. }
  split; [done|]. apply atsTipsOf_length.
Qed.

(** [generateRoast] returns for every text and level, with every field in
    place. *)
Lemma generateRoast_total lc (text : jsstring) (level : RoastLevel) :
  exists r,
    generateRoast lc text level = Some r
    /\ title r ∈ titles level
    /\ (2 <= length (roastLines r))%nat
    /\ Forall (fun line => line <> []) (roastLines r)
    /\ bestLine r ∈ roastLines r
    /\ length (redemption r) = 3%nat
    /\ length (boundaries r) = 3%nat.
Proof.
  destruct (generateRoast_run lc text level)
    as (sht & lines1 & lines2 & lines3 & lines4 & m & ttl & red & H).
  cbv zeta in H.
  destruct H as (_ & _ & Hl1 & Hne4 & Hd & Hm & Hmr & Httl & Hred & Hrun).
  set (all := lines1 ++ lines2 ++ lines3 ++ lines4) in *.
  assert (2 <= length all)%nat as Hn.
  { unfold all. rewrite !length_app.
    destruct lines4; [exfalso; apply Hne4; reflexivity|]. simpl. lia. }
  assert (Forall (fun line => line <> []) all) as Hlines.
  { eapply Forall_impl; [exact Hd|]. intros l. apply drawn_nonempty. reflexivity. }
  assert (bestOf all m ∈ all) as Hbest.
  { assert (Z.to_nat (m + 1) < length all)%nat as Hidx.
    { clear -Hn Hmr. unfold len in *. lia. }
    destruct (lookup_lt_is_Some_2 all _ Hidx) as [best Hb].
    unfold bestOf. rewrite Hb.
    pose proof (proj1 (Forall_forall _ _) Hlines best (list_elem_of_lookup_2 _ _ _ Hb)) as Hne.
    destruct best; [exfalso; apply Hne; reflexivity|].
    eapply list_elem_of_lookup_2. exact Hb. }
  exists (mkRoast ttl all (bestOf all m) (take 3 red) roastBoundaries).
  split; [exact (f_equal fst Hrun)|].
  split; [exact Httl|]. split; [exact Hn|]. split; [exact Hlines|]. split; [exact Hbest|].
  split; [|reflexivity].
  change (length (take 3 red) = 3%nat). rewrite length_take, Hred. reflexivity.
Qed.

Lemma analyzeResume_reads lc (text : jsstring) (a : AnalyzeResponse) :
  analyzeResume lc text = Some a ->
  summaryOf lc (strengths a) (redFlags a) = Some (summary a).
Proof.
  unfold analyzeResume. cbv zeta.
  generalize (extractFeatures lc text). intros f.
  destruct (breakdownOf f) as [b|]; [|done]. ostep.
  destruct (weightedAvg (b_score <$> b)) as [w|]; [|done]. ostep.
  destruct (redFlagsOf f) as [flags|]; [|done]. ostep.
  destruct (summaryOf lc (strengthsOf f) flags) as [sm|] eqn:Hs; [|done]. ostep.
  intros [= <-]. exact Hs.
Qed.

Lemma generateRoast_reads lc (text : jsstring) (level : RoastLevel) (r : RoastResponse) :
  generateRoast lc text level = Some r ->
  exists m,
    jsRem (simpleHash text) (Z.max 1 (Z.min (len (roastLines r) - 2) 8)) = Some m
    /\ roastLines r !! Z.to_nat (m + 1) = Some (bestLine r).
Proof.
  intros Hr.
  destruct (generateRoast_run lc text level)
    as (sht & lines1 & lines2 & lines3 & lines4 & m & ttl & red & H).
  cbv zeta in H.
  destruct H as (_ & _ & Hl1 & Hne4 & Hd & Hm & Hmr & _ & _ & Hrun).
  set (all := lines1 ++ lines2 ++ lines3 ++ lines4) in *.
  assert (Some r = Some (mkRoast ttl all (bestOf all m) (take 3 red) roastBoundaries)) as Heq
    by (rewrite <- Hr; exact (f_equal fst Hrun)).
  clear Hrun Hr. injection Heq as ->.
  change (exists m0, jsRem (simpleHash text) (Z.max 1 (Z.min (len all - 2) 8)) = Some m0
                     /\ all !! Z.to_nat (m0 + 1) = Some (bestOf all m)).
  exists m. split; [exact Hm|].
  assert (2 <= len all) as Hn.
  { unfold len, all. rewrite !length_app.
    destruct lines4; [exfalso; apply Hne4; reflexivity|]. cbn [length]. lia. }
  assert (Z.to_nat (m + 1) < length all)%nat as Hidx.
  { clear -Hn Hmr. unfold len in *. lia. }
  destruct (lookup_lt_is_Some_2 all _ Hidx) as [best Hbest].
  rewrite Hbest. f_equal. unfold bestOf. rewrite Hbest.
  assert (best <> []) as Hne.
  { eapply drawn_nonempty; [reflexivity|].
    eapply (proj1 (Forall_forall _ _) Hd). eapply list_elem_of_lookup_2. exact Hbest. }
  destruct best; [exfalso; apply Hne; reflexivity|reflexivity].
Qed.

(** C8, as the code has it. For every string, the empty and the blank ones
    included, the three entry points return: no exception, no division by
    zero, every field of the result in place; a blank text is analyzed with
    zero counts. Every read of an array whose value is used is inside the
    array. Of the reads that sit under [||] with a fallback, [strengths[0]]
    and [roastLines[bestIdx]] are inside their arrays as well, so that
    [roastLines[0]] is never reached; the read [redFlags[0]] of the summary is
    the one that can fall outside, on a resume that raises no red flag. *)
Theorem entry_points_total lc (text : jsstring) :
  (exists a,
     analyzeResume lc text = Some a
     /\ 1 <= score a <= 10 /\ label a ∈ riskLabels
     /\ length (breakdown a) = 6%nat /\ strengths a <> []
     /\ length (disclaimers a) = 3%nat
     /\ summaryOf lc (strengths a) (redFlags a) = Some (summary a)
     /\ is_Some (strengths a !! 0%nat)
     /\ (is_Some (redFlags a !! 0%nat) <-> redFlags a <> []))
  /\ (forall level, exists r,
        generateRoast lc text level = Some r
        /\ title r ∈ titles level /\ (2 <= length (roastLines r))%nat
        /\ Forall (fun line => line <> []) (roastLines r)
        /\ bestLine r ∈ roastLines r
        /\ length (redemption r) = 3%nat /\ length (boundaries r) = 3%nat
        /\ exists m,
             jsRem (simpleHash text) (Z.max 1 (Z.min (len (roastLines r) - 2) 8)) = Some m
             /\ roastLines r !! Z.to_nat (m + 1) = Some (bestLine r))
  /\ (exists i,
        generateImprovements lc text = Some i
        /\ (3 <= length (priorityFixes i) <= 7)%nat
        /\ (length (rewrittenBullets i) <= 3)%nat
        /\ (4 <= length (atsTips i))%nat)
  /\ (blank text ->
      exists a, analyzeResume lc text = Some a
                /\ detected a = mkDetected 0 0 0 0 false false false false).
Proof.
  split.
  { destruct (analyzeResume_total lc text) as (a & Ha & Hs & Hl & Hb & Hst & Hd & _).
    exists a. split; [exact Ha|]. split; [exact Hs|]. split; [exact Hl|].
    split; [exact Hb|]. split; [exact Hst|]. split; [exact Hd|].
    split; [exact (analyzeResume_reads lc text a Ha)|].
    split; [destruct (strengths a); [by destruct Hst|by eexists]|].
    destruct (redFlags a) as [|flag flags].
    - split; [intros [x Hx]; discriminate Hx|intros H; by destruct H].
    - split; [intros _; discriminate|intros _; by eexists]. }
  split.
  { intros level.
    destruct (generateRoast_total lc text level) as (r & Hr & Ht & Hn & Hl & Hb & Hred & Hbd).
    exists r. split; [exact Hr|]. split; [exact Ht|]. split; [exact Hn|].
    split; [exact Hl|]. split; [exact Hb|]. split; [exact Hred|]. split; [exact Hbd|].
    exact (generateRoast_reads lc text level r Hr). }
  split; [apply generateImprovements_total|].
  apply analyzeResume_blank.
Qed.

(** ** Concrete resumes *)

(** C1. On the scenario text the analyzer reports the four red flags, but a
    final score of 8 with the label Low Risk, where the specification expects
    the High Risk band. *)
Theorem scenario_is_scored_low_risk :
  exists a,
    analyzeResume asciiLower scenarioText = Some a
    /\ score a = 8 /\ label a = str "Low Risk"
    /\ str "Zero quantified metrics - every bullet should have numbers" ∈ redFlags a
    /\ str "No projects or code portfolio visible" ∈ redFlags a
    /\ str "No dedicated skills section" ∈ redFlags a
    /\ str "Missing summary/profile section" ∈ redFlags a.
Proof.
  eexists. split; [vm_compute; reflexivity|].
  cbn [score label redFlags].
  split; [reflexivity|]. split; [reflexivity|].
  repeat split; by_computation.
Qed.

(** C5. Appending the metric bullet to the metrics-free scenario text lowers
    the reported Proof of Impact score from 80 to 40. *)
Theorem impact_score_drops_with_metric :
  exists a b,
    analyzeResume asciiLower scenarioText = Some a
    /\ metricCount (detected a) = 0
    /\ analyzeResume asciiLower (scenarioText ++ nl ++ metricBullet) = Some b
    /\ reportedImpact a = Some 80
    /\ reportedImpact b = Some 40.
Proof.
  eexists _, _. split; [vm_compute; reflexivity|].
  split; [reflexivity|]. split; [vm_compute; reflexivity|].
  split; reflexivity.
Qed.

(** C8 fails as stated: the resume raises no red flag, the summary reads
    [redFlags[0]] all the same, at index 0 of an empty array, and goes on with
    the fallback that [||] puts in the place of [undefined]. *)
Lemma redFlags_read_outside_counterexample :
  exists a,
    analyzeResume asciiLower tidyText = Some a
    /\ redFlags a = []
    /\ redFlags a !! 0%nat = None
    /\ summaryOf asciiLower (strengths a) (redFlags a) = Some (summary a)
    /\ includes (summary a) (str "held back by minor formatting issues") = true.
Proof.
  eexists. split; [vm_compute; reflexivity|].
  cbn [redFlags strengths summary]. repeat split; vm_compute; reflexivity.
Qed.

(** C6 fails as stated: with two roast lines there is no interior line, and
    the best line is the last line, not the first. *)
Lemma bestLine_last_counterexample :
  exists r,
    generateRoast asciiLower strongText light = Some r
    /\ length (roastLines r) = 2%nat
    /\ last (roastLines r) = Some (bestLine r)
    /\ head (roastLines r) <> Some (bestLine r).
Proof.
  eexists. split; [vm_compute; reflexivity|].
  cbn [roastLines bestLine]. split; [reflexivity|]. split; [reflexivity|].
  cbn [head]. intros H. injection H as H. discriminate H.
Qed.

(** C7 fails as stated: the second heading has no content, and the label stays
    bound to the content of the first. *)
Lemma extractSections_counterexample :
  contentAfterLast "experience" (splitOn 10 twiceText) = Some []
  /\ extractSections twiceText !! "experience"%string = Some (str "foo")
  /\ extractSections twiceText !! "experience"%string <> Some (trim (join nl [])).
Proof.
  split; [vm_compute; reflexivity|].
  assert (extractSections twiceText !! "experience"%string = Some (str "foo")) as H
    by (vm_compute; reflexivity).
  split; [exact H|]. rewrite H. intros Heq. injection Heq as Heq. discriminate Heq.
Qed.

Lemma roast_has_no_metrics lc (text : jsstring) (level : RoastLevel) :
  metricCount3 text = 0 ->
  exists r t line,
    generateRoast lc text level = Some r
    /\ t ∈ TEMPLATES /\ category t = "no_metrics"%string
    /\ line ∈ lines t /\ line ∈ roastLines r.
Proof.
  intros Hmc.
  destruct (generateRoast_run lc text level)
    as (sht & lines1 & lines2 & lines3 & lines4 & m & ttl & red & H).
  cbv zeta in H.
  destruct H as (Hperm & Htl & Hl1 & _ & _ & _ & _ & _ & _ & Hrun).
  destruct (no_metrics_covered (buildContext lc text) (simpleHash text) sht lines1
              (lines1 ++ lines2) level Hmc Hperm (proj2 Hl1) Htl)
    as (t & l & HtT & Hc & Hl & Hin).
  exists (mkRoast ttl (lines1 ++ lines2 ++ lines3 ++ lines4)
            (bestOf (lines1 ++ lines2 ++ lines3 ++ lines4) m) (take 3 red) roastBoundaries), t, l.
  split; [exact (f_equal fst Hrun)|].
  split; [exact HtT|]. split; [exact Hc|]. split; [exact Hl|].
  change (l ∈ lines1 ++ lines2 ++ lines3 ++ lines4).
  rewrite app_assoc. apply elem_of_app. left. exact Hin.
Qed.

(** C4, as the code has it. A text without a match of the roaster's three
    metric patterns, a percentage [\d+%], a dollar sign before digits or commas
    [\$[\d,]+] and a multiplier [\d+x\b] in either case, and without an
    impact verb followed by a number, gets, at every level, a roast with a line
    of a template of the no_metrics category. *)
Theorem no_metrics_line_in_roast lc (text : jsstring) (level : RoastLevel) :
  matchCount false pctRe text = 0 ->
  matchCount false dollarRe text = 0 ->
  matchCount true timesRe text = 0 ->
  matchCount true impactPattern text = 0 ->
  exists r t line,
    generateRoast lc text level = Some r
    /\ t ∈ TEMPLATES /\ category t = "no_metrics"%string
    /\ line ∈ lines t /\ line ∈ roastLines r.
Proof.
  intros Hp Hd Ht _. apply roast_has_no_metrics. by apply metricCount3_zero.
Qed.

(** C4 fails as stated: the text holds no digit, hence no percentage, no
    dollar amount, no multiplier and no impact verb with a number; its dollar
    sign before a comma is a match of the roaster's dollar pattern all the
    same, the roaster counts one metric, and at no level does the roast have a
    line of a no_metrics template. *)
Lemma no_metrics_dollar_comma_counterexample :
  forallb (fun c => negb (isDigit c)) salaryText = true
  /\ matchCount false pctRe salaryText = 0
  /\ matchCount false specDollarRe salaryText = 0
  /\ matchCount true timesRe salaryText = 0
  /\ matchCount true impactPattern salaryText = 0
  /\ matchCount false dollarRe salaryText = 1
  /\ ctx_metricCount (buildContext asciiLower salaryText) = 1
  /\ Forall (fun level =>
               exists r, generateRoast asciiLower salaryText level = Some r
                         /\ noLineOf "no_metrics" (roastLines r) = true)
       [light; medium; spicy].
Proof.
  split; [vm_compute; reflexivity|]. split; [vm_compute; reflexivity|].
  split; [vm_compute; reflexivity|]. split; [vm_compute; reflexivity|].
  split; [vm_compute; reflexivity|]. split; [vm_compute; reflexivity|].
  split; [vm_compute; reflexivity|].
  repeat constructor; (eexists; split; [vm_compute; reflexivity|vm_compute; reflexivity]).
Qed.







(** ** Witnesses *)

Lemma no_metrics_line_in_roast_witness :
  exists r t line,
    generateRoast asciiLower durationText light = Some r
    /\ t ∈ TEMPLATES /\ category t = "no_metrics"%string
    /\ line ∈ lines t /\ line ∈ roastLines r.
Proof.
  apply (no_metrics_line_in_roast asciiLower durationText light); vm_compute; reflexivity.
Defined.

Lemma extractSections_last_wins_witness :
  committedAfter "skills" (splitOn 10 mixedHeadingText) = Some [str "foo"]
  /\ extractSections mixedHeadingText !! "skills"%string = Some (str "foo")
  /\ extractSections mixedHeadingText !! "experience"%string = Some (str "bar")
  /\ extractSections twiceText !! "experience"%string = Some (str "foo")
  /\ extractSections twiceFullText !! "experience"%string = Some (str "bar").
Proof.
  split; [vm_compute; reflexivity|].
  split.
  { rewrite (proj1 (proj2 (extractSections_last_wins mixedHeadingText)) "skills"%string)
      by discriminate.
    vm_compute. reflexivity. }
  split.
  { rewrite (proj1 (proj2 (extractSections_last_wins mixedHeadingText)) "experience"%string)
      by discriminate.
    vm_compute. reflexivity. }
  split.
  { rewrite (proj1 (proj2 (extractSections_last_wins twiceText)) "experience"%string)
      by discriminate.
    vm_compute. reflexivity. }
  rewrite (proj1 (extractSections_last_wins twiceFullText) "experience"%string [str "bar"]).
  - vm_compute. reflexivity.
  - vm_compute. reflexivity.
  - discriminate.
Defined.

Lemma bestLine_is_indexed_witness :
  exists r m,
    generateRoast asciiLower scenarioText light = Some r
    /\ 3 <= len (roastLines r)
    /\ m + 1 <= len (roastLines r) - 2
    /\ roastLines r !! Z.to_nat (m + 1) = Some (bestLine r).
Proof.
  destruct (bestLine_is_indexed asciiLower scenarioText light)
    as (r & m & Hr & _ & Hb & _ & _ & _ & Hint & _).
  exists r, m.
  assert (3 <= len (roastLines r)) as Hlen.
  { assert ((len ∘ roastLines) <$> generateRoast asciiLower scenarioText light = Some 8) as H
      by (vm_compute; reflexivity).
    rewrite Hr in H. cbn in H. injection H as ->. lia. }
  split; [exact Hr|]. split; [exact Hlen|]. split; [exact (Hint Hlen)|exact Hb].
Defined.

Lemma entry_points_total_witness :
  blank [32; 10; 9; 32]
  /\ exists a, analyzeResume asciiLower [32; 10; 9; 32] = Some a
               /\ detected a = mkDetected 0 0 0 0 false false false false.
Proof.
  assert (blank [32; 10; 9; 32]) as Hb by (repeat constructor).
  split; [exact Hb|].
  exact (proj2 (proj2 (proj2 (entry_points_total asciiLower [32; 10; 9; 32]))) Hb).
Defined.

(** * Further properties *)

(** ** The rate limiter *)

Lemma incr_pos n : 0 <= n -> 0 < incr n.
Proof. intros H. unfold incr. destruct (Z.ltb_spec n 9007199254740992); lia. Qed.

Lemma incr_quota n : 0 <= n -> (MAX_REQUESTS <? incr n) = negb (n + 1 <=? 20).
Proof.
  intros H. unfold incr, MAX_REQUESTS.
  destruct (Z.ltb_spec n 9007199254740992);
    destruct (Z.leb_spec (n + 1) 20); cbn [negb]; lia.
Qed.

Lemma rateLimit_fresh store req now :
  windowOpen store (keyOf req) now ->
  rateLimit store req now = (<[keyOf req := mkEntry 1 (now + WINDOW_MS)]> store, Next).
Proof.
  unfold windowOpen, rateLimit. intros H.
  destruct (store !! keyOf req) as [e|]; [|reflexivity].
  destruct (Z.ltb_spec (resetAt e) now); [reflexivity|lia].
Qed.

Lemma rateLimit_in_window store req now e :
  store !! keyOf req = Some e -> now <= resetAt e ->
  fst (rateLimit store req now) = <[keyOf req := mkEntry (incr (count e)) (resetAt e)]> store
  /\ passes (snd (rateLimit store req now)) = negb (MAX_REQUESTS <? incr (count e)).
Proof.
  unfold rateLimit. intros -> H.
  destruct (Z.ltb_spec (resetAt e) now); [lia|].
  cbn [fst snd count resetAt]. split; [reflexivity|].
  by destruct (MAX_REQUESTS <? incr (count e)).
Qed.

Lemma serveAll_cons store req now rest :
  serveAll store ((req, now) :: rest) =
    (fst (serveAll (fst (rateLimit store req now)) rest),
     snd (rateLimit store req now) :: snd (serveAll (fst (rateLimit store req now)) rest)).
Proof.
  cbn [serveAll]. destruct (rateLimit store req now) as [st v].
  cbn [fst snd]. by destruct (serveAll st rest).
Qed.

Lemma serveAll_cons_snd store req now rest :
  snd (serveAll store ((req, now) :: rest)) =
    snd (rateLimit store req now) :: snd (serveAll (fst (rateLimit store req now)) rest).
Proof. by rewrite serveAll_cons. Qed.

Lemma serveAll_cons_fst store req now rest :
  fst (serveAll store ((req, now) :: rest)) =
    fst (serveAll (fst (rateLimit store req now)) rest).
Proof. by rewrite serveAll_cons. Qed.

Lemma serveAll_in_window req : forall times store e,
  store !! keyOf req = Some e -> 0 <= count e ->
  Forall (fun t => t <= resetAt e) times ->
  forall i v, snd (serveAll store ((fun t => (req, t)) <$> times)) !! i = Some v ->
    passes v = bool_decide (count e + Z.of_nat i + 1 <= 20).
Proof.
  induction times as [|t times IH]; intros store e He Hc Hts i v Hv; [done|].
  rewrite fmap_cons, serveAll_cons_snd in Hv.
  apply Forall_cons in Hts as [Ht Hts].
  destruct (rateLimit_in_window store req t e He Ht) as [Hst Hp].
  destruct i as [|i].
  - assert (snd (rateLimit store req t) = v) as <- by exact (inj Some _ _ Hv).
    rewrite Hp, incr_quota, negb_involutive by done.
    destruct (Z.leb_spec (count e + 1) 20); [rewrite bool_decide_eq_true_2|rewrite bool_decide_eq_false_2]; lia.
  - change (snd (serveAll (fst (rateLimit store req t)) ((fun t => (req, t)) <$> times)) !! i = Some v) in Hv.
    rewrite Hst in Hv.
    assert (0 <= count (mkEntry (incr (count e)) (resetAt e))) as Hc'
      by (cbn [count]; pose proof (incr_pos _ Hc); lia).
    rewrite (IH _ (mkEntry (incr (count e)) (resetAt e)) (lookup_insert_eq _ _ _) Hc' Hts i v Hv).
    cbn [count]. unfold incr.
    destruct (Z.ltb_spec (count e) 9007199254740992).
    + apply bool_decide_ext. lia.
    + rewrite !bool_decide_eq_false_2; [done|lia|lia].
Qed.

(** X1. A client whose window opens at [t0] gets its first twenty requests
    through and every further one rejected, as long as the clock has not
    passed the end of the window. *)
Theorem rateLimit_quota (store : gmap jsstring Entry) (req : Request) (t0 : Z) (times : list Z) :
  windowOpen store (keyOf req) t0 ->
  Forall (fun t => t <= t0 + WINDOW_MS) times ->
  forall i v,
    snd (serveAll store ((fun t => (req, t)) <$> (t0 :: times))) !! i = Some v ->
    passes v = bool_decide (i < 20)%nat.
Proof.
  intros Hopen Hts i v Hv.
  rewrite fmap_cons, serveAll_cons_snd, (rateLimit_fresh _ _ _ Hopen) in Hv. cbn [fst snd] in Hv.
  cbn [lookup list_lookup] in Hv.
  destruct i as [|i]; [by injection Hv as <-|].
  rewrite (serveAll_in_window req times _ (mkEntry 1 (t0 + WINDOW_MS))
             (lookup_insert_eq _ _ _) ltac:(cbn; lia) Hts i v Hv).
  cbn [count]. apply bool_decide_ext. lia.
Qed.

Lemma rateLimit_other store req now key :
  key <> keyOf req -> fst (rateLimit store req now) !! key = store !! key.
Proof. intros H. unfold rateLimit. cbn [fst]. by rewrite lookup_insert_ne. Qed.

Lemma rateLimit_local st1 st2 req now :
  st1 !! keyOf req = st2 !! keyOf req ->
  snd (rateLimit st1 req now) = snd (rateLimit st2 req now)
  /\ fst (rateLimit st1 req now) !! keyOf req = fst (rateLimit st2 req now) !! keyOf req.
Proof.
  intros H. unfold rateLimit. rewrite H. cbn [fst snd].
  by rewrite !lookup_insert_eq.
Qed.

Lemma serveAll_length : forall reqs store, length (snd (serveAll store reqs)) = length reqs.
Proof.
  induction reqs as [|[req now] reqs IH]; intros store; [done|].
  rewrite serveAll_cons_snd. cbn [length]. by rewrite IH.
Qed.

Lemma serveAll_under key : forall reqs st1 st2,
  st1 !! key = st2 !! key ->
  verdictsUnder key reqs (snd (serveAll st1 reqs)) = snd (serveAll st2 (under key reqs)).
Proof.
  induction reqs as [|[req now] reqs IH]; intros st1 st2 H; [done|].
  rewrite serveAll_cons_snd. unfold verdictsUnder, under.
  cbn [zip zip_with List.filter fst snd].
  case_bool_decide as Hk.
  - subst key. destruct (rateLimit_local st1 st2 req now H) as [Hv Hst].
    rewrite serveAll_cons_snd. cbn [fmap list_fmap snd]. rewrite Hv. f_equal.
    by apply IH.
  - apply IH. rewrite rateLimit_other by done. exact H.
Qed.

(** X2. The keys are independent: in any run of requests, the verdicts given
    to the requests of one key are those the limiter gives when the requests
    of all the other keys are left out. *)
Theorem rateLimit_keys_independent (store : gmap jsstring Entry)
    (reqs : list (Request * Z)) (key : jsstring) :
  verdictsUnder key reqs (snd (serveAll store reqs)) = snd (serveAll store (under key reqs)).
Proof. by apply serveAll_under. Qed.

Lemma serveAll_app : forall reqs1 reqs2 store,
  serveAll store (reqs1 ++ reqs2) =
    (fst (serveAll (fst (serveAll store reqs1)) reqs2),
     snd (serveAll store reqs1) ++ snd (serveAll (fst (serveAll store reqs1)) reqs2)).
Proof.
  induction reqs1 as [|[req now] reqs1 IH]; intros reqs2 store.
  - cbn. by destruct (serveAll store reqs2).
  - rewrite <- app_comm_cons, !serveAll_cons, IH. cbn [fst snd]. done.
Qed.

Lemma serveAll_keeps_window req : forall times store e,
  store !! keyOf req = Some e ->
  Forall (fun t => t <= resetAt e) times ->
  exists e', fst (serveAll store ((fun t => (req, t)) <$> times)) !! keyOf req = Some e'
             /\ resetAt e' = resetAt e.
Proof.
  induction times as [|t times IH]; intros store e He Hts.
  - by exists e.
  - apply Forall_cons in Hts as [Ht Hts].
    rewrite fmap_cons, serveAll_cons_fst.
    destruct (rateLimit_in_window store req t e He Ht) as [Hst _]. rewrite Hst.
    apply (IH _ (mkEntry (incr (count e)) (resetAt e))); [by rewrite lookup_insert_eq|done].
Qed.

(** X3. Requests made during a window, rejected or not, never move its end:
    whatever was asked before, the first request after [resetAt] passes and
    opens a new window with a count of one. *)
Theorem rateLimit_lockout_ends (store : gmap jsstring Entry) (req : Request) (e : Entry)
    (times : list Z) (t' : Z) :
  store !! keyOf req = Some e ->
  Forall (fun t => t <= resetAt e) times ->
  resetAt e < t' ->
  let run := serveAll store ((fun t => (req, t)) <$> (times ++ [t'])) in
  (exists e', fst (serveAll store ((fun t => (req, t)) <$> times)) !! keyOf req = Some e'
              /\ resetAt e' = resetAt e)
  /\ last (snd run) = Some Next
  /\ fst run !! keyOf req = Some (mkEntry 1 (t' + WINDOW_MS)).
Proof.
  intros He Hts Ht'. cbv zeta.
  destruct (serveAll_keeps_window req times store e He Hts) as (e' & He' & Hr).
  split; [by exists e'|].
  rewrite fmap_app, serveAll_app. cbn [fst snd fmap list_fmap].
  rewrite serveAll_cons_snd, serveAll_cons_fst.
  rewrite rateLimit_fresh by (unfold windowOpen; rewrite He'; lia).
  cbn [serveAll].
  cbn [fst snd]. split; [by rewrite last_snoc|by rewrite lookup_insert_eq].
Qed.

(** ** The routes and the results page *)

Lemma dropSpaces_length (s : jsstring) : (length (dropSpaces s) <= length s)%nat.
Proof.
  induction s as [|c s IH]; [done|]. cbn [dropSpaces].
  destruct (isSpace c); cbn [length]; lia.
Qed.

Lemma trim_length (s : jsstring) : (length (trim s) <= length s)%nat.
Proof.
  unfold trim, trimEnd, trimStart. rewrite length_reverse.
  etrans; [apply dropSpaces_length|]. rewrite length_reverse. apply dropSpaces_length.
Qed.

Lemma zText_Some v text :
  zText v = Some text <-> v = VString text /\ 1 <= len text <= 20000.
Proof.
  unfold zText. destruct v as [|s|]; try (split; [done|intros [? _]; done]).
  destruct (Z.leb_spec 1 (len s)), (Z.leb_spec (len s) 20000); cbn [andb];
    split; try done; try (intros [[= ->] ?]; lia).
  - intros [= ->]. split; [done|lia].
  - intros [[= ->] ?]. done.
Qed.

Lemma accepted_bounds text : accepted text -> 1 <= len text <= 20000.
Proof.
  intros [H1 H2]. pose proof (trim_length text). unfold len in *. lia.
Qed.

(** X4. The three JSON handlers answer 200 or 400 and never 500: the core
    raises no exception. They answer 200 exactly when the body is an object
    whose enumerated field is valid and whose text is a string of at most
    20000 code units with at least 50 left after trimming. *)
Theorem handlers_contract lc (body : option Body) :
  (status (analyzeHandler lc body) = 200 \/ status (analyzeHandler lc body) = 400)
  /\ (status (roastHandler lc body) = 200 \/ status (roastHandler lc body) = 400)
  /\ (status (improveHandler lc body) = 200 \/ status (improveHandler lc body) = 400)
  /\ (status (analyzeHandler lc body) = 200 <->
      exists b text, body = Some b /\ body_text b = VString text /\ accepted text
        /\ (body_sourceType b = VString (str "paste") \/ body_sourceType b = VString (str "pdf")))
  /\ (status (roastHandler lc body) = 200 <->
      exists b text, body = Some b /\ body_text b = VString text /\ accepted text
        /\ (body_roastLevel b = VString (str "light") \/ body_roastLevel b = VString (str "medium")
            \/ body_roastLevel b = VString (str "spicy")))
  /\ (status (improveHandler lc body) = 200 <->
      exists b text, body = Some b /\ body_text b = VString text /\ accepted text).
Proof.
  assert (forall A (values : list (string * A)) v,
            is_Some (zEnum values v) ->
            exists s, v = VString s /\ s ∈ (fun e => str (fst e)) <$> values) as Henum.
  { intros A values v [x Hx]. destruct v as [|s|]; try done. exists s. split; [done|].
    cbn [zEnum] in Hx. destruct (List.find _ values) as [e|] eqn:He; [|done].
    apply find_some in He as [Hin Hdec]. apply bool_decide_eq_true_1 in Hdec. subst s.
    apply list_elem_of_fmap. exists e. split; [done|]. by apply list_elem_of_In. }
  assert (forall text, (len (trim text) <? 50) = false -> len text <= 20000 -> accepted text) as Hacc.
  { intros text H1 H2. split; [done|]. by apply Z.ltb_ge. }
  assert (forall text, accepted text -> (len (trim text) <? 50) = false) as Hacc'.
  { intros text [_ H]. by apply Z.ltb_ge. }
  assert (status (analyzeHandler lc body) = 200 <->
      exists b text, body = Some b /\ body_text b = VString text /\ accepted text
        /\ (body_sourceType b = VString (str "paste") \/ body_sourceType b = VString (str "pdf"))) as Ha.
  { unfold analyzeHandler, analyzeInputSchema. split.
    - destruct body as [b|]; [|done]. ostep.
      destruct (zOptional zText (body_text b)) as [text|] eqn:Ht; [|done]. ostep.
      destruct (zEnum _ (body_sourceType b)) as [st|] eqn:Hs; [|done]. ostep.
      destruct text as [text|]; [|done].
      destruct (body_text b) as [|s|] eqn:Hb; try done.
      cbn [zOptional] in Ht. destruct (zText (VString s)) as [text'|] eqn:Hz; [|done].
      injection Ht as ->. apply zText_Some in Hz as [[= ->] Hlen].
      destruct (negb (truthy (Some text)) || (len (trim text) <? 50)) eqn:Hshort; [done|].
      intros _. exists b, text. split; [done|]. split; [done|].
      apply orb_false_elim in Hshort as [_ Hshort].
      split; [apply Hacc; [done|lia]|].
      destruct (Henum _ _ _ (mk_is_Some _ _ Hs)) as (s' & -> & Hin).
      cbn in Hin. apply elem_of_cons in Hin as [->|Hin]; [by left|].
      apply elem_of_cons in Hin as [->|Hin]; [by right|]. by apply elem_of_nil in Hin.
    - intros (b & text & -> & Hb & Hok & Hst). ostep. rewrite Hb. cbn [zOptional].
      pose proof (accepted_bounds _ Hok) as Hlen.
      assert (zText (VString text) = Some text) as -> by (apply zText_Some; done).
      cbn [fmap option_fmap option_map]. ostep.
      assert (exists st, zEnum [("paste", "paste"); ("pdf", "pdf")]%string (body_sourceType b) = Some st)
        as [st ->] by (destruct Hst as [-> | ->]; eexists; vm_compute; reflexivity).
      ostep. rewrite (Hacc' _ Hok).
      assert (truthy (Some text) = true) as ->.
      { destruct text; [|done]. unfold len in Hlen. simpl in Hlen. lia. }
      cbn [negb orb].
      destruct (analyzeResume_total lc text) as (a & -> & _). done. }
  assert (status (roastHandler lc body) = 200 <->
      exists b text, body = Some b /\ body_text b = VString text /\ accepted text
        /\ (body_roastLevel b = VString (str "light") \/ body_roastLevel b = VString (str "medium")
            \/ body_roastLevel b = VString (str "spicy"))) as Hr.
  { unfold roastHandler, roastInputSchema. split.
    - destruct body as [b|]; [|done]. ostep.
      destruct (zText (body_text b)) as [text|] eqn:Hz; [|done]. ostep.
      destruct (zEnum _ (body_roastLevel b)) as [level|] eqn:Hs; [|done]. ostep.
      apply zText_Some in Hz as [Hb Hlen].
      destruct (len (trim text) <? 50) eqn:Hshort; [done|].
      intros _. exists b, text. split; [done|]. split; [done|].
      split; [apply Hacc; [done|lia]|].
      destruct (Henum _ _ _ (mk_is_Some _ _ Hs)) as (s' & -> & Hin).
      cbn in Hin. apply elem_of_cons in Hin as [->|Hin]; [by left|].
      apply elem_of_cons in Hin as [->|Hin]; [right; by left|].
      apply elem_of_cons in Hin as [->|Hin]; [right; by right|]. by apply elem_of_nil in Hin.
    - intros (b & text & -> & Hb & Hok & Hst). ostep.
      pose proof (accepted_bounds _ Hok) as Hlen.
      assert (zText (body_text b) = Some text) as -> by (apply zText_Some; done). ostep.
      assert (exists level, zEnum [("light", light); ("medium", medium); ("spicy", spicy)]%string
                              (body_roastLevel b) = Some level)
        as [level ->] by (destruct Hst as [-> | [-> | ->]]; eexists; vm_compute; reflexivity).
      ostep. rewrite (Hacc' _ Hok).
      destruct (generateRoast_total lc text level) as (r & -> & _). done. }
  assert (status (improveHandler lc body) = 200 <->
      exists b text, body = Some b /\ body_text b = VString text /\ accepted text) as Hi.
  { unfold improveHandler, improveInputSchema. split.
    - destruct body as [b|]; [|done]. ostep.
      destruct (zText (body_text b)) as [text|] eqn:Hz; [|done].
      apply zText_Some in Hz as [Hb Hlen].
      destruct (len (trim text) <? 50) eqn:Hshort; [done|].
      intros _. exists b, text. split; [done|]. split; [done|]. apply Hacc; [done|lia].
    - intros (b & text & -> & Hb & Hok). ostep.
      pose proof (accepted_bounds _ Hok) as Hlen.
      assert (zText (body_text b) = Some text) as -> by (apply zText_Some; done).
      rewrite (Hacc' _ Hok).
      destruct (generateImprovements_total lc text) as (i & -> & _). done. }
  split.
  { unfold analyzeHandler. destruct (analyzeInputSchema body) as [[[text|] st]|]; try (by right).
    destruct (negb (truthy (Some text)) || (len (trim text) <? 50)); [by right|].
    destruct (analyzeResume_total lc text) as (a & -> & _). by left. }
  split.
  { unfold roastHandler. destruct (roastInputSchema body) as [[text level]|]; try (by right).
    destruct (len (trim text) <? 50); [by right|].
    destruct (generateRoast_total lc text level) as (r & -> & _). by left. }
  split.
  { unfold improveHandler. destruct (improveInputSchema body) as [text|]; try (by right).
    destruct (len (trim text) <? 50); [by right|].
    destruct (generateImprovements_total lc text) as (i & -> & _). by left. }
  exact (conj Ha (conj Hr Hi)).
Qed.

(** X5. A text the extract route returns is between 100 and 20000 code units
    long, its preview is its first 800, and sent on as a pdf text it is never
    an invalid input for the analyze route: that one answers with an analysis,
    or finds the trimmed text too short. *)
Theorem extract_then_analyze lc (upload : Upload) (text preview : jsstring) (total : Z)
    (roastLevel : jsval) :
  extractHandler upload = mkResponse 200 (Extracted text preview total) ->
  100 <= len text <= 20000
  /\ len text <= total
  /\ preview = take 800 text
  /\ let r := analyzeHandler lc (Some (mkBody (VString text) (VString (str "pdf")) roastLevel)) in
     (exists a, r = mkResponse 200 (Analysis a) /\ analyzeResume lc text = Some a)
     \/ (len (trim text) < 50
         /\ r = mkResponse 400
                  (ErrorMessage (str "Resume text is too short. Please provide at least 50 characters."))).
Proof.
  unfold extractHandler. intros H.
  destruct upload as [code message|[[|data_text]|]];
    try (case_bool_decide; discriminate H); try discriminate H.
  set (full := orElse data_text []) in *.
  destruct (Z.ltb_spec (len full) 100) as [Hlt|Hge]; [discriminate H|].
  injection H as <- <- <-.
  assert (100 <= len (take (Z.to_nat 20000) full) <= 20000) as Hlen.
  { unfold len in *. rewrite length_take. lia. }
  split; [exact Hlen|].
  split; [unfold len; rewrite length_take; lia|].
  split; [rewrite take_take; f_equal; lia|].
  cbv zeta. set (text := take (Z.to_nat 20000) full) in *.
  unfold analyzeHandler, analyzeInputSchema. ostep. cbn [body_text body_sourceType zOptional].
  assert (zText (VString text) = Some text) as -> by (apply zText_Some; split; [done|lia]).
  cbn [fmap option_fmap option_map]. ostep.
  assert (zEnum [("paste", "paste"); ("pdf", "pdf")]%string (VString (str "pdf")) = Some "pdf"%string)
    as -> by (vm_compute; reflexivity).
  ostep.
  assert (truthy (Some text) = true) as ->.
  { destruct text; [|done]. unfold len in Hlen. simpl in Hlen. lia. }
  cbn [negb orb].
  destruct (Z.ltb_spec (len (trim text)) 50) as [Hshort|Hok].
  - right. done.
  - left. destruct (analyzeResume_total lc text) as (a & Ha & _). rewrite Ha. by exists a.
Qed.



(** X7. The colour of the score on the results page goes with the label the
    analyzer returns: red with High Risk, amber with Medium Risk, emerald with
    Low Risk. *)
Theorem score_colour_matches_label lc (text : jsstring) :
  exists a,
    analyzeResume lc text = Some a
    /\ (getScoreColor (score a) = "text-red-400"%string <-> label a = str "High Risk")
    /\ (getScoreColor (score a) = "text-amber-400"%string <-> label a = str "Medium Risk")
    /\ (getScoreColor (score a) = "text-emerald-400"%string <-> label a = str "Low Risk").
Proof.
  unfold analyzeResume. cbv zeta.
  generalize (extractFeatures lc text). intros f.
  destruct (breakdownOf_total f) as (b & -> & Hb). ostep.
  destruct (weightedAvg_total (b_score <$> b)) as [w ->]; [by rewrite length_fmap|]. ostep.
  destruct (redFlagsOf_total f) as [flags ->]. ostep.
  destruct (summaryOf_total lc (strengthsOf f) flags) as [s ->]. ostep.
  eexists. split; [reflexivity|]. cbn [score label].
  unfold getScoreColor, labelOf.
  destruct (11 - riskScore w <=? 3); [repeat split; intros; done|].
  destruct (11 - riskScore w <=? 6); repeat split; intros; done.
Qed.

(** ** The seed, the shuffle and the pick *)

Lemma toInt32_range (z : Z) : -2147483648 <= toInt32 z < 2147483648.
Proof.
  unfold toInt32. pose proof (Z.mod_pos_bound z 4294967296 ltac:(lia)).
  destruct (Z.leb_spec 2147483648 (z mod 4294967296)); lia.
Qed.

Lemma toInt32_shift (z k : Z) : toInt32 (z + k * 4294967296) = toInt32 z.
Proof. unfold toInt32. by rewrite Z_mod_plus_full. Qed.

Lemma toInt32_wraps (z : Z) : exists k, toInt32 z = z + k * 4294967296.
Proof.
  unfold toInt32. pose proof (Z.div_mod z 4294967296 ltac:(lia)) as H.
  destruct (Z.leb_spec 2147483648 (z mod 4294967296)).
  - exists (- (z / 4294967296) - 1). lia.
  - exists (- (z / 4294967296)). lia.
Qed.

Lemma simpleHash_step (h c : Z) :
  toInt32 ((toInt32 (toInt32 h * 32) - toInt32 h) + c) = toInt32 (h * 31 + c).
Proof.
  destruct (toInt32_wraps h) as [k ->].
  destruct (toInt32_wraps ((h + k * 4294967296) * 32)) as [k' ->].
  replace ((h + k * 4294967296) * 32 + k' * 4294967296 - (h + k * 4294967296) + c)
    with (h * 31 + c + (31 * k + k') * 4294967296) by lia.
  apply toInt32_shift.
Qed.

Lemma simpleHash_fold (s : jsstring) : forall h,
  foldl (fun hash char => toInt32 ((toInt32 (hash * 32) - hash) + char)) (toInt32 h) s
  = toInt32 (foldl (fun h c => h * 31 + c) h s).
Proof.
  induction s as [|c s IH]; intros h; [done|].
  cbn [foldl]. rewrite simpleHash_step. apply IH.
Qed.

(** X8. The seed of a text is the absolute value of its polynomial hash in
    base 31 wrapped to 32 bits; it lies between 0 and 2^31, and it reaches
    2^31, which is no 32-bit integer. *)
Theorem simpleHash_polynomial :
  (forall s, simpleHash s = Z.abs (toInt32 (polyHash s)))
  /\ (forall s, 0 <= simpleHash s <= 2147483648)
  /\ simpleHash [] = 0
  /\ simpleHash (str "polygenelubricants") = 2147483648.
Proof.
  assert (forall s, simpleHash s = Z.abs (toInt32 (polyHash s))) as H.
  { intros s. unfold simpleHash, polyHash. f_equal.
    change 0 with (toInt32 0) at 1. apply simpleHash_fold. }
  split; [exact H|]. split.
  { intros s. rewrite H. pose proof (toInt32_range (polyHash s)). lia. }
  split; vm_compute; reflexivity.
Qed.

(** X9. The seeded shuffle returns a permutation of its argument, for every
    array and every seed: no index it computes falls outside the array. An
    array of at most one element comes back as it is. *)
Theorem seededShuffle_permutes {T} (arr : list T) (seed : Z) :
  exists result,
    seededShuffle arr seed = Some result
    /\ result ≡ₚ arr
    /\ length result = length arr
    /\ ((length arr <= 1)%nat -> result = arr).
Proof.
  destruct (seededShuffle_perm arr seed) as (result & Hr & Hp).
  exists result. split; [exact Hr|]. split; [exact Hp|].
  split; [by rewrite Hp|].
  intros Hlen. destruct arr as [|x [|y arr]].
  - cbn in Hr. by injection Hr as <-.
  - cbn in Hr. by injection Hr as <-.
  - cbn [length] in Hlen. lia.
Qed.

(** X10. The seeded pick returns a member of a non-empty array, at an index
    below its length; of an empty array it returns nothing, the remainder
    by zero being no index. *)
Theorem seededPick_member {T} (arr : list T) (seed : Z) :
  (arr <> [] ->
   exists j x, jsRem (lcg seed) (len arr) = Some j /\ 0 <= j < len arr
               /\ seededPick arr seed = Some x /\ arr !! Z.to_nat j = Some x /\ x ∈ arr)
  /\ (arr = [] -> seededPick arr seed = None).
Proof.
  split.
  - intros Hne.
    destruct (jsRem_pos (lcg seed) (len arr)) as (j & Hj & Hr).
    { pose proof (lcg_range seed). lia. }
    { unfold len. destruct arr; [done|]. cbn [length]. lia. }
    destruct (lookup_lt_is_Some_2 arr (Z.to_nat j)) as [x Hx]; [unfold len in Hr; lia|].
    exists j, x. split; [done|]. split; [done|].
    split; [unfold seededPick; rewrite Hj; exact Hx|].
    split; [done|]. by eapply list_elem_of_lookup_2.
  - intros ->. reflexivity.
Qed.

(** ** The make-up of a roast *)

(** ** The phases of a roast *)

Lemma finisherLoop_full ctx seed shuffled n : forall i ls,
  stocked shuffled -> (i + n <= length shuffled)%nat -> len ls + Z.of_nat n <= 14 ->
  exists ls', finisherLoop ctx seed shuffled i n ls = Some (ls ++ ls')
              /\ length ls' = n /\ Forall (drawn ctx shuffled) ls'.
Proof.
  induction n as [|n IH]; intros i ls Hst Hlen Hmax.
  - exists []. by rewrite app_nil_r.
  - cbn [finisherLoop].
    destruct (Z.leb_spec 14 (len ls)) as [Hge|Hlt]; [lia|].
    destruct (lookup_lt_is_Some_2 shuffled i) as [t Ht]; [lia|].
    rewrite Ht. ostep.
    destruct (pick_line ctx shuffled t (seed + 300 + Z.of_nat i) (seed + 300 + Z.of_nat i))
      as (line & -> & Hd); [done | by eapply list_elem_of_lookup_2 |].
    ostep.
    destruct (IH (S i) (ls ++ [replacePlaceholders line ctx (seed + 300 + Z.of_nat i)]))
      as (ls' & -> & Hl & Hall); [done | lia | |].
    { unfold len in *. rewrite length_app. cbn [length]. lia. }
    exists (replacePlaceholders line ctx (seed + 300 + Z.of_nat i) :: ls').
    split; [by rewrite <- app_assoc|]. split; [cbn [length]; lia|]. by constructor.
Qed.

(** A call of the roaster, phase by phase. *)
Lemma roastWith_phases (templates : list RoastTemplate) (ctx : RoastContext)
    (text : jsstring) (level : RoastLevel) :
  stocked templates ->
  exists sht opening middle closing m ttl red,
    let seed := simpleHash text in
    let el := eligibleOf templates ctx level in
    let all := opening ++ middle ++ closing in
    sht ≡ₚ triggeredOf el
    /\ (exists fill more, middle = fill ++ more
                          /\ triggeredLoop ctx seed sht ∅ opening = Some (opening ++ fill))
    /\ length opening = Nat.min 2 (length (overallOf el))
    /\ length closing = Nat.min 2 (length (finisherOf el))
    /\ (length (opening ++ middle) <= 12)%nat
    /\ Forall (drawn ctx (overallOf el)) opening
    /\ Forall (drawn ctx (triggeredOf el)) middle
    /\ Forall (drawn ctx (finisherOf el)) closing
    /\ red ≡ₚ allRedemptions
    /\ roastWith templates ctx text level =
         (Some {| title := ttl; roastLines := all; bestLine := bestOf all m;
                  redemption := take 3 red; boundaries := roastBoundaries |},
          templates).
Proof.
  intros Hst. unfold roastWith. cbv zeta.
  fold (eligibleOf templates ctx level).
  fold (overallOf (eligibleOf templates ctx level)).
  fold (triggeredOf (eligibleOf templates ctx level)).
  fold (finisherOf (eligibleOf templates ctx level)).
  set (el := eligibleOf templates ctx level) in *.
  set (seed := simpleHash text).
  assert (el ⊆ templates) as Hel by apply filter_sub.
  assert (stocked (overallOf el)) as Hso.
  { eapply stocked_sub; [|exact Hst]. etrans; [apply filter_sub|exact Hel]. }
  assert (stocked (triggeredOf el)) as Hstr.
  { eapply stocked_sub; [|exact Hst]. etrans; [apply filter_sub|exact Hel]. }
  assert (stocked (finisherOf el)) as Hsf.
  { eapply stocked_sub; [|exact Hst]. etrans; [apply filter_sub|exact Hel]. }
  destruct (seededShuffle_perm (overallOf el) seed) as (sho & -> & Hpo). ostep.
  assert (stocked sho) as Hsho.
  { eapply stocked_sub; [|exact Hso]. intros x. by rewrite Hpo. }
  destruct (overallLoop_spec ctx seed sho (Nat.min 2 (length sho)) 0 [] Hsho)
    as (lines1 & -> & Hl1 & Hd1); [lia|]. ostep. rewrite (app_nil_l lines1).
  destruct (seededShuffle_perm (triggeredOf el) (seed + 100)) as (sht & Hsht & Hpt).
  rewrite Hsht. ostep.
  destruct (triggeredLoop_spec ctx seed (triggeredOf el) sht ∅ lines1 Hstr)
    as (lines2 & Htl & Hd2).
  { intros x. by rewrite Hpt. }
  rewrite Htl. ostep.
  destruct (fillLoop_spec ctx seed (triggeredOf el) 10 (lines1 ++ lines2) Hstr)
    as (lines3 & Hfl & Hd3). rewrite Hfl. ostep.
  assert (length ((lines1 ++ lines2) ++ lines3) <= 12)%nat as H12.
  { pose proof (triggeredLoop_len _ _ _ _ _ _ Htl) as Hb2.
    pose proof (fillLoop_len _ _ _ _ _ _ Hfl) as Hb3.
    assert (length lines1 <= 2)%nat by lia.
    unfold len in *. lia. }
  destruct (seededShuffle_perm (finisherOf el) (seed + 200)) as (shf & -> & Hpf). ostep.
  assert (stocked shf) as Hshf.
  { eapply stocked_sub; [|exact Hsf]. intros x. by rewrite Hpf. }
  destruct (finisherLoop_full ctx seed shf (Nat.min 2 (length shf)) 0
              ((lines1 ++ lines2) ++ lines3) Hshf)
    as (lines4 & -> & Hl4 & Hd4); [lia | unfold len; lia |]. ostep.
  rewrite <- !app_assoc.
  set (all := lines1 ++ lines2 ++ lines3 ++ lines4).
  destruct (jsRem_pos seed (Z.max 1 (Z.min (len all - 2) 8))) as (m & Hm & Hmr);
    [apply simpleHash_nonneg | lia |].
  rewrite Hm. ostep.
  destruct (seededPick_elem (titles level) seed) as (ttl & -> & Httl).
  { by destruct level. }
  ostep.
  destruct (seededShuffle_perm allRedemptions (seed + 500)) as (red & -> & Hpr). ostep.
  exists sht, lines1, (lines2 ++ lines3), lines4, m, ttl, red. cbv zeta.
  split; [exact Hpt|].
  split; [exists lines2, lines3; split; [reflexivity|exact Htl]|].
  split; [by rewrite Hl1, Hpo|]. split; [by rewrite Hl4, Hpf|].
  split; [by rewrite app_assoc|].
  split; [eapply Forall_impl; [exact Hd1|]; intros l; apply drawn_mono; intros x; by rewrite Hpo|].
  split; [by apply Forall_app|].
  split; [eapply Forall_impl; [exact Hd4|]; intros l; apply drawn_mono; intros x; by rewrite Hpf|].
  split; [exact Hpr|].
  unfold all. rewrite <- !app_assoc. reflexivity.
Qed.

Lemma filter_filter_comm {A} (f g : A -> bool) (l : list A) :
  List.filter f (List.filter g l) = List.filter g (List.filter f l).
Proof.
  induction l as [|x l IH]; [done|]. cbn [List.filter].
  destruct (f x) eqn:Hf, (g x) eqn:Hg; cbn [List.filter]; rewrite ?Hf, ?Hg, IH; done.
Qed.

(** An overall and a finisher template of each level up to the one asked
    for are eligible, whatever the resume. *)
Lemma bookends_eligible ctx level :
  length (overallOf (eligibleOf TEMPLATES ctx level)) = S (Z.to_nat (LEVEL_ORDER level))
  /\ length (finisherOf (eligibleOf TEMPLATES ctx level)) = S (Z.to_nat (LEVEL_ORDER level)).
Proof.
  unfold overallOf, finisherOf, eligibleOf. rewrite !(filter_filter_comm _ (fun t => _ && trigger t ctx)).
  split.
  - set (ts := List.filter (fun t => bool_decide (category t = "overall"%string)) TEMPLATES).
    vm_compute in ts. subst ts. by destruct level.
  - set (ts := List.filter (fun t => bool_decide (category t = "finisher"%string)) TEMPLATES).
    vm_compute in ts. subst ts. by destruct level.
Qed.

Lemma generateRoast_phases lc text level :
  exists sht opening middle closing m ttl red,
    let ctx := buildContext lc text in
    let seed := simpleHash text in
    let el := eligibleOf TEMPLATES ctx level in
    let all := opening ++ middle ++ closing in
    sht ≡ₚ triggeredOf el
    /\ (exists fill more, middle = fill ++ more
                          /\ triggeredLoop ctx seed sht ∅ opening = Some (opening ++ fill))
    /\ length opening = Nat.min 2 (length (overallOf el))
    /\ length closing = Nat.min 2 (length (finisherOf el))
    /\ (length (opening ++ middle) <= 12)%nat
    /\ Forall (drawn ctx (overallOf el)) opening
    /\ Forall (drawn ctx (triggeredOf el)) middle
    /\ Forall (drawn ctx (finisherOf el)) closing
    /\ red ≡ₚ allRedemptions
    /\ generateRoast lc text level =
         Some {| title := ttl; roastLines := all; bestLine := bestOf all m;
                 redemption := take 3 red; boundaries := roastBoundaries |}.
Proof.
  destruct (roastWith_phases TEMPLATES (buildContext lc text) text level TEMPLATES_stocked)
    as (sht & opening & middle & closing & m & ttl & red & H).
  cbv zeta in H. destruct H as (H1 & H2 & H3 & H4 & H5 & H6 & H7 & H8 & H9 & Hrun).
  exists sht, opening, middle, closing, m, ttl, red. cbv zeta.
  split; [exact H1|]. split; [exact H2|]. split; [exact H3|]. split; [exact H4|].
  split; [exact H5|]. split; [exact H6|]. split; [exact H7|]. split; [exact H8|].
  split; [exact H9|]. exact (f_equal fst Hrun).
Qed.

(** X11. A roast is an opening, a middle and a closing: one overall line at
    the light level and two at the others, then up to ten lines on what the
    resume triggers, then one finisher line at the light level and two at the
    others; fourteen lines at most. *)
Theorem roast_shape lc (text : jsstring) (level : RoastLevel) :
  exists r opening middle closing,
    let ctx := buildContext lc text in
    let el := eligibleOf TEMPLATES ctx level in
    let bookend := match level with light => 1%nat | _ => 2%nat end in
    generateRoast lc text level = Some r
    /\ roastLines r = opening ++ middle ++ closing
    /\ length opening = bookend
    /\ length closing = bookend
    /\ (length middle <= 12 - bookend)%nat
    /\ (length (roastLines r) <= 14)%nat
    /\ Forall (drawn ctx (overallOf el)) opening
    /\ Forall (drawn ctx (triggeredOf el)) middle
    /\ Forall (drawn ctx (finisherOf el)) closing.
Proof.
  destruct (generateRoast_phases lc text level)
    as (sht & opening & middle & closing & m & ttl & red & H).
  cbv zeta in H. destruct H as (_ & _ & H3 & H4 & H5 & H6 & H7 & H8 & _ & Hrun).
  destruct (bookends_eligible (buildContext lc text) level) as [Ho Hf].
  rewrite Ho in H3. rewrite Hf in H4.
  eexists _, opening, middle, closing. cbv zeta.
  split; [exact Hrun|]. cbn [roastLines].
  assert (length opening = match level with light => 1%nat | _ => 2%nat end) as Hop
    by (rewrite H3; by destruct level).
  assert (length closing = match level with light => 1%nat | _ => 2%nat end) as Hcl
    by (rewrite H4; by destruct level).
  rewrite length_app in H5.
  split; [reflexivity|]. split; [exact Hop|]. split; [exact Hcl|].
  split; [clear -H5 Hop; lia|].
  split; [rewrite !length_app; clear -H5 Hop Hcl; destruct level; lia|].
  split; [exact H6|]. split; [exact H7|exact H8].
Qed.

Lemma drawn_eligible (templates : list RoastTemplate) ctx
    (X : list RoastTemplate -> list RoastTemplate) level line :
  (forall ts, X ts ⊆ ts) ->
  drawn ctx (X (eligibleOf templates ctx level)) line ->
  exists t l sd,
    t ∈ templates
    /\ LEVEL_ORDER (minLevel t) <= LEVEL_ORDER level
    /\ trigger t ctx = true
    /\ l ∈ lines t
    /\ line = replacePlaceholders l ctx sd.
Proof.
  intros HX (t & l & sd & Ht & Hl & ->).
  apply HX in Ht. unfold eligibleOf in Ht.
  apply list_elem_of_In, filter_In in Ht as [Ht Hf].
  apply andb_true_iff in Hf as [Hlev Htr].
  exists t, l, sd. split; [by apply list_elem_of_In|].
  split; [by apply Z.leb_le|]. done.
Qed.

(** X12. Every line of a roast comes from a template whose level is at most
    the level asked for and whose trigger holds of the resume: a light roast
    has no line of a medium or spicy template in it. *)
Theorem roast_lines_eligible lc (text : jsstring) (level : RoastLevel) :
  exists r,
    generateRoast lc text level = Some r
    /\ forall line, line ∈ roastLines r ->
         exists t l sd,
           t ∈ TEMPLATES
           /\ LEVEL_ORDER (minLevel t) <= LEVEL_ORDER level
           /\ trigger t (buildContext lc text) = true
           /\ l ∈ lines t
           /\ line = replacePlaceholders l (buildContext lc text) sd.
Proof.
  destruct (generateRoast_phases lc text level)
    as (sht & opening & middle & closing & m & ttl & red & H).
  cbv zeta in H. destruct H as (_ & _ & _ & _ & _ & H6 & H7 & H8 & _ & Hrun).
  eexists. split; [exact Hrun|]. intros line Hin.
  change (line ∈ opening ++ middle ++ closing) in Hin.
  apply elem_of_app in Hin as [Hin|Hin]; [|apply elem_of_app in Hin as [Hin|Hin]].
  - exact (drawn_eligible TEMPLATES _ overallOf level line (fun ts => filter_sub _ ts)
             (proj1 (Forall_forall _ _) H6 line Hin)).
  - exact (drawn_eligible TEMPLATES _ triggeredOf level line (fun ts => filter_sub _ ts)
             (proj1 (Forall_forall _ _) H7 line Hin)).
  - exact (drawn_eligible TEMPLATES _ finisherOf level line (fun ts => filter_sub _ ts)
             (proj1 (Forall_forall _ _) H8 line Hin)).
Qed.

Lemma TEMPLATES_fillable t l : t ∈ TEMPLATES -> l ∈ lines t -> fillable l = true.
Proof.
  intros Ht Hl.
  assert (forallb (fun t => forallb fillable (lines t)) TEMPLATES = true)
    as H by (vm_compute; reflexivity).
  pose proof (forallb_elem _ _ _ H Ht) as H'. cbn beta in H'.
  exact (forallb_elem _ _ _ H' Hl).
Qed.

Lemma detectBuzzwords_sub lc text : detectBuzzwords lc text ⊆ BUZZWORDS.
Proof. apply filter_sub. Qed.

Lemma replacePlaceholders_filled l ctx sd :
  fillable l = true -> ctx_buzzwords ctx ⊆ BUZZWORDS ->
  filled (replacePlaceholders l ctx sd) = true.
Proof.
  intros Hf Hsub. unfold fillable in Hf.
  destruct (filled l) eqn:Hfl.
  { apply andb_true_iff in Hfl as Hf'. destruct Hf' as [H1 H2].
    rewrite replacePlaceholders_absent; [done|by apply negb_true_iff|by apply negb_true_iff]. }
  assert (forall bw1 bw2, bw1 ∈ BUZZWORDS -> bw2 ∈ BUZZWORDS ->
            filled (replaceStr (str "{BW2}") (str bw2) (replaceStr (str "{BW1}") (str bw1) l)) = true)
    as H.
  { intros bw1 bw2 H1 H2.
    pose proof (forallb_elem _ _ _ Hf H1) as Hf1. cbn beta in Hf1.
    exact (forallb_elem _ _ _ Hf1 H2). }
  assert ("dynamic"%string ∈ BUZZWORDS) as Hd by (refine (bool_decide_unpack _ _); vm_compute; exact I).
  assert ("synergy"%string ∈ BUZZWORDS) as Hs by (refine (bool_decide_unpack _ _); vm_compute; exact I).
  unfold replacePlaceholders.
  destruct (ctx_buzzwords ctx) as [|bw1 [|bw2 rest]] eqn:Hb.
  - exact (H _ _ Hd Hs).
  - refine (H _ _ (Hsub _ _) Hs). left.
  - refine (H _ _ (Hsub _ _) (Hsub _ _)); [left|right; left].
Qed.

Lemma drawn_filled ctx (ls : list jsstring) :
  ctx_buzzwords ctx ⊆ BUZZWORDS ->
  Forall (drawn ctx TEMPLATES) ls ->
  Forall (fun line => includes line (str "{BW1}") = false
                      /\ includes line (str "{BW2}") = false) ls.
Proof.
  intros Hsub Hd. eapply Forall_impl; [exact Hd|].
  intros line (t & l & sd & Ht & Hl & ->).
  pose proof (replacePlaceholders_filled l ctx sd (TEMPLATES_fillable t l Ht Hl) Hsub) as Hf.
  apply andb_true_iff in Hf as [H1 H2]. split; by apply negb_true_iff.
Qed.

Lemma buildContext_buzzwords lc text : ctx_buzzwords (buildContext lc text) ⊆ BUZZWORDS.
Proof. exact (detectBuzzwords_sub lc text). Qed.

(** X13. No line of a roast shows a placeholder: every [{BW1}] and [{BW2}]
    of the table is filled in, whatever the buzzwords found. *)
Theorem roast_lines_filled lc (text : jsstring) (level : RoastLevel) :
  exists r,
    generateRoast lc text level = Some r
    /\ Forall (fun line => includes line (str "{BW1}") = false
                           /\ includes line (str "{BW2}") = false) (roastLines r)
    /\ includes (bestLine r) (str "{BW1}") = false
    /\ includes (bestLine r) (str "{BW2}") = false.
Proof.
  destruct (generateRoast_run lc text level)
    as (sht & lines1 & lines2 & lines3 & lines4 & m & ttl & red & H).
  cbv zeta in H. destruct H as (_ & _ & Hl1 & Hne4 & Hd & Hm & Hmr & _ & _ & Hrun).
  set (all := lines1 ++ lines2 ++ lines3 ++ lines4) in *.
  pose proof (drawn_filled _ _ (buildContext_buzzwords lc text) Hd) as Hall.
  exists (mkRoast ttl all (bestOf all m) (take 3 red) roastBoundaries).
  split; [exact (f_equal fst Hrun)|].
  clear Hrun.
  change (Forall (fun line => includes line (str "{BW1}") = false
                              /\ includes line (str "{BW2}") = false) all
          /\ includes (bestOf all m) (str "{BW1}") = false
          /\ includes (bestOf all m) (str "{BW2}") = false).
  split; [exact Hall|].
  assert (bestOf all m ∈ all) as Hbest.
  { assert (2 <= length all)%nat as Hn.
    { unfold all. rewrite !length_app.
      destruct lines4; [exfalso; apply Hne4; reflexivity|]. cbn [length]. lia. }
    assert (Z.to_nat (m + 1) < length all)%nat as Hidx.
    { clear -Hn Hmr. unfold len in *. lia. }
    destruct (lookup_lt_is_Some_2 all _ Hidx) as [best Hb].
    unfold bestOf. rewrite Hb.
    assert (best <> []) as Hne.
    { eapply drawn_nonempty; [reflexivity|].
      exact (proj1 (Forall_forall _ _) Hd best (list_elem_of_lookup_2 _ _ _ Hb)). }
    destruct best; [exfalso; apply Hne; reflexivity|].
    eapply list_elem_of_lookup_2. exact Hb. }
  exact (proj1 (Forall_forall _ _) Hall _ Hbest).
Qed.

(** X14. The redemption list is three different suggestions out of the
    eight. *)
Theorem redemption_distinct lc (text : jsstring) (level : RoastLevel) :
  exists r,
    generateRoast lc text level = Some r
    /\ length (redemption r) = 3%nat
    /\ NoDup (redemption r)
    /\ redemption r ⊆ allRedemptions.
Proof.
  destruct (generateRoast_phases lc text level)
    as (sht & opening & middle & closing & m & ttl & red & H).
  cbv zeta in H. destruct H as (_ & _ & _ & _ & _ & _ & _ & _ & Hred & Hrun).
  eexists. split; [exact Hrun|]. cbn [redemption].
  assert (NoDup allRedemptions) as Hnd by (refine (bool_decide_unpack _ _); vm_compute; exact I).
  split; [rewrite length_take, Hred; reflexivity|].
  split.
  - apply (sublist_NoDup _ red); [by rewrite Hred|]. apply sublist_take.
  - intros x Hx. rewrite <- Hred. eapply subseteq_take. exact Hx.
Qed.

(** X15. Whatever the resume triggers is roasted: for every eligible
    template that is neither an overall nor a finisher one, the roast has a
    line of an eligible template of the same category. *)
Theorem roast_covers_triggered lc (text : jsstring) (level : RoastLevel) :
  exists r,
    generateRoast lc text level = Some r
    /\ forall t0, t0 ∈ triggeredOf (eligibleOf TEMPLATES (buildContext lc text) level) ->
         exists t l sd,
           t ∈ triggeredOf (eligibleOf TEMPLATES (buildContext lc text) level)
           /\ category t = category t0
           /\ l ∈ lines t
           /\ replacePlaceholders l (buildContext lc text) sd ∈ roastLines r.
Proof.
  destruct (generateRoast_phases lc text level)
    as (sht & opening & middle & closing & m & ttl & red & H).
  cbv zeta in H.
  destruct H as (Hperm & (fill & more & -> & Htl) & Hop & _ & _ & _ & Hmid & _ & _ & Hrun).
  eexists. split; [exact Hrun|]. cbn [roastLines]. intros t0 Ht0.
  set (ctx := buildContext lc text) in *.
  set (el := triggeredOf (eligibleOf TEMPLATES ctx level)) in *.
  assert (hasLineOf ctx el (category t0) (opening ++ fill)) as Hcov.
  { eapply (triggeredLoop_covers ctx (simpleHash text) (category t0) el)
      with (ts := sht) (used := ∅) (ls := opening).
    - intros t Ht. apply triggered_category. exact (triggeredOf_eligible_sub _ _ t Ht).
    - apply triggered_category. exact (triggeredOf_eligible_sub _ _ t0 Ht0).
    - intros t. by rewrite Hperm.
    - apply empty_subseteq.
    - rewrite size_empty. unfold len. lia.
    - intros Hin. apply elem_of_empty in Hin. destruct Hin.
    - left. exists t0. split; [by rewrite Hperm|reflexivity].
    - exact Htl. }
  destruct Hcov as (t & l & sd & Ht & Hc & Hl & Hin).
  exists t, l, sd. split; [exact Ht|]. split; [exact Hc|]. split; [exact Hl|].
  rewrite !app_assoc. apply elem_of_app. left. apply elem_of_app. left. exact Hin.
Qed.

(** ** Witnesses of the further properties *)

Lemma rateLimit_quota_witness :
  passes (TooMany 3600) = bool_decide (20 < 20)%nat.
Proof.
  apply (rateLimit_quota ∅ officeRequest 0 (replicate 20 0)).
  - unfold windowOpen. rewrite lookup_empty. exact I.
  - apply Forall_replicate. unfold WINDOW_MS. lia.
  - vm_compute. reflexivity.
Defined.

Lemma rateLimit_lockout_ends_witness :
  last (snd (serveAll {[keyOf officeRequest := mkEntry 25 1000]}
               ((fun t => (officeRequest, t)) <$> ([500; 1000] ++ [1001])))) = Some Next.
Proof.
  apply (rateLimit_lockout_ends {[keyOf officeRequest := mkEntry 25 1000]} officeRequest
           (mkEntry 25 1000) [500; 1000] 1001).
  - apply lookup_singleton_eq.
  - repeat constructor; cbn [resetAt]; lia.
  - cbn [resetAt]. lia.
Defined.

Lemma extract_then_analyze_witness :
  100 <= len hundredChars <= 20000.
Proof.
  apply (extract_then_analyze asciiLower (Uploaded (Some (PdfData (Some hundredChars))))
           hundredChars (take 800 hundredChars) 100 VUndefined).
  vm_compute. reflexivity.
Defined.
